(** * H.235 media encryption engine (h235crypto.cxx)

    A shallow embedding of [H235CryptoHelper], [H235CryptoEngine] and
    [H235Session] and the properties of the padding policy, the relaxed
    final block, the IV tiling and the key sizing, of ciphertext stealing
    and of the update in several calls, and of the session from its
    creation through the transport of the media key to the frames.

    Conventions of the embedding.
    - [unsigned char] is [Byte.byte]; a buffer is a [list byte]; a pointer
      [p + k] into a buffer is [skipn k p]; [int], [unsigned] and [PINDEX]
      are [Z].  Payload lengths are RTP frame sizes, far from the range of
      [int], so no wrap-around occurs in any length computation.
    - An output pair [(out, *outl)] is returned as the list of the [*outl]
      bytes written at [out]; state reached through [this] or through a
      context pointer is passed in and returned.
    - A null pointer is [None]; dereferencing it, or dividing by zero, makes
      the engine operation return [None].
    - The AES block functions, the OID string constants of the headers, the
      build option [H323_H235_AES256] and the Diffie-Hellman computation
      are not part of h235crypto.cxx: they are variables of the section.
      So is what [EVP_Cipher] returns on success, 1 or the number of bytes
      written, which differs between the versions of OpenSSL; the helper
      returns 0 where the call returns 0.
    - Of [RTP_DataFrame] (rtp.h) the record keeps what the session reads
      and writes: the header bytes from the sequence number on, the padding
      bit and the payload.  The in-place frame functions, which go through
      the member [m_ivSequence] and read [m_frameBuffer] beyond what the
      engine reports as written, are not embedded. *)

From Stdlib Require Import String.
From Stdlib Require Import ZArith List Lia Bool.
From Stdlib Require Import Strings.Byte.
Import ListNotations.
Open Scope Z_scope.

(** ** Bytes and buffers *)

Definition byte_to_Z (b : byte) : Z := Z.of_N (Byte.to_N b).

Definition byte_of_Z (z : Z) : byte :=
  match Byte.of_N (Z.to_N z) with
  | Some b => b
  | None => x00
  end.

(** [a ^ b] on [unsigned char]. *)
Definition byte_xor (a b : byte) : byte :=
  let '(a0, (a1, (a2, (a3, (a4, (a5, (a6, a7))))))) := Byte.to_bits a in
  let '(b0, (b1, (b2, (b3, (b4, (b5, (b6, b7))))))) := Byte.to_bits b in
  Byte.of_bits (xorb a0 b0, (xorb a1 b1, (xorb a2 b2, (xorb a3 b3,
               (xorb a4 b4, (xorb a5 b5, (xorb a6 b6, xorb a7 b7))))))).

(** [for (i = 0; i < bl; i++) a[i] = a[i] ^ b[i]] on the first bytes of two
    buffers. *)
Fixpoint xor_bytes (a b : list byte) : list byte :=
  match a, b with
  | x :: a', y :: b' => byte_xor x y :: xor_bytes a' b'
  | _, _ => []
  end.

(** [memcpy(dst + off, src, n)]: the new contents of [dst]. *)
Definition memcpy (dst : list byte) (off : Z) (src : list byte) (n : Z) : list byte :=
  firstn (Z.to_nat off) dst ++ firstn (Z.to_nat n) src
    ++ skipn (Z.to_nat (off + n)) dst.

(** [memset(dst + off, c, n)]: the new contents of [dst]. *)
Definition memset (dst : list byte) (off : Z) (c : byte) (n : Z) : list byte :=
  firstn (Z.to_nat off) dst ++ repeat c (Z.to_nat n)
    ++ skipn (Z.to_nat (off + n)) dst.

(** [PBYTEArray(n)] and [SetSize(n)] on an empty array: [n] zero bytes. *)
Definition PBYTEArray_new (n : Z) : list byte := repeat x00 (Z.to_nat n).

Definition GetSize (a : list byte) : Z := Z.of_nat (length a).

Definition IV_SEQUENCE_LEN : Z := 6.
Definition EVP_MAX_IV_LENGTH : Z := 16.
Definition EVP_MAX_BLOCK_LENGTH : Z := 32.

(** ** The IV builder *)

(** The [for] loop of [SetIV]: copies number [i], [i+1], ... of the seed,
    [cnt] of them. *)
Fixpoint SetIV_loop (cnt : nat) (i : Z) (iv ivSequence : list byte) : list byte :=
  match cnt with
  | O => iv
  | S cnt' =>
      SetIV_loop cnt' (i + 1)
        (memcpy iv (i * IV_SEQUENCE_LEN) ivSequence IV_SEQUENCE_LEN) ivSequence
  end.

Definition SetIV (iv : list byte) (ivSequence : option (list byte)) (ivLen : Z)
  : list byte :=
  match ivSequence with
  | Some seq =>
      let iv1 := SetIV_loop (Z.to_nat (ivLen / IV_SEQUENCE_LEN)) 0 iv seq in
      if ivLen mod IV_SEQUENCE_LEN >? 0 then
        memcpy iv1 (ivLen - ivLen mod IV_SEQUENCE_LEN) seq (ivLen mod IV_SEQUENCE_LEN)
      else iv1
  | None => memset iv 0 x00 ivLen
  end.

(** ** A reference block cipher

    The engine is parametric in the block primitive.  This one (the block
    xored with the key, both brought to sixteen bytes) instantiates it where
    a concrete primitive is needed. *)

Definition block16 (l : list byte) : list byte :=
  firstn 16 (l ++ repeat x00 16).

Definition xor_cipher (key blk : list byte) : list byte :=
  xor_bytes (block16 blk) (block16 key).

(** ** Concrete data for the instances

    The NIST OIDs of AES-CBC, which the H.235 headers bind to [ID_AES128],
    [ID_AES192] and [ID_AES256]; an OID outside the set; the key
    [00 01 .. 0F], the seed [10 .. 15] and short payloads. *)

Definition OID_aes128_cbc : string := "2.16.840.1.101.3.4.1.2".
Definition OID_aes192_cbc : string := "2.16.840.1.101.3.4.1.22".
Definition OID_aes256_cbc : string := "2.16.840.1.101.3.4.1.42".
Definition OID_des_cbc : string := "1.3.14.3.2.7".

Definition demo_key : list byte :=
  [x00; x01; x02; x03; x04; x05; x06; x07; x08; x09; x0a; x0b; x0c; x0d; x0e; x0f].

Definition demo_seed : list byte := [x10; x11; x12; x13; x14; x15].

Definition demo_ABCD : list byte := [x41; x42; x43; x44].

(** A deciphered block whose last byte is 5 while the four bytes before it
    are not: malformed PKCS#7 filler. *)
Definition demo_malformed_block : list byte :=
  [x50; x4f; x4c; x59; x43; x4f; x4d; x20; x50; x56; x58; xff; xff; xff; xff; x05].

(** A ciphertext block whose last deciphered byte under [demo_key] and
    [demo_seed] is 5; twenty bytes of payload, one block and four bytes
    more; forty bytes of payload, two blocks and eight bytes more. *)
Definition demo_padded_block : list byte :=
  [x10; x10; x10; x10; x10; x10; x16; x16; x1a; x1a; x1e; x1e; x1c; x1c; x1c; x19].

Definition demo_twenty : list byte := repeat xaa 16 ++ demo_ABCD.

Definition demo_forty : list byte := repeat xaa 32 ++ demo_ABCD ++ demo_ABCD.

(** ** The cipher context of the EVP interface *)

Inductive EVP_CIPH_MODE : Type :=
  | EVP_CIPH_ECB_MODE
  | EVP_CIPH_CBC_MODE
  | EVP_CIPH_OTHER_MODE.

Record EVP_CIPHER : Type := {
  block_size : Z;
  key_len : Z;
  iv_len : Z;
  cipher_mode : EVP_CIPH_MODE
}.

Definition EVP_aes_128_cbc : EVP_CIPHER :=
  {| block_size := 16; key_len := 16; iv_len := 16; cipher_mode := EVP_CIPH_CBC_MODE |}.
Definition EVP_aes_192_cbc : EVP_CIPHER :=
  {| block_size := 16; key_len := 24; iv_len := 16; cipher_mode := EVP_CIPH_CBC_MODE |}.
Definition EVP_aes_256_cbc : EVP_CIPHER :=
  {| block_size := 16; key_len := 32; iv_len := 16; cipher_mode := EVP_CIPH_CBC_MODE |}.

(** The fields of [EVP_CIPHER_CTX] the engine depends on: the bound cipher,
    the direction, the key, the running IV, the [EVP_CIPH_NO_PADDING] flag
    and the staging block of [EVP_EncryptUpdate]. *)
Record EVP_CIPHER_CTX : Type := {
  cipher : EVP_CIPHER;
  encrypt : bool;
  ctx_key : list byte;
  ctx_iv : list byte;
  no_padding : bool;
  ctx_buf : list byte;
  ctx_buf_len : Z
}.

Definition EVP_CIPHER_CTX_block_size (ctx : EVP_CIPHER_CTX) : Z := block_size (cipher ctx).
Definition EVP_CIPHER_CTX_iv_length (ctx : EVP_CIPHER_CTX) : Z := iv_len (cipher ctx).
Definition EVP_CIPHER_CTX_mode (ctx : EVP_CIPHER_CTX) : EVP_CIPH_MODE := cipher_mode (cipher ctx).
Definition EVP_CIPHER_CTX_iv (ctx : EVP_CIPHER_CTX) : list byte := ctx_iv ctx.
(** [EVP_CIPHER_CTX_test_flags(ctx, EVP_CIPH_NO_PADDING)] *)
Definition EVP_CIPHER_CTX_test_no_padding (ctx : EVP_CIPHER_CTX) : bool := no_padding ctx.

(** [EVP_CipherInit_ex(ctx, cipher, NULL, key, NULL)] on a context that was
    just allocated or reset: the cipher is bound, [key_len] bytes are read at
    [key], the IV is the zeroed one, padding is on, nothing is staged. *)
Definition EVP_CipherInit_ex_key (c : EVP_CIPHER) (key : list byte) (enc : bool)
  : EVP_CIPHER_CTX :=
  {| cipher := c;
     encrypt := enc;
     ctx_key := firstn (Z.to_nat (key_len c)) key;
     ctx_iv := repeat x00 (Z.to_nat (iv_len c));
     no_padding := false;
     ctx_buf := repeat x00 (Z.to_nat EVP_MAX_BLOCK_LENGTH);
     ctx_buf_len := 0 |}.

(** [EVP_CipherInit_ex(ctx, NULL, NULL, NULL, iv)]: the cipher, the key and
    the flags stay, [iv_len] bytes of [iv] become the IV, staging is emptied. *)
Definition EVP_CipherInit_ex_iv (ctx : EVP_CIPHER_CTX) (iv : list byte) : EVP_CIPHER_CTX :=
  {| cipher := cipher ctx;
     encrypt := encrypt ctx;
     ctx_key := ctx_key ctx;
     ctx_iv := firstn (Z.to_nat (iv_len (cipher ctx))) iv;
     no_padding := no_padding ctx;
     ctx_buf := ctx_buf ctx;
     ctx_buf_len := 0 |}.

Definition EVP_CIPHER_CTX_set_padding (ctx : EVP_CIPHER_CTX) (pad : bool) : EVP_CIPHER_CTX :=
  {| cipher := cipher ctx;
     encrypt := encrypt ctx;
     ctx_key := ctx_key ctx;
     ctx_iv := ctx_iv ctx;
     no_padding := negb pad;
     ctx_buf := ctx_buf ctx;
     ctx_buf_len := ctx_buf_len ctx |}.

Definition set_ctx_iv (ctx : EVP_CIPHER_CTX) (iv : list byte) : EVP_CIPHER_CTX :=
  {| cipher := cipher ctx;
     encrypt := encrypt ctx;
     ctx_key := ctx_key ctx;
     ctx_iv := iv;
     no_padding := no_padding ctx;
     ctx_buf := ctx_buf ctx;
     ctx_buf_len := ctx_buf_len ctx |}.

Definition set_ctx_buf (ctx : EVP_CIPHER_CTX) (b : list byte) (n : Z) : EVP_CIPHER_CTX :=
  {| cipher := cipher ctx;
     encrypt := encrypt ctx;
     ctx_key := ctx_key ctx;
     ctx_iv := ctx_iv ctx;
     no_padding := no_padding ctx;
     ctx_buf := b;
     ctx_buf_len := n |}.

(** ** The ciphertext-stealing helper: state *)

Record H235CryptoHelper : Type := {
  buf : list byte;
  final_buf : list byte;
  buf_len : Z;
  final_used : Z
}.

Definition Reset (h : H235CryptoHelper) : H235CryptoHelper :=
  {| buf := buf h; final_buf := final_buf h; buf_len := 0; final_used := 0 |}.

(** The constructor: both arrays zeroed, then [Reset]. *)
Definition H235CryptoHelper_new : H235CryptoHelper :=
  Reset {| buf := repeat x00 (Z.to_nat EVP_MAX_BLOCK_LENGTH);
           final_buf := repeat x00 (Z.to_nat EVP_MAX_BLOCK_LENGTH);
           buf_len := 0; final_used := 0 |}.

(** A helper that retains [demo_malformed_block], nothing staged. *)
Definition demo_malformed_helper : H235CryptoHelper :=
  {| buf := repeat x00 (Z.to_nat EVP_MAX_BLOCK_LENGTH);
     final_buf := demo_malformed_block ++ repeat x00 16;
     buf_len := 0; final_used := 1 |}.

(** The two contexts [SetKey] creates for AES-128 under [demo_key]. *)
Definition demo_encrypt_ctx : EVP_CIPHER_CTX :=
  EVP_CipherInit_ex_key EVP_aes_128_cbc demo_key true.
Definition demo_decrypt_ctx : EVP_CIPHER_CTX :=
  EVP_CipherInit_ex_key EVP_aes_128_cbc demo_key false.

(** ** The RTP frame as the session sees it *)

(** [SetSize(n)] on an array that exists: cut to [n] bytes, or filled up
    with zero bytes. *)
Definition SetSize (a : list byte) (n : Z) : list byte :=
  firstn (Z.to_nat n) (a ++ repeat x00 (Z.to_nat n)).

(** [RTP_DataFrame] is declared in rtp.h.  The session reads and writes
    three parts of it: the header bytes at [GetSequenceNumberPtr()]
    (sequence number, timestamp and what follows them), the padding bit and
    the payload. *)
Record RTP_DataFrame : Type := {
  frame_sequence : list byte;
  frame_padding : bool;
  frame_payload : list byte
}.

Definition GetPayloadSize (frame : RTP_DataFrame) : Z := GetSize (frame_payload frame).

(** [frame.SetPayloadSize(n)] followed by the [memcpy] of [n] bytes of
    [data] to [frame.GetPayloadPtr()], then [frame.SetPadding(padding)]. *)
Definition set_frame_payload (frame : RTP_DataFrame) (data : list byte) (padding : bool)
  : RTP_DataFrame :=
  {| frame_sequence := frame_sequence frame;
     frame_padding := padding;
     frame_payload :=
       memcpy (SetSize (frame_payload frame) (GetSize data)) 0 data (GetSize data) |}.

(** The six bytes copied from [frame.GetSequenceNumberPtr()] into the local
    [ivSequence], taken as zeroed before. *)
Definition frame_ivSequence (frame : RTP_DataFrame) : list byte :=
  memcpy (repeat x00 (Z.to_nat IV_SEQUENCE_LEN)) 0 (frame_sequence frame) IV_SEQUENCE_LEN.

(** A frame with a payload of four bytes; its header bytes from the
    sequence number on begin with [demo_seed]. *)
Definition demo_frame : RTP_DataFrame :=
  {| frame_sequence := demo_seed ++ [x00; x00; x12; x34];
     frame_padding := false;
     frame_payload := demo_ABCD |}.

(** ** Standard CBC over a block function, as the specification words it *)

(** The input cut into [n] blocks of sixteen bytes. *)
Fixpoint blocks16 (n : nat) (l : list byte) : list (list byte) :=
  match n with
  | O => []
  | S n' => firstn 16 l :: blocks16 n' (skipn 16 l)
  end.

(** [C_i = E_K(P_i xor C_{i-1})] with [C_0] the IV. *)
Fixpoint cbc_chain (E : list byte -> list byte) (prev : list byte)
    (ps : list (list byte)) : list (list byte) :=
  match ps with
  | [] => []
  | p :: ps' => let c := E (xor_bytes p prev) in c :: cbc_chain E c ps'
  end.

(** Standard CBC encryption of a block-aligned plaintext, no pad block. *)
Definition AES_CBC_standard (E : list byte -> list byte -> list byte)
    (key iv P : list byte) : list byte :=
  concat (cbc_chain (E key) iv (blocks16 (length P / 16) P)).

Section H235.

(** The AES block functions behind [EVP_Cipher]: key and sixteen-byte block
    to sixteen-byte block. *)
Variable AES_encrypt : list byte -> list byte -> list byte.
Variable AES_decrypt : list byte -> list byte -> list byte.

(** What [EVP_Cipher] returns on success depends on the OpenSSL the engine
    is linked with, and h235crypto.cxx does not say which: 1 (the
    [do_cipher] of OpenSSL 1.x), or the number of bytes written (the
    provided ciphers of OpenSSL 3), which is 0 when the input is empty. *)
Variable EVP_Cipher_returns_length : bool.

Hypothesis AES_encrypt_length : forall key blk, length (AES_encrypt key blk) = 16%nat.
Hypothesis AES_decrypt_length : forall key blk, length (AES_decrypt key blk) = 16%nat.
Hypothesis AES_decrypt_encrypt :
  forall key blk, length blk = 16%nat -> AES_decrypt key (AES_encrypt key blk) = blk.

(** The OID constants of the H.235 headers and the build option that admits
    the longer keys. *)
Variable ID_AES128 ID_AES192 ID_AES256 : string.
Variable H323_H235_AES256 : bool.

(** The Diffie-Hellman object of the session and its [ComputeSessionKey]. *)
Variable H235_DiffieHellman : Type.
Variable ComputeSessionKey : H235_DiffieHellman -> list byte.

(** ** [EVP_Cipher]: the block loop of the bound cipher

    Whole blocks only, the running IV kept in the context.  [EVP_Cipher]
    gives the bytes written and the context after the call,
    [EVP_Cipher_result] the [int] the call returns, which the helper tests
    after each call: [if (!(EVP_Cipher(ctx, out, in, inl))) return 0]. *)

Fixpoint cbc128_encrypt (n : nat) (key iv inp : list byte) : list byte * list byte :=
  match n with
  | O => ([], iv)
  | S n' =>
      let c := AES_encrypt key (xor_bytes (firstn 16 inp) iv) in
      let '(out, iv') := cbc128_encrypt n' key c (skipn 16 inp) in
      (c ++ out, iv')
  end.

Fixpoint cbc128_decrypt (n : nat) (key iv inp : list byte) : list byte * list byte :=
  match n with
  | O => ([], iv)
  | S n' =>
      let c := firstn 16 inp in
      let p := xor_bytes (AES_decrypt key c) iv in
      let '(out, iv') := cbc128_decrypt n' key c (skipn 16 inp) in
      (p ++ out, iv')
  end.

Fixpoint ecb_cipher (n : nat) (f : list byte -> list byte) (inp : list byte) : list byte :=
  match n with
  | O => []
  | S n' => f (firstn 16 inp) ++ ecb_cipher n' f (skipn 16 inp)
  end.

Definition EVP_Cipher (ctx : EVP_CIPHER_CTX) (inp : list byte) (inl : Z)
  : list byte * EVP_CIPHER_CTX :=
  let n := Z.to_nat (inl / 16) in
  match EVP_CIPHER_CTX_mode ctx with
  | EVP_CIPH_CBC_MODE =>
      let '(out, iv') :=
        if encrypt ctx then cbc128_encrypt n (ctx_key ctx) (ctx_iv ctx) inp
        else cbc128_decrypt n (ctx_key ctx) (ctx_iv ctx) inp in
      (out, set_ctx_iv ctx iv')
  | EVP_CIPH_ECB_MODE =>
      (ecb_cipher n
         (if encrypt ctx then AES_encrypt (ctx_key ctx) else AES_decrypt (ctx_key ctx))
         inp, ctx)
  | EVP_CIPH_OTHER_MODE => ([], ctx)
  end.

(** The value of [EVP_Cipher(ctx, out, in, inl)] on an AES context. *)
Definition EVP_Cipher_result (inl : Z) : Z :=
  if EVP_Cipher_returns_length then inl else 1.

(** ** The helper's update and final functions

    Where a function returns 0 after a call of [EVP_Cipher], the result
    carries the bytes counted in [*outl] and the members as they are at
    that point. *)

Definition EncryptUpdateCTS (h : H235CryptoHelper) (ctx : EVP_CIPHER_CTX)
    (inp : list byte) (inl : Z)
  : Z * list byte * H235CryptoHelper * EVP_CIPHER_CTX :=
  let bl := EVP_CIPHER_CTX_block_size ctx in
  if inl <=? 0 then (Z.b2z (inl =? 0), [], h, ctx)
  else if buf_len h + inl <=? bl then
    (* new plaintext is no more than 1 block: stage it and return *)
    (1, [],
     {| buf := memcpy (buf h) (buf_len h) inp inl;
        final_buf := final_buf h;
        buf_len := buf_len h + inl;
        final_used := final_used h |}, ctx)
  else
    (* encrypt the previous plaintext, if any *)
    let '(r1, out1, ctx1) :=
      if final_used h =? 0 then (1, [], ctx)
      else
        let '(o, c) := EVP_Cipher ctx (final_buf h) bl in
        (EVP_Cipher_result bl, o, c) in
    if r1 =? 0 then (0, [], h, ctx1)
    else
      (* buf_len + inl > bl: fill the staging block *)
      let buf1 := memcpy (buf h) (buf_len h) inp (bl - buf_len h) in
      let inp1 := skipn (Z.to_nat (bl - buf_len h)) inp in
      let inl1 := inl - (bl - buf_len h) in
      if inl1 <=? bl then
        (1, out1,
         {| buf := memcpy buf1 0 inp1 inl1;
            final_buf := memcpy (final_buf h) 0 buf1 bl;
            buf_len := inl1;
            final_used := 1 |}, ctx1)
      else
        let '(out2, ctx2) := EVP_Cipher ctx1 buf1 bl in
        if EVP_Cipher_result bl =? 0 then
          (0, out1,
           {| buf := buf1; final_buf := final_buf h;
              buf_len := bl; final_used := 0 |}, ctx2)
        else
          let leftover := Z.land inl1 (bl - 1) in
          let inl2 := if leftover =? 0 then inl1 - 2 * bl else inl1 - (bl + leftover) in
          let buf2 :=
            if leftover =? 0 then memcpy buf1 0 (skipn (Z.to_nat (inl2 + bl)) inp1) bl
            else memcpy buf1 0 (skipn (Z.to_nat (inl2 + bl)) inp1) leftover in
          let final1 := memcpy (final_buf h) 0 (skipn (Z.to_nat inl2) inp1) bl in
          let h2 :=
            {| buf := buf2;
               final_buf := final1;
               buf_len := if leftover =? 0 then bl else leftover;
               final_used := 1 |} in
          (* the whole blocks before the retained one: none of them when
             [inl2] is 0 *)
          let '(out3, ctx3) := EVP_Cipher ctx2 inp1 inl2 in
          if EVP_Cipher_result inl2 =? 0 then (0, out1 ++ out2, h2, ctx3)
          else (1, out1 ++ out2 ++ out3, h2, ctx3).

Definition EncryptFinalCTS (h : H235CryptoHelper) (ctx : EVP_CIPHER_CTX)
  : Z * list byte * H235CryptoHelper * EVP_CIPHER_CTX :=
  let bl := EVP_CIPHER_CTX_block_size ctx in
  if final_used h =? 0 then (0, [], h, ctx)
  else if buf_len h =? 0 then (0, [], h, ctx)
  else
    let leftover := buf_len h in
    match EVP_CIPHER_CTX_mode ctx with
    | EVP_CIPH_ECB_MODE =>
        let '(tmp, ctx1) := EVP_Cipher ctx (final_buf h) bl in
        if EVP_Cipher_result bl =? 0 then (0, [], h, ctx1)
        else
          let buf1 :=
            memcpy (buf h) leftover (skipn (Z.to_nat leftover) tmp) (bl - leftover) in
          let h1 := {| buf := buf1; final_buf := final_buf h;
                       buf_len := buf_len h; final_used := final_used h |} in
          let '(out, ctx2) := EVP_Cipher ctx1 buf1 bl in
          if EVP_Cipher_result bl =? 0 then (0, [], h1, ctx2)
          else (1, out ++ firstn (Z.to_nat leftover) tmp, h1, ctx2)
    | EVP_CIPH_CBC_MODE =>
        let '(tmp, ctx1) := EVP_Cipher ctx (final_buf h) bl in
        if EVP_Cipher_result bl =? 0 then (0, [], h, ctx1)
        else
          let buf1 := memset (buf h) leftover x00 (bl - leftover) in
          let h1 := {| buf := buf1; final_buf := final_buf h;
                       buf_len := buf_len h; final_used := final_used h |} in
          let '(out, ctx2) := EVP_Cipher ctx1 buf1 bl in
          if EVP_Cipher_result bl =? 0 then (0, [], h1, ctx2)
          else (1, out ++ firstn (Z.to_nat leftover) tmp, h1, ctx2)
    | EVP_CIPH_OTHER_MODE => (0, [], h, ctx)
    end.

Definition EncryptUpdate (h : H235CryptoHelper) (ctx : EVP_CIPHER_CTX)
    (inp : list byte) (inl : Z)
  : Z * list byte * H235CryptoHelper * EVP_CIPHER_CTX :=
  if inl <=? 0 then (Z.b2z (inl =? 0), [], h, ctx)
  else
    let bl := EVP_CIPHER_CTX_block_size ctx in
    if (buf_len h =? 0) && (Z.land inl (bl - 1) =? 0) then
      let '(out, ctx1) := EVP_Cipher ctx inp inl in
      if EVP_Cipher_result inl =? 0 then (0, [], h, ctx1)
      else (1, out, h, ctx1)
    else
      let i := buf_len h in
      if negb (i =? 0) && (i + inl <? bl) then
        (1, [],
         {| buf := memcpy (buf h) i inp inl; final_buf := final_buf h;
            buf_len := buf_len h + inl; final_used := final_used h |}, ctx)
      else
        (* the staged block, once filled, goes first *)
        let '(r1, out1, buf1, inp1, inl1, ctx1) :=
          if i =? 0 then (1, [], buf h, inp, inl, ctx)
          else
            let j := bl - i in
            let b := memcpy (buf h) i inp j in
            let '(o, c) := EVP_Cipher ctx b bl in
            (EVP_Cipher_result bl, o, b, skipn (Z.to_nat j) inp, inl - j, c) in
        (* [buf_len] is written on the way out only *)
        let h1 := {| buf := buf1; final_buf := final_buf h;
                     buf_len := buf_len h; final_used := final_used h |} in
        if r1 =? 0 then (0, [], h1, ctx1)
        else
          let i' := Z.land inl1 (bl - 1) in
          let inl2 := inl1 - i' in
          let '(r2, out2, ctx2) :=
            if inl2 >? 0 then
              let '(o, c) := EVP_Cipher ctx1 inp1 inl2 in
              (EVP_Cipher_result inl2, o, c)
            else (1, [], ctx1) in
          if r2 =? 0 then (0, out1, h1, ctx2)
          else
            let buf2 :=
              if i' =? 0 then buf1 else memcpy buf1 0 (skipn (Z.to_nat inl2) inp1) i' in
            (1, out1 ++ out2,
             {| buf := buf2; final_buf := final_buf h;
                buf_len := i'; final_used := final_used h |}, ctx2).

Definition DecryptUpdateCTS (h : H235CryptoHelper) (ctx : EVP_CIPHER_CTX)
    (inp : list byte) (inl : Z)
  : Z * list byte * H235CryptoHelper * EVP_CIPHER_CTX :=
  EncryptUpdateCTS h ctx inp inl.

Definition DecryptFinalCTS (h : H235CryptoHelper) (ctx : EVP_CIPHER_CTX)
  : Z * list byte * H235CryptoHelper * EVP_CIPHER_CTX :=
  let bl := EVP_CIPHER_CTX_block_size ctx in
  if final_used h =? 0 then (0, [], h, ctx)
  else if buf_len h =? 0 then (0, [], h, ctx)
  else
    let leftover := buf_len h in
    match EVP_CIPHER_CTX_mode ctx with
    | EVP_CIPH_ECB_MODE =>
        let '(tmp, ctx1) := EVP_Cipher ctx (final_buf h) bl in
        if EVP_Cipher_result bl =? 0 then (0, [], h, ctx1)
        else
          let buf1 :=
            memcpy (buf h) leftover (skipn (Z.to_nat leftover) tmp) (bl - leftover) in
          let h1 := {| buf := buf1; final_buf := final_buf h;
                       buf_len := buf_len h; final_used := final_used h |} in
          let '(out, ctx2) := EVP_Cipher ctx1 buf1 bl in
          if EVP_Cipher_result bl =? 0 then (0, [], h1, ctx2)
          else (1, out ++ firstn (Z.to_nat leftover) tmp, h1, ctx2)
    | EVP_CIPH_CBC_MODE =>
        let C_n_minus_2 := firstn (Z.to_nat bl) (EVP_CIPHER_CTX_iv ctx) in
        (* C_n plus 0s in buf *)
        let buf1 := memset (buf h) leftover x00 (bl - leftover) in
        let h1 := {| buf := buf1; final_buf := final_buf h;
                     buf_len := buf_len h; final_used := final_used h |} in
        let '(tmp0, ctx1) := EVP_Cipher ctx (final_buf h) bl in
        if EVP_Cipher_result bl =? 0 then (0, [], h1, ctx1)
        else
          let tmp1 := xor_bytes tmp0 C_n_minus_2 in
          let tmp2 := xor_bytes tmp1 buf1 in
          (* C_n plus C' in buf *)
          let buf2 :=
            memcpy buf1 leftover (skipn (Z.to_nat leftover) tmp2) (bl - leftover) in
          let h2 := {| buf := buf2; final_buf := final_buf h;
                       buf_len := buf_len h; final_used := final_used h |} in
          let '(out0, ctx2) := EVP_Cipher ctx1 buf2 bl in
          if EVP_Cipher_result bl =? 0 then (0, [], h2, ctx2)
          else
            let out1 := xor_bytes out0 (final_buf h) in
            let out2 := xor_bytes out1 C_n_minus_2 in
            (1, out2 ++ firstn (Z.to_nat leftover) tmp2, h2, ctx2)
    | EVP_CIPH_OTHER_MODE => (0, [], h, ctx)
    end.

Definition DecryptUpdate (h : H235CryptoHelper) (ctx : EVP_CIPHER_CTX)
    (inp : list byte) (inl : Z)
  : Z * list byte * H235CryptoHelper * EVP_CIPHER_CTX :=
  if inl <=? 0 then (Z.b2z (inl =? 0), [], h, ctx)
  else if EVP_CIPHER_CTX_test_no_padding ctx then EncryptUpdate h ctx inp inl
  else
    let bl := EVP_CIPHER_CTX_block_size ctx in
    (* the block retained by the previous call goes out first *)
    let fix_out := if final_used h =? 0 then [] else firstn (Z.to_nat bl) (final_buf h) in
    let '(r, out, h1, ctx1) := EncryptUpdate h ctx inp inl in
    if r =? 0 then (0, fix_out ++ out, h1, ctx1)
    else if (bl >? 1) && (buf_len h1 =? 0) then
      (* a multiple of the block size was deciphered: keep the last block *)
      let outl := GetSize out - bl in
      (1, fix_out ++ firstn (Z.to_nat outl) out,
       {| buf := buf h1;
          final_buf := memcpy (final_buf h1) 0 (skipn (Z.to_nat outl) out) bl;
          buf_len := buf_len h1; final_used := 1 |}, ctx1)
    else
      (1, fix_out ++ out,
       {| buf := buf h1; final_buf := final_buf h1;
          buf_len := buf_len h1; final_used := 0 |}, ctx1).

Definition DecryptFinalRelaxed (h : H235CryptoHelper) (ctx : EVP_CIPHER_CTX)
  : Z * list byte :=
  if EVP_CIPHER_CTX_test_no_padding ctx then
    if buf_len h =? 0 then (1, []) else (0, [])
  else
    let bl := EVP_CIPHER_CTX_block_size ctx in
    if bl >? 1 then
      if negb (buf_len h =? 0) || (final_used h =? 0) then (0, [])
      else
        let n := byte_to_Z (nth (Z.to_nat (bl - 1)) (final_buf h) x00) in
        if (n =? 0) || (n >? bl) then (0, [])
        else (1, firstn (Z.to_nat (bl - n)) (final_buf h))
    else (1, []).

(** ** The standard update and final of the EVP interface

    [EVP_EncryptUpdate] is the algorithm the helper's [EncryptUpdate] was
    transcribed from, run on the context's own staging block;
    [EVP_EncryptFinal_ex] fills the staged block with the pad length and
    enciphers it, or emits nothing when padding is off.  On a context
    with a block size above zero no call of [EVP_Cipher] in the update has
    an empty input. *)

Definition EVP_EncryptUpdate (ctx : EVP_CIPHER_CTX) (inp : list byte) (inl : Z)
  : Z * list byte * EVP_CIPHER_CTX :=
  let staged := {| buf := ctx_buf ctx; final_buf := []; buf_len := ctx_buf_len ctx;
                   final_used := 0 |} in
  let '(r, out, h, ctx1) := EncryptUpdate staged ctx inp inl in
  (r, out, set_ctx_buf ctx1 (buf h) (buf_len h)).

Definition EVP_EncryptFinal_ex (ctx : EVP_CIPHER_CTX) : Z * list byte * EVP_CIPHER_CTX :=
  let b := EVP_CIPHER_CTX_block_size ctx in
  if b =? 1 then (1, [], ctx)
  else
    let bl := ctx_buf_len ctx in
    if EVP_CIPHER_CTX_test_no_padding ctx then
      if bl =? 0 then (1, [], ctx) else (0, [], ctx)
    else
      let n := b - bl in
      let buf1 := memset (ctx_buf ctx) bl (byte_of_Z n) n in
      let '(out, ctx1) := EVP_Cipher (set_ctx_buf ctx buf1 bl) buf1 b in
      (1, out, ctx1).

(** ** The crypto engine *)

Record H235CryptoEngine : Type := {
  m_encryptCtx : option EVP_CIPHER_CTX;
  m_decryptCtx : option EVP_CIPHER_CTX;
  m_encryptHelper : H235CryptoHelper;
  m_decryptHelper : H235CryptoHelper;
  m_algorithmOID : string;
  m_operationCnt : Z;
  m_initialised : bool;
  m_enc_blockSize : Z;
  m_enc_ivLength : Z;
  m_dec_blockSize : Z;
  m_dec_ivLength : Z;
  m_iv : list byte
}.

(** The constructor that takes the algorithm only. *)
Definition H235CryptoEngine_new (algorithmOID : string) : H235CryptoEngine :=
  {| m_encryptCtx := None; m_decryptCtx := None;
     m_encryptHelper := H235CryptoHelper_new;
     m_decryptHelper := H235CryptoHelper_new;
     m_algorithmOID := algorithmOID; m_operationCnt := 0; m_initialised := false;
     m_enc_blockSize := 0; m_enc_ivLength := 0;
     m_dec_blockSize := 0; m_dec_ivLength := 0;
     m_iv := repeat x00 (Z.to_nat EVP_MAX_IV_LENGTH) |}.

(** The cipher selection at the head of [SetKey]; [None] is the
    "Unsupported algorithm" branch. *)
Definition select_cipher (oid : string) : option EVP_CIPHER :=
  if String.eqb oid ID_AES128 then Some EVP_aes_128_cbc
  else if H323_H235_AES256 && String.eqb oid ID_AES192 then Some EVP_aes_192_cbc
  else if H323_H235_AES256 && String.eqb oid ID_AES256 then Some EVP_aes_256_cbc
  else None.

(** [SetKey].  Allocation of a context does not fail here; a context that
    exists is reset, which leaves it as a fresh one.  [EVP_EncryptInit_ex]
    reads [key_len] bytes at the key pointer whatever the size of the array;
    of a shorter array the context keeps the bytes there are. *)
Definition SetKey (e : H235CryptoEngine) (key : list byte) : H235CryptoEngine :=
  match select_cipher (m_algorithmOID e) with
  | None => e
  | Some c =>
      let ectx := EVP_CipherInit_ex_key c key true in
      let dctx := EVP_CipherInit_ex_key c key false in
      {| m_encryptCtx := Some ectx;
         m_decryptCtx := Some dctx;
         m_encryptHelper := Reset (m_encryptHelper e);
         m_decryptHelper := Reset (m_decryptHelper e);
         m_algorithmOID := m_algorithmOID e;
         m_operationCnt := 0;
         m_initialised := true;
         m_enc_blockSize := EVP_CIPHER_CTX_block_size ectx;
         m_enc_ivLength := EVP_CIPHER_CTX_iv_length ectx;
         m_dec_blockSize := EVP_CIPHER_CTX_block_size dctx;
         m_dec_ivLength := EVP_CIPHER_CTX_iv_length dctx;
         m_iv := m_iv e |}
  end.

(** The constructor that takes the algorithm and a key. *)
Definition H235CryptoEngine_new_key (algorithmOID : string) (key : list byte)
  : H235CryptoEngine :=
  SetKey (H235CryptoEngine_new algorithmOID) key.

Definition set_encrypt_state (e : H235CryptoEngine) (ctx : EVP_CIPHER_CTX)
    (h : H235CryptoHelper) (cnt : Z) (iv : list byte) : H235CryptoEngine :=
  {| m_encryptCtx := Some ctx; m_decryptCtx := m_decryptCtx e;
     m_encryptHelper := h; m_decryptHelper := m_decryptHelper e;
     m_algorithmOID := m_algorithmOID e; m_operationCnt := cnt;
     m_initialised := m_initialised e;
     m_enc_blockSize := m_enc_blockSize e; m_enc_ivLength := m_enc_ivLength e;
     m_dec_blockSize := m_dec_blockSize e; m_dec_ivLength := m_dec_ivLength e;
     m_iv := iv |}.

Definition set_decrypt_state (e : H235CryptoEngine) (ctx : EVP_CIPHER_CTX)
    (h : H235CryptoHelper) (cnt : Z) (iv : list byte) : H235CryptoEngine :=
  {| m_encryptCtx := m_encryptCtx e; m_decryptCtx := Some ctx;
     m_encryptHelper := m_encryptHelper e; m_decryptHelper := h;
     m_algorithmOID := m_algorithmOID e; m_operationCnt := cnt;
     m_initialised := m_initialised e;
     m_enc_blockSize := m_enc_blockSize e; m_enc_ivLength := m_enc_ivLength e;
     m_dec_blockSize := m_dec_blockSize e; m_dec_ivLength := m_dec_ivLength e;
     m_iv := iv |}.

(** The update and final of the encrypting side, shared by [Encrypt] and
    [EncryptInPlace]: ciphertext stealing behind its guard, the padded or
    aligned path otherwise.  The return codes are only traced. *)
Definition encrypt_stages (h : H235CryptoHelper) (ctx : EVP_CIPHER_CTX)
    (rtpPadding : bool) (blockSize : Z) (inp : list byte) (inl : Z)
  : list byte * list byte * H235CryptoHelper * EVP_CIPHER_CTX :=
  if negb rtpPadding && (Z.rem inl blockSize >? 0) then
    (* use ciphertext stealing *)
    let '(_, out1, h1, ctx1) := EncryptUpdateCTS h ctx inp inl in
    let '(_, out2, h2, ctx2) := EncryptFinalCTS h1 ctx1 in
    (out1, out2, h2, ctx2)
  else
    let '(_, out1, ctx1) := EVP_EncryptUpdate ctx inp inl in
    let '(_, out2, ctx2) := EVP_EncryptFinal_ex ctx1 in
    (out1, out2, h, ctx2).

(** [Encrypt]: the ciphertext, the engine after the call and the padding
    flag written through the reference.  The local [iv] array is taken as
    zeroed before [SetIV] fills it. *)
Definition Encrypt (e : H235CryptoEngine) (data : list byte)
    (ivSequence : option (list byte)) (rtpPadding : bool)
  : option (list byte * H235CryptoEngine * bool) :=
  if negb (m_initialised e) then Some ([], e, rtpPadding)
  else
    match m_encryptCtx e with
    | None => None
    | Some ctx0 =>
        if m_enc_blockSize e =? 0 then None
        else
          let iv := SetIV (repeat x00 (Z.to_nat EVP_MAX_IV_LENGTH)) ivSequence
                      (m_enc_ivLength e) in
          let ctx1 := EVP_CipherInit_ex_iv ctx0 iv in
          let h1 := Reset (m_encryptHelper e) in
          (* always use padding *)
          let rtpPadding' := Z.rem (GetSize data) (m_enc_blockSize e) >? 0 in
          let ctx2 := EVP_CIPHER_CTX_set_padding ctx1 rtpPadding' in
          let '(out1, out2, h2, ctx3) :=
            encrypt_stages h1 ctx2 rtpPadding' (m_enc_blockSize e) data (GetSize data) in
          Some (out1 ++ out2,
                set_encrypt_state e ctx3 h2 (m_operationCnt e + 1) (m_iv e),
                rtpPadding')
    end.

(** [EncryptInPlace]: the returned length, the bytes written at [outData]
    up to that length, the engine and the padding flag. *)
Definition EncryptInPlace (e : H235CryptoEngine) (inData : list byte) (inLength : Z)
    (ivSequence : option (list byte)) (rtpPadding : bool)
  : option (Z * list byte * H235CryptoEngine * bool) :=
  if negb (m_initialised e) then
    Some (inLength, repeat x00 (Z.to_nat inLength), e, rtpPadding)
  else
    match m_encryptCtx e with
    | None => None
    | Some ctx0 =>
        if m_enc_blockSize e =? 0 then None
        else
          let iv := SetIV (m_iv e) ivSequence (m_enc_ivLength e) in
          let ctx1 := EVP_CipherInit_ex_iv ctx0 iv in
          let h1 := Reset (m_encryptHelper e) in
          let rtpPadding' := Z.rem inLength (m_enc_blockSize e) >? 0 in
          let ctx2 := EVP_CIPHER_CTX_set_padding ctx1 rtpPadding' in
          let '(out1, out2, h2, ctx3) :=
            encrypt_stages h1 ctx2 rtpPadding' (m_enc_blockSize e) inData inLength in
          Some (GetSize out1 + GetSize out2, out1 ++ out2,
                set_encrypt_state e ctx3 h2 (m_operationCnt e) iv,
                rtpPadding')
    end.

(** [Decrypt]: the plaintext, the engine after the call and the padding
    flag written through the reference.  The return codes of the stages are
    only traced; the array is cut to what the two stages reported. *)
Definition Decrypt (e : H235CryptoEngine) (data : list byte)
    (ivSequence : option (list byte)) (rtpPadding : bool)
  : option (list byte * H235CryptoEngine * bool) :=
  if negb (m_initialised e) then Some ([], e, rtpPadding)
  else
    match m_decryptCtx e with
    | None => None
    | Some ctx0 =>
        let iv := SetIV (repeat x00 (Z.to_nat EVP_MAX_IV_LENGTH)) ivSequence
                    (m_dec_ivLength e) in
        let ctx1 := EVP_CipherInit_ex_iv ctx0 iv in
        let h1 := Reset (m_decryptHelper e) in
        let ctx2 := EVP_CIPHER_CTX_set_padding ctx1 rtpPadding in
        if negb rtpPadding && (m_dec_blockSize e =? 0) then None
        else
          let '(out1, out2, h3, ctx4) :=
            if negb rtpPadding && (Z.rem (GetSize data) (m_dec_blockSize e) >? 0) then
              (* use ciphertext stealing *)
              let '(_, out1, h2, ctx3) := DecryptUpdateCTS h1 ctx2 data (GetSize data) in
              let '(_, out2, h3, ctx4) := DecryptFinalCTS h2 ctx3 in
              (out1, out2, h3, ctx4)
            else
              let '(_, out1, h2, ctx3) := DecryptUpdate h1 ctx2 data (GetSize data) in
              let '(_, out2) := DecryptFinalRelaxed h2 ctx3 in
              (out1, out2, h2, ctx3) in
          Some (out1 ++ out2,
                set_decrypt_state e ctx4 h3 (m_operationCnt e + 1) (m_iv e),
                false)
    end.

(** [DecryptInPlace]: the returned length, the bytes of [outData] up to that
    length, the engine and the padding flag.  There is no test of
    [m_initialised]; every failing stage returns 0 at once, before the flag
    is cleared. *)
Definition DecryptInPlace (e : H235CryptoEngine) (inData : list byte) (inLength : Z)
    (ivSequence : option (list byte)) (rtpPadding : bool)
  : option (Z * list byte * H235CryptoEngine * bool) :=
  match m_decryptCtx e with
  | None => None
  | Some ctx0 =>
      let iv := SetIV (m_iv e) ivSequence (m_dec_ivLength e) in
      let ctx1 := EVP_CipherInit_ex_iv ctx0 iv in
      let h1 := Reset (m_decryptHelper e) in
      let ctx2 := EVP_CIPHER_CTX_set_padding ctx1 rtpPadding in
      let cnt := m_operationCnt e in
      if negb rtpPadding && (m_dec_blockSize e =? 0) then None
      else if negb rtpPadding && (Z.rem inLength (m_dec_blockSize e) >? 0) then
        (* use ciphertext stealing *)
        let '(r1, out1, h2, ctx3) := DecryptUpdateCTS h1 ctx2 inData inLength in
        if r1 =? 0 then Some (0, [], set_decrypt_state e ctx3 h2 cnt iv, rtpPadding)
        else
          let '(r2, out2, h3, ctx4) := DecryptFinalCTS h2 ctx3 in
          if r2 =? 0 then Some (0, [], set_decrypt_state e ctx4 h3 cnt iv, rtpPadding)
          else Some (GetSize out1 + GetSize out2, out1 ++ out2,
                     set_decrypt_state e ctx4 h3 cnt iv, false)
      else
        let '(r1, out1, h2, ctx3) := DecryptUpdate h1 ctx2 inData inLength in
        if r1 =? 0 then Some (0, [], set_decrypt_state e ctx3 h2 cnt iv, rtpPadding)
        else
          let '(r2, out2) := DecryptFinalRelaxed h2 ctx3 in
          if r2 =? 0 then Some (0, [], set_decrypt_state e ctx3 h2 cnt iv, rtpPadding)
          else Some (GetSize out1 + GetSize out2, out1 ++ out2,
                     set_decrypt_state e ctx3 h2 cnt iv, false)
  end.

(** ** Key generation *)

(** [RAND_bytes(buf, n)] drawing from a stream of random bytes: the filled
    buffer and the rest of the stream. *)
Definition RAND_bytes (rand : nat -> byte) (buffer : list byte) (n : Z)
  : list byte * (nat -> byte) :=
  (memcpy buffer 0 (map rand (seq 0 (Z.to_nat n))) n,
   fun i => rand (i + Z.to_nat n)%nat).

(** [GenerateRandomKey(const PString & algorithmOID)] *)
Definition GenerateRandomKey_oid (e : H235CryptoEngine) (algorithmOID : string)
    (rand : nat -> byte) : list byte * (nat -> byte) :=
  let key_size :=
    if String.eqb algorithmOID ID_AES128 then Some 16
    else if H323_H235_AES256 && String.eqb (m_algorithmOID e) ID_AES192 then Some 24
    else if H323_H235_AES256 && String.eqb (m_algorithmOID e) ID_AES256 then Some 32
    else None in
  match key_size with
  | None => ([], rand)
  | Some n =>
      let key := PBYTEArray_new n in
      RAND_bytes rand key (GetSize key)
  end.

(** [GenerateRandomKey()]: generates for the engine's own algorithm and
    installs the key. *)
Definition GenerateRandomKey (e : H235CryptoEngine) (rand : nat -> byte)
  : list byte * H235CryptoEngine * (nat -> byte) :=
  let '(result, rand') := GenerateRandomKey_oid e (m_algorithmOID e) rand in
  (result, SetKey e result, rand').

(** ** The session *)

Record H235Session : Type := {
  m_dh : H235_DiffieHellman;
  m_context : H235CryptoEngine;
  m_dhcontext : H235CryptoEngine;
  m_isInitialised : bool;
  m_isMaster : bool;
  m_crytoMasterKey : list byte;
  m_dhkeyLen : Z;
  m_frameBuffer : list byte;
  m_padding : bool
}.

Definition H235Session_new (dh : H235_DiffieHellman) (oidAlgorithm : string) : H235Session :=
  {| m_dh := dh;
     m_context := H235CryptoEngine_new oidAlgorithm;
     m_dhcontext := H235CryptoEngine_new oidAlgorithm;
     m_isInitialised := false;
     m_isMaster := false;
     m_crytoMasterKey := PBYTEArray_new 0;
     m_dhkeyLen :=
       if String.eqb oidAlgorithm ID_AES128 then 16
       else if H323_H235_AES256 && String.eqb oidAlgorithm ID_AES192 then 24
       else if H323_H235_AES256 && String.eqb oidAlgorithm ID_AES256 then 32
       else 16;
     m_frameBuffer := PBYTEArray_new 1500;
     m_padding := false |}.

(** [CreateSession]: the result, the session after the call and the rest
    of the random stream.  The key-encrypting key is the trailing
    [m_dhkeyLen] bytes of the shared secret; of a secret shorter than that,
    for which the source would read before the array, the key holds only
    the bytes there are.  The result of [ComputeSessionKey] is not tested by
    the source. *)
Definition CreateSession (s : H235Session) (isMaster : bool) (rand : nat -> byte)
  : bool * H235Session * (nat -> byte) :=
  if m_isInitialised s then (false, s, rand)
  else
    let dhSessionkey := ComputeSessionKey (m_dh s) in
    let shortSessionKey := PBYTEArray_new (m_dhkeyLen s) in
    let shortSessionKey1 :=
      memcpy shortSessionKey 0
        (skipn (Z.to_nat (GetSize dhSessionkey - GetSize shortSessionKey)) dhSessionkey)
        (GetSize shortSessionKey) in
    let dhcontext := SetKey (m_dhcontext s) shortSessionKey1 in
    let '(masterKey, context, rand') :=
      if isMaster then GenerateRandomKey (m_context s) rand
      else (m_crytoMasterKey s, m_context s, rand) in
    (true,
     {| m_dh := m_dh s;
        m_context := context;
        m_dhcontext := dhcontext;
        m_isInitialised := true;
        m_isMaster := isMaster;
        m_crytoMasterKey := masterKey;
        m_dhkeyLen := m_dhkeyLen s;
        m_frameBuffer := m_frameBuffer s;
        m_padding := m_padding s |},
     rand').

(** The state in which the engine serves packets: [SetKey] has bound both
    contexts to one AES-CBC cipher and one key. *)
Definition ctx_ready (enc : bool) (ctx : EVP_CIPHER_CTX) : bool :=
  (block_size (cipher ctx) =? 16) && (iv_len (cipher ctx) =? 16)
  && match cipher_mode (cipher ctx) with EVP_CIPH_CBC_MODE => true | _ => false end
  && Bool.eqb (encrypt ctx) enc.

Definition bytes_eqb (a b : list byte) : bool :=
  if list_eq_dec Byte.byte_eq_dec a b then true else false.

Definition engine_ready (e : H235CryptoEngine) : bool :=
  m_initialised e
  && match m_encryptCtx e, m_decryptCtx e with
     | Some ectx, Some dctx =>
         ctx_ready true ectx && ctx_ready false dctx
         && bytes_eqb (ctx_key ectx) (ctx_key dctx)
     | _, _ => false
     end
  && (m_enc_blockSize e =? 16) && (m_enc_ivLength e =? 16)
  && (m_dec_blockSize e =? 16) && (m_dec_ivLength e =? 16)
  && (GetSize (m_iv e) =? EVP_MAX_IV_LENGTH).

(** The seed pointer is null or has the six bytes of the sequence number
    and timestamp behind it. *)
Definition seed_ok (ivSequence : option (list byte)) : bool :=
  match ivSequence with
  | None => true
  | Some s => (IV_SEQUENCE_LEN <=? GetSize s)
  end.

(** The key both contexts of the engine are bound to. *)
Definition engine_key (e : H235CryptoEngine) : list byte :=
  match m_encryptCtx e with
  | Some ctx => ctx_key ctx
  | None => []
  end.

(** The IV a packet operation installs for the seed. *)
Definition packet_iv (ivSequence : option (list byte)) : list byte :=
  SetIV (repeat x00 (Z.to_nat EVP_MAX_IV_LENGTH)) ivSequence 16.



(** ** The session: media key transport and frames *)

Definition set_session_keys (s : H235Session) (context dhcontext : H235CryptoEngine)
    (masterKey : list byte) : H235Session :=
  {| m_dh := m_dh s;
     m_context := context;
     m_dhcontext := dhcontext;
     m_isInitialised := m_isInitialised s;
     m_isMaster := m_isMaster s;
     m_crytoMasterKey := masterKey;
     m_dhkeyLen := m_dhkeyLen s;
     m_frameBuffer := m_frameBuffer s;
     m_padding := m_padding s |}.

Definition set_session_media (s : H235Session) (context : H235CryptoEngine)
    (frameBuffer : list byte) : H235Session :=
  {| m_dh := m_dh s;
     m_context := context;
     m_dhcontext := m_dhcontext s;
     m_isInitialised := m_isInitialised s;
     m_isMaster := m_isMaster s;
     m_crytoMasterKey := m_crytoMasterKey s;
     m_dhkeyLen := m_dhkeyLen s;
     m_frameBuffer := frameBuffer;
     m_padding := m_padding s |}.

(** [EncodeMediaKey]: the array written through [key] and the session,
    whose key-wrapping engine has served a packet. *)
Definition EncodeMediaKey (s : H235Session) : option (list byte * H235Session) :=
  match Encrypt (m_dhcontext s) (m_crytoMasterKey s) None false with
  | None => None
  | Some (key, dhcontext, _) =>
      Some (key, set_session_keys s (m_context s) dhcontext (m_crytoMasterKey s))
  end.

(** [DecodeMediaKey] *)
Definition DecodeMediaKey (s : H235Session) (key : list byte)
  : option (bool * H235Session) :=
  if negb (m_isInitialised s) then Some (false, s)
  else
    match Decrypt (m_dhcontext s) key None false with
    | None => None
    | Some (masterKey, dhcontext, _) =>
        Some (true, set_session_keys s (SetKey (m_context s) masterKey) dhcontext masterKey)
    end.

Definition IsInitialised (s : H235Session) : bool := m_isInitialised s.

Definition IsActive (s : H235Session) : bool := negb (IsInitialised s).

(** The copy of the payload into [m_frameBuffer], resized for it. *)
Definition load_frameBuffer (s : H235Session) (frame : RTP_DataFrame) : list byte :=
  memcpy (SetSize (m_frameBuffer s) (GetPayloadSize frame)) 0
    (frame_payload frame) (GetPayloadSize frame).

(** [ReadFrame]: the result, the session and the frame after the call. *)
Definition ReadFrame (s : H235Session) (frame : RTP_DataFrame)
  : option (bool * H235Session * RTP_DataFrame) :=
  let ivSequence := frame_ivSequence frame in
  let padding := frame_padding frame in
  let frameBuffer := load_frameBuffer s frame in
  match Decrypt (m_context s) frameBuffer (Some ivSequence) padding with
  | None => None
  | Some (plain, context, padding') =>
      Some (true, set_session_media s context (SetSize plain 0),
            set_frame_payload frame plain padding')
  end.

(** [WriteFrame]: the result, the session and the frame after the call. *)
Definition WriteFrame (s : H235Session) (frame : RTP_DataFrame)
  : option (bool * H235Session * RTP_DataFrame) :=
  let ivSequence := frame_ivSequence frame in
  let padding := frame_padding frame in
  let frameBuffer := load_frameBuffer s frame in
  match Encrypt (m_context s) frameBuffer (Some ivSequence) padding with
  | None => None
  | Some (cipher, context, padding') =>
      Some (true, set_session_media s context (SetSize cipher 0),
            set_frame_payload frame cipher padding')
  end.

(** ** Notions the statements use *)

(** The block loop in the direction of the context. *)
Definition cbc_run (ctx : EVP_CIPHER_CTX) (inp : list byte) (n : nat)
  : list byte * list byte :=
  if encrypt ctx then cbc128_encrypt n (ctx_key ctx) (ctx_iv ctx) inp
  else cbc128_decrypt n (ctx_key ctx) (ctx_iv ctx) inp.

(** The plaintext as the standard final leaves it: unchanged when aligned,
    else filled to the next block with the pad length. *)
Definition pkcs_padded (P : list byte) : list byte :=
  let r := GetSize P mod 16 in
  if r =? 0 then P else P ++ repeat (byte_of_Z (16 - r)) (Z.to_nat (16 - r)).

(** What the update and the relaxed final return on a fresh helper, from
    the deciphered blocks [plain] of a ciphertext of [16 * k + r] bytes:
    the output of the update, then the result and the output of the final. *)
Definition relaxed_stages (pad : bool) (k : nat) (r : Z) (plain : list byte)
  : list byte * (Z * list byte) :=
  if pad && (r =? 0) && negb (Nat.eqb k 0) then
    let last := skipn (16 * (k - 1)) plain in
    let n := byte_to_Z (nth 15 last x00) in
    (firstn (16 * (k - 1)) plain,
     if (n =? 0) || (n >? 16) then (0, [])
     else (1, firstn (Z.to_nat (16 - n)) last))
  else (plain, if pad || negb (r =? 0) then (0, []) else (1, [])).

(** The blocks of a packet deciphered under the engine's key and the
    packet's IV. *)
Definition deciphered (e : H235CryptoEngine) (ivSequence : option (list byte))
    (C : list byte) : list byte :=
  fst (cbc128_decrypt (Z.to_nat (GetSize C / 16)) (engine_key e)
         (packet_iv ivSequence) C).

(** The decrypting context as a packet operation prepares it. *)
Definition packet_decrypt_ctx (e : H235CryptoEngine) (ivSequence : option (list byte))
    (pad : bool) : option EVP_CIPHER_CTX :=
  match m_decryptCtx e with
  | Some ctx =>
      Some (EVP_CIPHER_CTX_set_padding
              (EVP_CipherInit_ex_iv ctx (packet_iv ivSequence)) pad)
  | None => None
  end.


(** The [int] [EncryptUpdateCTS] returns, block size 16, for [inl > 0]
    more bytes on a helper that stages [staged] of them: 0 when the call of
    [EVP_Cipher] for the whole blocks before the retained one (line 157)
    has none of them to encipher, which is so for more than two blocks and
    at most three in all, and the library reports the number of bytes;
    else 1. *)
Definition UpdateCTS_result (staged inl : Z) : Z :=
  if EVP_Cipher_returns_length && (32 <? staged + inl) && (staged + inl <=? 48)
  then 0 else 1.

(** What ciphertext stealing makes of a packet of [16 * (k + 1) + r] bytes,
    [0 < r <= 16], in CBC mode: the first [k] blocks enciphered as they
    are; then, with [X] the next block enciphered, the bytes after it,
    zero-filled to a block, enciphered after [X], followed by the first [r]
    bytes of [X]. *)
Definition stealing_ciphertext (key iv P : list byte) (k : nat) (r : Z) : list byte :=
  let '(c1, iv') := cbc128_encrypt k key iv P in
  let X := AES_encrypt key (xor_bytes (firstn 16 (skipn (16 * k) P)) iv') in
  let Y := AES_encrypt key
             (xor_bytes (skipn (16 * S k) P ++ repeat x00 (Z.to_nat (16 - r))) X) in
  c1 ++ Y ++ firstn (Z.to_nat r) X.

(** A stream passed to [EncryptUpdate] in pieces, one call after the
    other; [None] as soon as a call reports failure. *)
Fixpoint EncryptUpdate_calls (h : H235CryptoHelper) (ctx : EVP_CIPHER_CTX)
    (inputs : list (list byte))
  : option (list byte * H235CryptoHelper * EVP_CIPHER_CTX) :=
  match inputs with
  | [] => Some ([], h, ctx)
  | inp :: rest =>
      let '(r, out, h1, ctx1) := EncryptUpdate h ctx inp (GetSize inp) in
      if r =? 0 then None
      else
        match EncryptUpdate_calls h1 ctx1 rest with
        | Some (out', h2, ctx2) => Some (out ++ out', h2, ctx2)
        | None => None
        end
  end.

(** The same for [DecryptUpdate]. *)
Fixpoint DecryptUpdate_calls (h : H235CryptoHelper) (ctx : EVP_CIPHER_CTX)
    (inputs : list (list byte))
  : option (list byte * H235CryptoHelper * EVP_CIPHER_CTX) :=
  match inputs with
  | [] => Some ([], h, ctx)
  | inp :: rest =>
      let '(r, out, h1, ctx1) := DecryptUpdate h ctx inp (GetSize inp) in
      if r =? 0 then None
      else
        match DecryptUpdate_calls h1 ctx1 rest with
        | Some (out', h2, ctx2) => Some (out ++ out', h2, ctx2)
        | None => None
        end
  end.

(** The block [DecryptUpdate] holds back for the final, if any. *)
Definition retained (h : H235CryptoHelper) : list byte :=
  if final_used h =? 0 then [] else firstn 16 (final_buf h).


(** Two contexts bound to the same cipher, direction and key. *)
Definition ctx_same (a b : EVP_CIPHER_CTX) : Prop :=
  cipher a = cipher b /\ encrypt a = encrypt b /\ ctx_key a = ctx_key b.

(** ** Bytes and buffers: lemmas *)

Lemma byte_xor_involutive (a b : byte) : byte_xor (byte_xor a b) b = a.
Proof.
  unfold byte_xor.
  rewrite <- (Byte.of_bits_to_bits a) at 2.
  destruct (Byte.to_bits a) as (a0 & a1 & a2 & a3 & a4 & a5 & a6 & a7).
  destruct (Byte.to_bits b) as (b0 & b1 & b2 & b3 & b4 & b5 & b6 & b7).
  rewrite Byte.to_bits_of_bits.
  f_equal.
  repeat (f_equal; try (rewrite xorb_assoc, xorb_nilpotent, xorb_false_r; reflexivity)).
Qed.

Lemma xor_bytes_length (a b : list byte) :
  length (xor_bytes a b) = Nat.min (length a) (length b).
Proof.
  revert b; induction a as [|x a IH]; intros [|y b]; simpl; auto.
Qed.

Lemma xor_bytes_involutive (a b : list byte) :
  (length a <= length b)%nat -> xor_bytes (xor_bytes a b) b = a.
Proof.
  revert b; induction a as [|x a IH]; intros [|y b] Hlen; simpl in *; try lia; auto.
  rewrite byte_xor_involutive, IH by lia. reflexivity.
Qed.

Lemma byte_to_Z_range (b : byte) : 0 <= byte_to_Z b < 256.
Proof.
  unfold byte_to_Z. pose proof (Byte.to_N_bounded b). lia.
Qed.

Lemma byte_to_of_Z (z : Z) : 0 <= z < 256 -> byte_to_Z (byte_of_Z z) = z.
Proof.
  intros Hz. unfold byte_to_Z, byte_of_Z.
  destruct (Byte.of_N (Z.to_N z)) as [b|] eqn:Hb.
  - apply Byte.to_of_N in Hb. rewrite Hb. lia.
  - apply Byte.of_N_None_iff in Hb. lia.
Qed.

Lemma land_15 (x : Z) : Z.land x (16 - 1) = x mod 16.
Proof. exact (Z.land_ones x 4 ltac:(lia)). Qed.

Lemma GetSize_nonneg (a : list byte) : 0 <= GetSize a.
Proof. unfold GetSize. lia. Qed.

Lemma memcpy_length (dst src : list byte) (off n : Z) :
  0 <= off -> 0 <= n -> n <= GetSize src -> off + n <= GetSize dst ->
  length (memcpy dst off src n) = length dst.
Proof.
  unfold memcpy, GetSize. intros.
  rewrite !length_app, !length_firstn, length_skipn. lia.
Qed.

Lemma memcpy_0_firstn (dst src : list byte) (n : Z) :
  0 <= n -> n <= GetSize src ->
  firstn (Z.to_nat n) (memcpy dst 0 src n) = firstn (Z.to_nat n) src.
Proof.
  unfold memcpy, GetSize. intros. simpl.
  rewrite firstn_app, length_firstn.
  replace (Z.to_nat n - Nat.min (Z.to_nat n) (length src))%nat with 0%nat by lia.
  rewrite firstn_firstn, Nat.min_id. simpl. apply app_nil_r.
Qed.

(** ** The block loop: lemmas *)

Lemma cbc128_encrypt_length (n : nat) (key iv inp : list byte) :
  length (fst (cbc128_encrypt n key iv inp)) = (16 * n)%nat.
Proof.
  revert iv inp; induction n as [|n IH]; intros iv inp; [reflexivity|].
  cbn [cbc128_encrypt].
  specialize (IH (AES_encrypt key (xor_bytes (firstn 16 inp) iv)) (skipn 16 inp)).
  destruct (cbc128_encrypt n key _ (skipn 16 inp)) as [out iv'].
  cbn [fst] in *. rewrite length_app, AES_encrypt_length, IH. lia.
Qed.

Lemma cbc128_decrypt_length (n : nat) (key iv inp : list byte) :
  length iv = 16%nat -> (16 * n <= length inp)%nat ->
  length (fst (cbc128_decrypt n key iv inp)) = (16 * n)%nat.
Proof.
  revert iv inp; induction n as [|n IH]; intros iv inp Hiv Hlen; [reflexivity|].
  cbn [cbc128_decrypt].
  specialize (IH (firstn 16 inp) (skipn 16 inp)).
  destruct (cbc128_decrypt n key (firstn 16 inp) (skipn 16 inp)) as [out iv'].
  cbn [fst] in *.
  rewrite length_app, xor_bytes_length, AES_decrypt_length, Hiv, IH.
  - lia.
  - rewrite length_firstn. lia.
  - rewrite length_skipn. lia.
Qed.

Lemma cbc128_encrypt_app (n : nat) (key iv a b : list byte) :
  length a = (16 * n)%nat ->
  cbc128_encrypt n key iv (a ++ b) = cbc128_encrypt n key iv a.
Proof.
  revert iv a; induction n as [|n IH]; intros iv a Ha; [reflexivity|].
  cbn [cbc128_encrypt].
  rewrite firstn_app, skipn_app.
  replace (16 - length a)%nat with 0%nat by lia.
  change (firstn 0 b) with (@nil byte). change (skipn 0 b) with b.
  rewrite app_nil_r.
  rewrite IH by (rewrite length_skipn; lia). reflexivity.
Qed.

Lemma cbc128_encrypt_firstn (n : nat) (key iv inp : list byte) :
  (16 * n <= length inp)%nat ->
  cbc128_encrypt n key iv inp = cbc128_encrypt n key iv (firstn (16 * n) inp).
Proof.
  intros Hlen. rewrite <- (firstn_skipn (16 * n) inp) at 1.
  apply cbc128_encrypt_app. rewrite length_firstn. lia.
Qed.

Lemma cbc128_encrypt_plus (n m : nat) (key iv inp : list byte) :
  cbc128_encrypt (n + m) key iv inp =
  let '(o1, iv1) := cbc128_encrypt n key iv inp in
  let '(o2, iv2) := cbc128_encrypt m key iv1 (skipn (16 * n) inp) in
  (o1 ++ o2, iv2).
Proof.
  revert iv inp; induction n as [|n IH]; intros iv inp.
  - cbn [Nat.add cbc128_encrypt Nat.mul skipn].
    destruct (cbc128_encrypt m key iv inp); reflexivity.
  - cbn [Nat.add cbc128_encrypt]. rewrite IH.
    destruct (cbc128_encrypt n key _ (skipn 16 inp)) as [o1 iv1].
    replace (16 * S n)%nat with (16 * n + 16)%nat by lia.
    rewrite <- skipn_skipn.
    destruct (cbc128_encrypt m key iv1 _) as [o2 iv2].
    rewrite app_assoc. reflexivity.
Qed.

(** Deciphering what the loop enciphered gives the blocks back. *)
Lemma cbc128_decrypt_encrypt (n : nat) (key iv P : list byte) :
  length iv = 16%nat -> (16 * n <= length P)%nat ->
  fst (cbc128_decrypt n key iv (fst (cbc128_encrypt n key iv P))) = firstn (16 * n) P.
Proof.
  revert iv P; induction n as [|n IH]; intros iv P Hiv Hlen; [reflexivity|].
  cbn [cbc128_encrypt].
  set (c := AES_encrypt key (xor_bytes (firstn 16 P) iv)).
  pose proof (IH c (skipn 16 P)) as IH'.
  pose proof (cbc128_encrypt_length n key c (skipn 16 P)) as Hout.
  destruct (cbc128_encrypt n key c (skipn 16 P)) as [out iv'].
  cbn [fst] in *. cbn [cbc128_decrypt].
  assert (Hc : length c = 16%nat) by apply AES_encrypt_length.
  rewrite firstn_app, skipn_app, Hc.
  replace (16 - 16)%nat with 0%nat by lia.
  change (firstn 0 out) with (@nil byte). change (skipn 0 out) with out.
  rewrite app_nil_r, firstn_all2, skipn_all2 by lia. cbn [app].
  specialize (IH' Hc ltac:(rewrite length_skipn; lia)).
  destruct (cbc128_decrypt n key c out) as [pout iv''].
  cbn [fst] in *. subst pout.
  unfold c. rewrite AES_decrypt_encrypt.
  - rewrite xor_bytes_involutive by (rewrite length_firstn; lia).
    replace (16 * S n)%nat with (16 + 16 * n)%nat by lia.
    rewrite <- (firstn_skipn 16 P) at 3.
    rewrite firstn_app, length_firstn.
    replace (16 + 16 * n - Nat.min 16 (length P))%nat with (16 * n)%nat by lia.
    rewrite firstn_firstn.
    replace (Nat.min (16 + 16 * n) 16) with 16%nat by lia. reflexivity.
  - rewrite xor_bytes_length, length_firstn. lia.
Qed.

(** The loop in the enciphering direction is standard CBC. *)
Lemma cbc128_encrypt_standard (n : nat) (key iv P : list byte) :
  fst (cbc128_encrypt n key iv P) = concat (cbc_chain (AES_encrypt key) iv (blocks16 n P)).
Proof.
  revert iv P; induction n as [|n IH]; intros iv P; [reflexivity|].
  cbn [cbc128_encrypt blocks16 cbc_chain concat].
  rewrite <- IH.
  destruct (cbc128_encrypt n key _ (skipn 16 P)); reflexivity.
Qed.

(** ** [EVP_Cipher] on a CBC context *)

Lemma EVP_Cipher_cbc (ctx : EVP_CIPHER_CTX) (inp : list byte) (inl : Z) :
  cipher_mode (cipher ctx) = EVP_CIPH_CBC_MODE ->
  EVP_Cipher ctx inp inl =
  (fst (cbc_run ctx inp (Z.to_nat (inl / 16))),
   set_ctx_iv ctx (snd (cbc_run ctx inp (Z.to_nat (inl / 16))))).
Proof.
  intros Hmode. unfold EVP_Cipher, EVP_CIPHER_CTX_mode, cbc_run. rewrite Hmode.
  destruct (encrypt ctx).
  - destruct (cbc128_encrypt _ _ _ _); reflexivity.
  - destruct (cbc128_decrypt _ _ _ _); reflexivity.
Qed.

Lemma ctx_same_refl (a : EVP_CIPHER_CTX) : ctx_same a a.
Proof. unfold ctx_same. auto. Qed.

Lemma ctx_same_trans (a b c : EVP_CIPHER_CTX) :
  ctx_same a b -> ctx_same b c -> ctx_same a c.
Proof. unfold ctx_same. intros (? & ? & ?) (? & ? & ?). repeat split; congruence. Qed.

Lemma EVP_Cipher_same (ctx : EVP_CIPHER_CTX) (inp : list byte) (inl : Z) :
  ctx_same (snd (EVP_Cipher ctx inp inl)) ctx.
Proof.
  unfold EVP_Cipher, ctx_same.
  destruct (EVP_CIPHER_CTX_mode ctx); try (cbn; auto).
  destruct (if encrypt ctx then _ else _). cbn. auto.
Qed.

Lemma set_ctx_iv_same (ctx : EVP_CIPHER_CTX) : set_ctx_iv ctx (ctx_iv ctx) = ctx.
Proof. destruct ctx; reflexivity. Qed.

(** For an input that is not empty the call returns non-zero under either
    library; for an empty one it returns 0 exactly when the library reports
    the number of bytes. *)
Lemma EVP_Cipher_result_pos (inl : Z) :
  0 < inl -> (EVP_Cipher_result inl =? 0) = false.
Proof.
  intros H. unfold EVP_Cipher_result.
  destruct EVP_Cipher_returns_length; apply Z.eqb_neq; lia.
Qed.

Lemma EVP_Cipher_result_0 :
  (EVP_Cipher_result 0 =? 0) = EVP_Cipher_returns_length.
Proof. unfold EVP_Cipher_result. destruct EVP_Cipher_returns_length; reflexivity. Qed.

Lemma split_length (P : list byte) :
  exists (k : nat) (r : Z),
    GetSize P = 16 * Z.of_nat k + r /\ 0 <= r < 16
    /\ k = Z.to_nat (GetSize P / 16) /\ r = GetSize P mod 16.
Proof.
  exists (Z.to_nat (GetSize P / 16)), (GetSize P mod 16).
  pose proof (GetSize_nonneg P).
  pose proof (Z.mod_pos_bound (GetSize P) 16 ltac:(lia)).
  pose proof (Z.div_mod (GetSize P) 16 ltac:(lia)).
  pose proof (Z.div_pos (GetSize P) 16 ltac:(lia) ltac:(lia)).
  repeat split; try lia.
Qed.

Lemma mod16_of_split (k : nat) (r : Z) :
  0 <= r < 16 -> (16 * Z.of_nat k + r) mod 16 = r.
Proof.
  intros Hr. symmetry. apply (Z.mod_unique_pos _ 16 (Z.of_nat k) r); lia.
Qed.

Lemma div16_of_split (k : nat) (r : Z) :
  0 <= r < 16 -> (16 * Z.of_nat k + r) / 16 = Z.of_nat k.
Proof.
  intros Hr. symmetry. apply (Z.div_unique_pos _ 16 (Z.of_nat k) r); lia.
Qed.

(** [EncryptUpdate] on an empty staging block: the whole blocks of the input
    go through the cipher, the rest is staged. *)
Lemma EncryptUpdate_fresh (h : H235CryptoHelper) (ctx : EVP_CIPHER_CTX)
    (P : list byte) (k : nat) (r : Z) :
  block_size (cipher ctx) = 16 ->
  cipher_mode (cipher ctx) = EVP_CIPH_CBC_MODE ->
  buf_len h = 0 ->
  GetSize P = 16 * Z.of_nat k + r -> 0 <= r < 16 ->
  EncryptUpdate h ctx P (GetSize P) =
  (1, fst (cbc_run ctx P k),
   {| buf := if r =? 0 then buf h
             else memcpy (buf h) 0 (skipn (Z.to_nat (16 * Z.of_nat k)) P) r;
      final_buf := final_buf h; buf_len := r; final_used := final_used h |},
   set_ctx_iv ctx (snd (cbc_run ctx P k))).
Proof.
  intros Hbl Hmode Hbuf Hlen Hr.
  unfold EncryptUpdate, EVP_CIPHER_CTX_block_size.
  rewrite Hbl, Hbuf, land_15, Hlen, mod16_of_split by assumption.
  destruct (Z.leb_spec (16 * Z.of_nat k + r) 0) as [Hz|Hpos].
  - assert (k = 0%nat /\ r = 0) as [-> ->] by lia.
    assert (cbc_run ctx P 0 = ([], ctx_iv ctx)) as ->
      by (unfold cbc_run; destruct (encrypt ctx); reflexivity).
    cbn [fst snd Z.eqb Z.b2z Z.of_nat Z.mul Z.add]. rewrite set_ctx_iv_same.
    destruct h; cbn in *; subst; reflexivity.
  - cbn [Z.eqb andb negb].
    destruct (Z.eqb_spec r 0) as [->|Hr0].
    + rewrite EVP_Cipher_cbc, EVP_Cipher_result_pos by assumption.
      replace ((16 * Z.of_nat k + 0) / 16) with (Z.of_nat k)
        by (rewrite div16_of_split; lia).
      rewrite Nat2Z.id. destruct h; cbn in *; subst; reflexivity.
    + rewrite !land_15, !mod16_of_split by assumption.
      destruct (Z.eqb_spec r 0) as [|_]; [contradiction|].
      replace (16 * Z.of_nat k + r - r) with (16 * Z.of_nat k) by lia.
      destruct (Z.gtb_spec (16 * Z.of_nat k) 0) as [Hk|Hk].
      * rewrite EVP_Cipher_cbc, EVP_Cipher_result_pos by assumption.
        replace (16 * Z.of_nat k / 16) with (Z.of_nat k)
          by (rewrite Z.mul_comm, Z.div_mul; lia).
        rewrite Nat2Z.id. reflexivity.
      * assert (k = 0%nat) as -> by lia.
        assert (cbc_run ctx P 0 = ([], ctx_iv ctx)) as ->
          by (unfold cbc_run; destruct (encrypt ctx); reflexivity).
        cbn [fst snd app]. rewrite set_ctx_iv_same. reflexivity.
Qed.

(** ** The IV builder: lemmas *)

Lemma SetIV_seed (iv s : list byte) :
  length iv = 16%nat -> (6 <= length s)%nat ->
  SetIV iv (Some s) 16 = firstn 6 s ++ firstn 6 s ++ firstn 4 s.
Proof.
  intros Hiv Hs.
  do 6 (destruct s as [|? s]; [cbn in Hs; lia|]).
  do 16 (destruct iv as [|? iv]; [discriminate Hiv|]).
  destruct iv; [|discriminate Hiv].
  reflexivity.
Qed.

Lemma SetIV_null (iv : list byte) :
  length iv = 16%nat -> SetIV iv None 16 = repeat x00 16.
Proof.
  intros Hiv.
  do 16 (destruct iv as [|? iv]; [discriminate Hiv|]).
  destruct iv; [|discriminate Hiv].
  reflexivity.
Qed.

Lemma seed_ok_length (s : list byte) :
  seed_ok (Some s) = true -> (6 <= length s)%nat.
Proof.
  unfold seed_ok, IV_SEQUENCE_LEN, GetSize. intros H%Z.leb_le. lia.
Qed.

(** With sixteen bytes to fill, what was in the IV array does not matter. *)
Lemma SetIV_packet_iv (iv : list byte) (ivSequence : option (list byte)) :
  length iv = 16%nat -> seed_ok ivSequence = true ->
  SetIV iv ivSequence 16 = packet_iv ivSequence.
Proof.
  intros Hiv Hs. unfold packet_iv. destruct ivSequence as [s|].
  - apply seed_ok_length in Hs.
    rewrite !SetIV_seed by (assumption || reflexivity). reflexivity.
  - rewrite !SetIV_null by (assumption || reflexivity). reflexivity.
Qed.

Lemma packet_iv_length (ivSequence : option (list byte)) :
  seed_ok ivSequence = true -> length (packet_iv ivSequence) = 16%nat.
Proof.
  intros Hs. unfold packet_iv. destruct ivSequence as [s|].
  - apply seed_ok_length in Hs.
    rewrite SetIV_seed by (assumption || reflexivity).
    rewrite !length_app, !length_firstn. lia.
  - rewrite SetIV_null by reflexivity. reflexivity.
Qed.

(** ** The engine in its serving state: lemmas *)

Lemma ctx_ready_inv (enc : bool) (ctx : EVP_CIPHER_CTX) :
  ctx_ready enc ctx = true ->
  block_size (cipher ctx) = 16 /\ iv_len (cipher ctx) = 16
  /\ cipher_mode (cipher ctx) = EVP_CIPH_CBC_MODE /\ encrypt ctx = enc.
Proof.
  unfold ctx_ready. intros H.
  apply andb_prop in H as [H H4]. apply andb_prop in H as [H H3].
  apply andb_prop in H as [H1 H2].
  apply Z.eqb_eq in H1, H2. apply Bool.eqb_prop in H4.
  destruct (cipher_mode (cipher ctx)); try discriminate. auto.
Qed.

Lemma bytes_eqb_eq (a b : list byte) : bytes_eqb a b = true -> a = b.
Proof.
  unfold bytes_eqb. destruct (list_eq_dec _ a b); [auto|discriminate].
Qed.

Lemma engine_ready_inv (e : H235CryptoEngine) :
  engine_ready e = true ->
  m_initialised e = true
  /\ (exists ectx dctx,
        m_encryptCtx e = Some ectx /\ m_decryptCtx e = Some dctx
        /\ ctx_ready true ectx = true /\ ctx_ready false dctx = true
        /\ ctx_key ectx = ctx_key dctx)
  /\ m_enc_blockSize e = 16 /\ m_enc_ivLength e = 16
  /\ m_dec_blockSize e = 16 /\ m_dec_ivLength e = 16
  /\ length (m_iv e) = 16%nat.
Proof.
  unfold engine_ready. intros H.
  repeat (apply andb_prop in H as [H ?]).
  repeat match goal with Hx : (_ =? _) = true |- _ => apply Z.eqb_eq in Hx end.
  destruct (m_encryptCtx e) as [ectx|]; [|discriminate].
  destruct (m_decryptCtx e) as [dctx|]; [|discriminate].
  match goal with Hx : (_ && _)%bool = true |- _ =>
    apply andb_prop in Hx as [Hx Hk]; apply andb_prop in Hx as [He Hd] end.
  apply bytes_eqb_eq in Hk.
  repeat split; try assumption.
  - exists ectx, dctx. auto.
  - unfold GetSize, EVP_MAX_IV_LENGTH in *. lia.
Qed.

(** ** The padded or aligned path of the encrypting side *)

Lemma pkcs_padded_length (P : list byte) :
  GetSize (pkcs_padded P) = 16 * ((GetSize P + 15) / 16).
Proof.
  destruct (split_length P) as (k & r & Hlen & Hr & _ & Hmod).
  unfold pkcs_padded. rewrite <- Hmod.
  destruct (Z.eqb_spec r 0) as [->|Hr0].
  - rewrite Hlen.
    replace (16 * Z.of_nat k + 0 + 15) with (16 * Z.of_nat k + 15) by lia.
    rewrite div16_of_split; lia.
  - unfold GetSize in *. rewrite length_app, repeat_length, Nat2Z.inj_add, Hlen.
    rewrite Z2Nat.id by lia.
    replace (16 * Z.of_nat k + r + 15) with (16 * Z.of_nat (S k) + (r - 1)) by lia.
    rewrite div16_of_split; lia.
Qed.

Lemma staged_block (b tail : list byte) (r : Z) (c : byte) :
  0 < r < 16 -> GetSize tail = r ->
  firstn 16 (memset (memcpy b 0 tail r) r c (16 - r))
  = tail ++ repeat c (Z.to_nat (16 - r)).
Proof.
  intros Hr Htail. unfold memset, memcpy, GetSize in *.
  change (Z.to_nat 0) with 0%nat. rewrite firstn_O. cbn [app].
  assert (Ht : firstn (Z.to_nat r) tail = tail) by (apply firstn_all2; lia).
  rewrite Ht, (firstn_app (Z.to_nat r)).
  replace (Z.to_nat r - length tail)%nat with 0%nat by lia.
  rewrite Ht, firstn_O, app_nil_r.
  rewrite firstn_app, (firstn_all2 tail) by lia.
  f_equal.
  rewrite firstn_app, repeat_length.
  replace (16 - length tail)%nat with (Z.to_nat (16 - r)) by lia.
  rewrite firstn_all2 by (rewrite repeat_length; lia).
  replace (Z.to_nat (16 - r) - Z.to_nat (16 - r))%nat with 0%nat by lia.
  rewrite firstn_O. apply app_nil_r.
Qed.

Lemma cbc128_encrypt_one (key iv x : list byte) :
  cbc128_encrypt 1 key iv x = cbc128_encrypt 1 key iv (firstn 16 x).
Proof.
  cbn [cbc128_encrypt]. rewrite firstn_firstn. reflexivity.
Qed.

Lemma standard_stages (ctx : EVP_CIPHER_CTX) (P : list byte) :
  block_size (cipher ctx) = 16 ->
  cipher_mode (cipher ctx) = EVP_CIPH_CBC_MODE ->
  encrypt ctx = true -> ctx_buf_len ctx = 0 ->
  no_padding ctx = negb (GetSize P mod 16 >? 0) ->
  exists r1 r2 out1 out2 ctx1 ctx2,
    EVP_EncryptUpdate ctx P (GetSize P) = (r1, out1, ctx1)
    /\ EVP_EncryptFinal_ex ctx1 = (r2, out2, ctx2)
    /\ out1 ++ out2 =
       fst (cbc128_encrypt (Z.to_nat (GetSize (pkcs_padded P) / 16))
              (ctx_key ctx) (ctx_iv ctx) (pkcs_padded P))
    /\ cipher ctx2 = cipher ctx /\ encrypt ctx2 = true
    /\ ctx_key ctx2 = ctx_key ctx.
Proof.
  intros Hbl Hmode Henc Hbuf Hpad.
  destruct (split_length P) as (k & r & Hlen & Hr & Hk & Hmod).
  assert (HlenP : length P = (16 * k + Z.to_nat r)%nat)
    by (unfold GetSize in Hlen; lia).
  rewrite pkcs_padded_length.
  unfold EVP_EncryptUpdate.
  rewrite (EncryptUpdate_fresh _ ctx P k r) by (assumption || reflexivity).
  cbn [buf buf_len].
  unfold EVP_EncryptFinal_ex, EVP_CIPHER_CTX_block_size, EVP_CIPHER_CTX_test_no_padding.
  unfold cbc_run. rewrite Henc.
  unfold pkcs_padded. rewrite <- Hmod.
  destruct (Z.eqb_spec r 0) as [->|Hr0].
  - do 6 eexists. split; [reflexivity|].
    cbn [cipher set_ctx_buf set_ctx_iv ctx_buf_len no_padding ctx_buf].
    rewrite Hbl, Hpad, <- Hmod.
    cbn [Z.gtb Z.compare negb Z.eqb].
    split; [reflexivity|].
    rewrite app_nil_r, Hlen.
    replace (16 * Z.of_nat k + 0 + 15) with (16 * Z.of_nat k + 15) by lia.
    rewrite div16_of_split by lia.
    replace (16 * Z.of_nat k / 16) with (Z.of_nat k)
      by (rewrite Z.mul_comm, Z.div_mul; lia).
    rewrite Nat2Z.id. auto.
  - do 6 eexists. split; [reflexivity|].
    cbn [cipher set_ctx_buf set_ctx_iv ctx_buf_len no_padding ctx_buf].
    rewrite Hbl, Hpad, <- Hmod. cbn [Z.eqb].
    destruct (Z.gtb_spec r 0) as [_|]; [|lia]. cbn [negb].
    rewrite EVP_Cipher_cbc by assumption.
    unfold cbc_run.
    cbn [encrypt set_ctx_buf set_ctx_iv ctx_key ctx_iv cipher]. rewrite Henc.
    split; [reflexivity|].
    split; [|auto].
    rewrite Hlen.
    replace (16 * Z.of_nat k + r + 15) with (16 * Z.of_nat (S k) + (r - 1)) by lia.
    rewrite div16_of_split by lia.
    replace (16 * Z.of_nat (S k) / 16) with (Z.of_nat (S k))
      by (rewrite Z.mul_comm, Z.div_mul; lia).
    rewrite Nat2Z.id.
    replace (S k) with (k + 1)%nat by lia.
    rewrite cbc128_encrypt_plus.
    rewrite (cbc128_encrypt_firstn k _ _ (P ++ _))
      by (rewrite length_app; lia).
    rewrite firstn_app.
    replace (16 * k - length P)%nat with 0%nat by lia.
    rewrite firstn_O, app_nil_r.
    rewrite <- cbc128_encrypt_firstn by lia.
    destruct (cbc128_encrypt k (ctx_key ctx) (ctx_iv ctx) P) as [o1 iv1].
    cbn [fst snd].
    replace (Z.to_nat (16 / 16)) with 1%nat by reflexivity.
    rewrite (cbc128_encrypt_one _ _ (memset _ _ _ _)).
    replace (Z.to_nat (16 * Z.of_nat k)) with (16 * k)%nat by lia.
    rewrite staged_block
      by (try lia; unfold GetSize; rewrite length_skipn; lia).
    rewrite skipn_app.
    replace (16 * k - length P)%nat with 0%nat by lia.
    rewrite skipn_O.
    rewrite (cbc128_encrypt_one _ _ (skipn _ _ ++ _)).
    rewrite firstn_all2
      by (rewrite length_app, length_skipn, repeat_length; lia).
    destruct (cbc128_encrypt 1 _ iv1 _) as [o2 iv2]. reflexivity.
Qed.

Lemma bytes_eqb_refl (a : list byte) : bytes_eqb a a = true.
Proof.
  unfold bytes_eqb. destruct (list_eq_dec _ a a); [reflexivity|contradiction].
Qed.

Lemma ctx_ready_transfer (enc : bool) (ctx ctx' : EVP_CIPHER_CTX) :
  cipher ctx' = cipher ctx -> encrypt ctx' = enc ->
  ctx_ready enc ctx = true -> ctx_ready enc ctx' = true.
Proof.
  intros Hc He H. apply ctx_ready_inv in H as (H1 & H2 & H3 & H4).
  unfold ctx_ready. rewrite Hc, He, H1, H2, H3. destruct enc; reflexivity.
Qed.

(** What [Encrypt] computes on a serving engine: CBC under the engine's key
    and the packet's IV over the plaintext as padded. *)
Lemma Encrypt_ready (e : H235CryptoEngine) (P : list byte)
    (ivSequence : option (list byte)) (rtpPadding : bool) :
  engine_ready e = true -> seed_ok ivSequence = true ->
  exists e',
    Encrypt e P ivSequence rtpPadding =
    Some (fst (cbc128_encrypt (Z.to_nat (GetSize (pkcs_padded P) / 16))
                 (engine_key e) (packet_iv ivSequence) (pkcs_padded P)),
          e', GetSize P mod 16 >? 0)
    /\ engine_ready e' = true /\ engine_key e' = engine_key e.
Proof.
  intros He Hs.
  pose proof (engine_ready_inv e He)
    as (Hinit & (ectx & dctx & Hectx & Hdctx & Hre & Hrd & Hkey) & Heb & Hei & Hdb & Hdi & Hiv).
  pose proof (ctx_ready_inv _ _ Hre) as (Hbl & Hivl & Hmode & Henc).
  unfold Encrypt, engine_key. rewrite Hinit, Hectx, Heb, Hei.
  cbn [negb Z.eqb].
  rewrite SetIV_packet_iv by (assumption || reflexivity).
  rewrite Z.rem_mod_nonneg by (try apply GetSize_nonneg; lia).
  unfold encrypt_stages.
  rewrite Z.rem_mod_nonneg by (try apply GetSize_nonneg; lia).
  rewrite andb_negb_l.
  set (ctx2 := EVP_CIPHER_CTX_set_padding _ _).
  destruct (standard_stages ctx2 P)
    as (r1 & r2 & out1 & out2 & ctx1' & ctx2' & Hu & Hf & Hout & Hc & Hen & Hk);
    try (subst ctx2; cbn; assumption || reflexivity).
  rewrite Hu, Hf. eexists. split; [|split].
  - rewrite Hout. subst ctx2.
    cbn [EVP_CIPHER_CTX_set_padding EVP_CipherInit_ex_iv ctx_key ctx_iv].
    rewrite Hivl, firstn_all2
      by (rewrite packet_iv_length by assumption; reflexivity).
    reflexivity.
  - unfold engine_ready, set_encrypt_state.
    cbn [m_initialised m_encryptCtx m_decryptCtx m_enc_blockSize m_enc_ivLength
         m_dec_blockSize m_dec_ivLength m_iv].
    rewrite Hinit, Hdctx, Hrd, Heb, Hei, Hdb, Hdi, Hk.
    rewrite (ctx_ready_transfer true ectx ctx2') by (assumption || (rewrite Hc; reflexivity)).
    subst ctx2. cbn [EVP_CIPHER_CTX_set_padding EVP_CipherInit_ex_iv ctx_key].
    rewrite Hkey, bytes_eqb_refl.
    unfold GetSize, EVP_MAX_IV_LENGTH. rewrite Hiv. reflexivity.
  - cbn [set_encrypt_state m_encryptCtx]. rewrite Hk. reflexivity.
Qed.

(** ** The padded path of the decrypting side *)

Lemma cbc_run_length (ctx : EVP_CIPHER_CTX) (inp : list byte) (k : nat) :
  length (ctx_iv ctx) = 16%nat -> (16 * k <= length inp)%nat ->
  length (fst (cbc_run ctx inp k)) = (16 * k)%nat.
Proof.
  intros Hiv Hlen. unfold cbc_run. destruct (encrypt ctx).
  - apply cbc128_encrypt_length.
  - apply cbc128_decrypt_length; assumption.
Qed.

Lemma decrypt_stages (h : H235CryptoHelper) (ctx : EVP_CIPHER_CTX)
    (C : list byte) (pad : bool) (k : nat) (r : Z) :
  block_size (cipher ctx) = 16 ->
  cipher_mode (cipher ctx) = EVP_CIPH_CBC_MODE ->
  length (ctx_iv ctx) = 16%nat ->
  no_padding ctx = negb pad ->
  buf_len h = 0 -> final_used h = 0 ->
  GetSize C = 16 * Z.of_nat k + r -> 0 <= r < 16 ->
  exists h2 ctx3,
    DecryptUpdate h ctx C (GetSize C)
    = (1, fst (relaxed_stages pad k r (fst (cbc_run ctx C k))), h2, ctx3)
    /\ DecryptFinalRelaxed h2 ctx3
       = snd (relaxed_stages pad k r (fst (cbc_run ctx C k)))
    /\ ctx_same ctx3 ctx
    /\ buf_len h2 = r
    /\ final_used h2 = Z.b2z (pad && (r =? 0) && negb (Nat.eqb k 0))
    /\ (final_used h2 <> 0 ->
        firstn 16 (final_buf h2) = skipn (16 * (k - 1)) (fst (cbc_run ctx C k))).
Proof.
  intros Hbl Hmode Hiv Hpad Hbuf Hfin Hlen Hr.
  assert (HlenC : length C = (16 * k + Z.to_nat r)%nat)
    by (unfold GetSize in Hlen; lia).
  pose proof (cbc_run_length ctx C k Hiv ltac:(lia)) as Hplain.
  unfold DecryptUpdate, DecryptFinalRelaxed, relaxed_stages,
    EVP_CIPHER_CTX_test_no_padding, EVP_CIPHER_CTX_block_size.
  destruct (Z.leb_spec (GetSize C) 0) as [Hz|Hpos].
  - (* nothing to decipher *)
    assert (k = 0%nat /\ r = 0) as [-> ->] by lia.
    assert (GetSize C = 0) as -> by lia.
    assert (cbc_run ctx C 0 = ([], ctx_iv ctx)) as ->
      by (unfold cbc_run; destruct (encrypt ctx); reflexivity).
    cbn [fst snd Z.eqb Z.b2z Nat.eqb negb andb].
    rewrite andb_false_r. cbn [fst snd Z.b2z].
    exists h, ctx. rewrite Hpad, Hbl, Hbuf, Hfin.
    pose proof (ctx_same_refl ctx).
    destruct pad; cbn; repeat split; auto; intros Hc; contradiction.
  - rewrite Hpad, Hbl, Hfin.
    rewrite (EncryptUpdate_fresh h ctx C k r) by assumption.
    set (plain := fst (cbc_run ctx C k)) in *.
    assert (Hsame : ctx_same (set_ctx_iv ctx (snd (cbc_run ctx C k))) ctx)
      by (repeat split).
    change (16 >? 1) with true.
    destruct pad; cbn [negb andb orb Z.eqb buf buf_len final_buf final_used app].
    + destruct (Z.eqb_spec r 0) as [->|Hr0].
      * assert (Hk : k <> 0%nat) by lia.
        set (last := skipn (16 * (k - 1)) plain).
        assert (Hlast : length last = 16%nat)
          by (unfold last; rewrite length_skipn; lia).
        assert (Hm : firstn 16 (memcpy (final_buf h) 0 last 16) = last).
        { change 16%nat with (Z.to_nat 16).
          rewrite memcpy_0_firstn by (unfold GetSize; lia).
          apply firstn_all2. change (Z.to_nat 16) with 16%nat. lia. }
        assert (Hn : nth 15 (memcpy (final_buf h) 0 last 16) x00 = nth 15 last x00).
        { rewrite <- Hm at 2. rewrite nth_firstn. reflexivity. }
        assert (Hout : Z.to_nat (GetSize plain - 16) = (16 * (k - 1))%nat)
          by (unfold GetSize; lia).
        apply Nat.eqb_neq in Hk. rewrite Hk, Hout. fold last.
        cbn [negb fst snd Z.b2z].
        do 2 eexists. split; [reflexivity|].
        cbn [buf_len final_used final_buf set_ctx_iv cipher no_padding Z.eqb negb orb].
        rewrite Hpad, Hbl. cbn [negb]. change (16 >? 1) with true. cbn iota.
        change (Z.to_nat (16 - 1)) with 15%nat. rewrite Hn.
        split; [|repeat split; auto].
        destruct ((byte_to_Z (nth 15 last x00) =? 0)
                  || (byte_to_Z (nth 15 last x00) >? 16)) eqn:Hbad;
          [reflexivity|].
        cbn [andb snd]. f_equal.
        pose proof (byte_to_Z_range (nth 15 last x00)).
        apply orb_false_elim in Hbad as [H0 _]. apply Z.eqb_neq in H0.
        set (m := Z.to_nat (16 - byte_to_Z (nth 15 last x00))).
        replace (firstn m (memcpy (final_buf h) 0 last 16))
          with (firstn m (firstn 16 (memcpy (final_buf h) 0 last 16)))
          by (rewrite firstn_firstn; f_equal; lia).
        rewrite Hm. reflexivity.
      * cbn [negb fst snd Z.b2z].
        do 2 eexists. split; [reflexivity|].
        cbn [buf_len final_used final_buf set_ctx_iv cipher no_padding encrypt ctx_key].
        rewrite Hpad, Hbl. cbn [negb]. change (16 >? 1) with true. cbn iota.
        destruct (Z.eqb_spec r 0) as [|_]; [contradiction|]. cbn [negb orb].
        repeat split; auto; intros Hc; contradiction.
    + destruct (Z.eqb_spec r 0) as [->|Hr0]; cbn [negb fst snd Z.b2z].
      * do 2 eexists. split; [reflexivity|].
        cbn [buf_len final_used final_buf set_ctx_iv cipher no_padding encrypt ctx_key].
        rewrite Hpad. cbn [negb Z.eqb].
        repeat split; auto; intros Hc; contradiction.
      * do 2 eexists. split; [reflexivity|].
        cbn [buf_len final_used final_buf set_ctx_iv cipher no_padding encrypt ctx_key].
        rewrite Hpad. cbn [negb].
        destruct (Z.eqb_spec r 0) as [|_]; [contradiction|].
        repeat split; auto; intros Hc; contradiction.
Qed.

Lemma cts_guard_off (pad : bool) (C : list byte) (k : nat) (r : Z) :
  GetSize C = 16 * Z.of_nat k + r -> 0 <= r < 16 -> pad = true \/ r = 0 ->
  negb pad && (Z.rem (GetSize C) 16 >? 0) = false.
Proof.
  intros Hlen Hr [->| ->]; [reflexivity|].
  rewrite Z.rem_mod_nonneg by (try apply GetSize_nonneg; lia).
  rewrite Hlen, mod16_of_split by lia. apply andb_false_r.
Qed.

Lemma decrypt_ctx_facts (dctx : EVP_CIPHER_CTX) (ivSequence : option (list byte))
    (pad : bool) :
  ctx_ready false dctx = true -> seed_ok ivSequence = true ->
  let ctx2 := EVP_CIPHER_CTX_set_padding
                (EVP_CipherInit_ex_iv dctx (packet_iv ivSequence)) pad in
  block_size (cipher ctx2) = 16
  /\ cipher_mode (cipher ctx2) = EVP_CIPH_CBC_MODE
  /\ length (ctx_iv ctx2) = 16%nat
  /\ no_padding ctx2 = negb pad
  /\ cipher ctx2 = cipher dctx /\ encrypt ctx2 = false
  /\ ctx_key ctx2 = ctx_key dctx /\ ctx_iv ctx2 = packet_iv ivSequence.
Proof.
  intros Hrd Hs.
  pose proof (ctx_ready_inv _ _ Hrd) as (Hbl & Hivl & Hmode & Henc).
  cbn [EVP_CIPHER_CTX_set_padding EVP_CipherInit_ex_iv cipher ctx_iv no_padding
       encrypt ctx_key].
  rewrite Hivl, firstn_all2
    by (rewrite packet_iv_length by assumption; reflexivity).
  rewrite packet_iv_length by assumption. auto 10.
Qed.

Lemma engine_ready_set_decrypt (e : H235CryptoEngine) (dctx ctx : EVP_CIPHER_CTX)
    (h : H235CryptoHelper) (cnt : Z) (iv : list byte) :
  engine_ready e = true -> m_decryptCtx e = Some dctx ->
  cipher ctx = cipher dctx -> encrypt ctx = false -> ctx_key ctx = ctx_key dctx ->
  length iv = 16%nat ->
  engine_ready (set_decrypt_state e ctx h cnt iv) = true
  /\ engine_key (set_decrypt_state e ctx h cnt iv) = engine_key e.
Proof.
  intros He Hd Hc Hen Hk Hiv.
  pose proof (engine_ready_inv e He)
    as (Hinit & (ectx & dctx' & Hectx & Hdctx & Hre & Hrd & Hkey) & Heb & Hei & Hdb & Hdi & _).
  rewrite Hd in Hdctx. injection Hdctx as <-.
  split; [|reflexivity].
  unfold engine_ready, set_decrypt_state.
  cbn [m_initialised m_encryptCtx m_decryptCtx m_enc_blockSize m_enc_ivLength
       m_dec_blockSize m_dec_ivLength m_iv].
  rewrite Hinit, Hectx, Hre, Heb, Hei, Hdb, Hdi, Hk, Hkey, bytes_eqb_refl.
  rewrite (ctx_ready_transfer false dctx ctx) by assumption.
  unfold GetSize, EVP_MAX_IV_LENGTH. rewrite Hiv. reflexivity.
Qed.

(** What [Decrypt] returns on a serving engine when the ciphertext-stealing
    guard is off: the output of the update, then that of the relaxed final. *)
Lemma Decrypt_ready (e : H235CryptoEngine) (C : list byte)
    (ivSequence : option (list byte)) (pad : bool) (k : nat) (r : Z) :
  engine_ready e = true -> seed_ok ivSequence = true ->
  GetSize C = 16 * Z.of_nat k + r -> 0 <= r < 16 -> pad = true \/ r = 0 ->
  exists e',
    Decrypt e C ivSequence pad =
    Some (fst (relaxed_stages pad k r (deciphered e ivSequence C))
            ++ snd (snd (relaxed_stages pad k r (deciphered e ivSequence C))),
          e', false)
    /\ engine_ready e' = true /\ engine_key e' = engine_key e.
Proof.
  intros He Hs Hlen Hr Hcase.
  pose proof (engine_ready_inv e He)
    as (Hinit & (ectx & dctx & Hectx & Hdctx & Hre & Hrd & Hkey) & Heb & Hei & Hdb & Hdi & Hiv).
  pose proof (decrypt_ctx_facts dctx ivSequence pad Hrd Hs)
    as (Hbl & Hmode & Hivl & Hpad & Hc & Hen & Hk & Hiv2).
  assert (Hek : engine_key e = ctx_key dctx)
    by (unfold engine_key; rewrite Hectx; exact Hkey).
  unfold Decrypt, deciphered.
  rewrite Hinit, Hdctx, Hdb, Hdi, Hek. cbn [negb Z.eqb].
  rewrite andb_false_r, (cts_guard_off pad C k r) by assumption.
  rewrite SetIV_packet_iv by (assumption || reflexivity).
  set (ctx2 := EVP_CIPHER_CTX_set_padding _ _) in *.
  destruct (decrypt_stages (Reset (m_decryptHelper e)) ctx2 C pad k r)
    as (h2 & ctx3 & Hu & Hf & (Hc3 & Hen3 & Hk3) & _); try assumption; try reflexivity.
  rewrite Hu, Hf.
  unfold cbc_run in *. rewrite Hen, Hk, Hiv2 in *.
  rewrite Hlen, div16_of_split, Nat2Z.id by assumption.
  destruct (snd (relaxed_stages pad k r _)) as [r2 out2] eqn:Hst.
  eexists. split; [reflexivity|].
  rewrite <- Hek.
  apply engine_ready_set_decrypt with (dctx := dctx); try assumption; congruence.
Qed.

(** What [DecryptInPlace] returns on a serving engine when the
    ciphertext-stealing guard is off. *)
Lemma DecryptInPlace_ready (e : H235CryptoEngine) (C : list byte)
    (ivSequence : option (list byte)) (pad : bool) (k : nat) (r : Z) :
  engine_ready e = true -> seed_ok ivSequence = true ->
  GetSize C = 16 * Z.of_nat k + r -> 0 <= r < 16 -> pad = true \/ r = 0 ->
  exists e',
    DecryptInPlace e C (GetSize C) ivSequence pad =
    Some (let st := relaxed_stages pad k r (deciphered e ivSequence C) in
          if fst (snd st) =? 0 then (0, [], e', pad)
          else (GetSize (fst st) + GetSize (snd (snd st)),
                fst st ++ snd (snd st), e', false))
    /\ engine_ready e' = true /\ engine_key e' = engine_key e.
Proof.
  intros He Hs Hlen Hr Hcase.
  pose proof (engine_ready_inv e He)
    as (Hinit & (ectx & dctx & Hectx & Hdctx & Hre & Hrd & Hkey) & Heb & Hei & Hdb & Hdi & Hiv).
  pose proof (decrypt_ctx_facts dctx ivSequence pad Hrd Hs)
    as (Hbl & Hmode & Hivl & Hpad & Hc & Hen & Hk & Hiv2).
  assert (Hek : engine_key e = ctx_key dctx)
    by (unfold engine_key; rewrite Hectx; exact Hkey).
  unfold DecryptInPlace, deciphered.
  rewrite Hdctx, Hdb, Hdi, Hek. cbn [negb Z.eqb].
  rewrite andb_false_r, (cts_guard_off pad C k r) by assumption.
  rewrite SetIV_packet_iv by (assumption || reflexivity).
  set (ctx2 := EVP_CIPHER_CTX_set_padding _ _) in *.
  destruct (decrypt_stages (Reset (m_decryptHelper e)) ctx2 C pad k r)
    as (h2 & ctx3 & Hu & Hf & (Hc3 & Hen3 & Hk3) & _); try assumption; try reflexivity.
  rewrite Hu, Hf. cbn [Z.eqb].
  unfold cbc_run in *. rewrite Hen, Hk, Hiv2 in *.
  rewrite Hlen, div16_of_split, Nat2Z.id by assumption.
  destruct (snd (relaxed_stages pad k r _)) as [r2 out2] eqn:Hst.
  cbn [fst snd].
  exists (set_decrypt_state e ctx3 h2 (m_operationCnt e) (packet_iv ivSequence)).
  split.
  - destruct (r2 =? 0); reflexivity.
  - rewrite <- Hek.
    apply engine_ready_set_decrypt with (dctx := dctx); try assumption; congruence.
Qed.

Lemma nth_repeat_lt (c d : byte) (m i : nat) :
  (i < m)%nat -> nth i (repeat c m) d = c.
Proof.
  revert i; induction m as [|m IH]; intros [|i] Hi; cbn; try lia; auto.
  apply IH. lia.
Qed.

(** The relaxed final takes the pad of [pkcs_padded] off again. *)
Lemma relaxed_stages_padded (P : list byte) (k : nat) (r : Z) :
  GetSize P = 16 * Z.of_nat k + r -> 0 < r < 16 ->
  relaxed_stages true (S k) 0 (pkcs_padded P)
  = (firstn (16 * k) P, (1, skipn (16 * k) P)).
Proof.
  intros Hlen Hr.
  assert (HlenP : length P = (16 * k + Z.to_nat r)%nat)
    by (unfold GetSize in Hlen; lia).
  unfold relaxed_stages, pkcs_padded.
  rewrite Hlen, mod16_of_split by lia.
  destruct (Z.eqb_spec r 0) as [|_]; [lia|].
  cbn [andb Z.eqb Nat.eqb negb].
  replace (S k - 1)%nat with k by lia.
  rewrite skipn_app, firstn_app.
  replace (16 * k - length P)%nat with 0%nat by lia.
  rewrite skipn_O, firstn_O, app_nil_r.
  set (tail := skipn (16 * k) P).
  assert (Htail : length tail = Z.to_nat r)
    by (unfold tail; rewrite length_skipn; lia).
  rewrite app_nth2 by lia.
  rewrite nth_repeat_lt by lia.
  rewrite byte_to_of_Z by lia.
  destruct (Z.eqb_spec (16 - r) 0) as [|_]; [lia|].
  destruct (Z.gtb_spec (16 - r) 16) as [|_]; [lia|].
  cbn [orb].
  replace (16 - (16 - r)) with r by lia.
  assert (Ht : firstn (Z.to_nat r) tail = tail) by (apply firstn_all2; lia).
  rewrite firstn_app, Ht.
  replace (Z.to_nat r - length tail)%nat with 0%nat by lia.
  rewrite firstn_O, app_nil_r. reflexivity.
Qed.

Lemma pkcs_padded_blocks (P : list byte) :
  length (pkcs_padded P) = (16 * Z.to_nat (GetSize (pkcs_padded P) / 16))%nat.
Proof.
  pose proof (pkcs_padded_length P) as H.
  pose proof (GetSize_nonneg P).
  assert (0 <= (GetSize P + 15) / 16) by (apply Z.div_pos; lia).
  rewrite H. rewrite Z.mul_comm, Z.div_mul by lia.
  unfold GetSize in *. lia.
Qed.

(** Deciphering the packet [Encrypt] produced gives the padded plaintext. *)
Lemma deciphered_encrypted (e : H235CryptoEngine) (ivSequence : option (list byte))
    (key P : list byte) :
  seed_ok ivSequence = true -> engine_key e = key ->
  deciphered e ivSequence
    (fst (cbc128_encrypt (Z.to_nat (GetSize (pkcs_padded P) / 16)) key
            (packet_iv ivSequence) (pkcs_padded P)))
  = pkcs_padded P.
Proof.
  intros Hs Hk. unfold deciphered. rewrite Hk.
  set (K := Z.to_nat (GetSize (pkcs_padded P) / 16)).
  pose proof (pkcs_padded_blocks P) as HK. fold K in HK.
  pose proof (cbc128_encrypt_length K key (packet_iv ivSequence) (pkcs_padded P)) as HC.
  unfold GetSize at 1. rewrite HC.
  replace (Z.of_nat (16 * K) / 16) with (Z.of_nat K)
    by (rewrite Nat2Z.inj_mul, Z.mul_comm, Z.div_mul; lia).
  rewrite Nat2Z.id.
  rewrite cbc128_decrypt_encrypt
    by (try (apply packet_iv_length; assumption); lia).
  apply firstn_all2. lia.
Qed.

(** ** The engine: packet round trip and output sizing *)

(** C1 -- On an initialised engine, for every plaintext, key and IV seed,
    [Decrypt] applied to the result of [Encrypt], with the padding flag
    [Encrypt] set, returns exactly the plaintext and leaves the flag
    false. *)
Theorem Decrypt_Encrypt_roundtrip (e : H235CryptoEngine) (P : list byte)
    (ivSequence : option (list byte)) (pad : bool) :
  engine_ready e = true -> seed_ok ivSequence = true ->
  exists C e1 pad1 e2,
    Encrypt e P ivSequence pad = Some (C, e1, pad1)
    /\ Decrypt e1 C ivSequence pad1 = Some (P, e2, false).
Proof.
  intros He Hs.
  destruct (Encrypt_ready e P ivSequence pad He Hs) as (e1 & HE & He1 & Hk1).
  set (K := Z.to_nat (GetSize (pkcs_padded P) / 16)) in *.
  set (C := fst (cbc128_encrypt K (engine_key e) (packet_iv ivSequence) (pkcs_padded P))) in *.
  assert (HC : GetSize C = 16 * Z.of_nat K + 0).
  { unfold GetSize, C. rewrite cbc128_encrypt_length. lia. }
  destruct (Decrypt_ready e1 C ivSequence (GetSize P mod 16 >? 0) K 0 He1 Hs HC)
    as (e2 & HD & _); [lia|auto|].
  exists C, e1, (GetSize P mod 16 >? 0), e2. split; [exact HE|].
  rewrite HD. f_equal. f_equal. f_equal.
  unfold C, K. rewrite (deciphered_encrypted e1 ivSequence _ P Hs Hk1).
  destruct (split_length P) as (k & r & Hlen & Hr & Hk & Hmod).
  rewrite <- Hmod.
  destruct (Z.eqb_spec r 0) as [Hr0|Hr0].
  - rewrite Hr0. cbn [Z.gtb Z.compare].
    unfold relaxed_stages. cbn [andb orb negb Z.eqb fst snd].
    unfold pkcs_padded. rewrite <- Hmod, Hr0. cbn [Z.eqb]. apply app_nil_r.
  - destruct (Z.gtb_spec r 0) as [_|]; [|lia].
    assert (HK : Z.to_nat (GetSize (pkcs_padded P) / 16) = S k).
    { rewrite pkcs_padded_length, Z.mul_comm, Z.div_mul, Hlen by lia.
      replace (16 * Z.of_nat k + r + 15) with (16 * Z.of_nat (S k) + (r - 1)) by lia.
      rewrite div16_of_split by lia. lia. }
    rewrite HK, (relaxed_stages_padded P k r) by (assumption || lia).
    cbn [fst snd]. apply firstn_skipn.
Qed.

(** C2 -- On an initialised engine [Encrypt] sets the padding flag to
    [|P| mod 16 != 0]; for an aligned plaintext the ciphertext has the
    length of the plaintext and is its standard AES-CBC encryption without
    a pad block; otherwise its length is [16 * ceil(|P| / 16)]. *)
Theorem Encrypt_padding_policy (e : H235CryptoEngine) (P : list byte)
    (ivSequence : option (list byte)) (pad : bool) :
  engine_ready e = true -> seed_ok ivSequence = true ->
  exists C e1,
    Encrypt e P ivSequence pad = Some (C, e1, negb (GetSize P mod 16 =? 0))
    /\ (GetSize P mod 16 = 0 ->
        GetSize C = GetSize P
        /\ C = AES_CBC_standard AES_encrypt (engine_key e) (packet_iv ivSequence) P)
    /\ (GetSize P mod 16 <> 0 -> GetSize C = 16 * ((GetSize P + 15) / 16)).
Proof.
  intros He Hs.
  destruct (Encrypt_ready e P ivSequence pad He Hs) as (e1 & HE & _ & _).
  pose proof (pkcs_padded_blocks P) as HK.
  pose proof (pkcs_padded_length P) as HL.
  set (K := Z.to_nat (GetSize (pkcs_padded P) / 16)) in *.
  set (C := fst (cbc128_encrypt K (engine_key e) (packet_iv ivSequence) (pkcs_padded P))) in *.
  assert (HC : GetSize C = GetSize (pkcs_padded P)).
  { unfold GetSize, C. rewrite cbc128_encrypt_length. lia. }
  destruct (split_length P) as (k & r & Hlen & Hr & Hk & Hmod).
  exists C, e1. split; [|split].
  - rewrite HE. f_equal. f_equal. rewrite <- Hmod.
    destruct (Z.eqb_spec r 0) as [->|]; [reflexivity|].
    destruct (Z.gtb_spec r 0); [reflexivity|lia].
  - intros H0.
    assert (Hpad : pkcs_padded P = P)
      by (unfold pkcs_padded; rewrite H0; reflexivity).
    split; [rewrite HC, Hpad; reflexivity|].
    unfold AES_CBC_standard. rewrite <- cbc128_encrypt_standard.
    unfold C, K. rewrite Hpad. do 2 f_equal.
    unfold GetSize. change 16 with (Z.of_nat 16).
    rewrite <- Nat2Z.inj_div. apply Nat2Z.id.
  - intros _. rewrite HC. exact HL.
Qed.

(** ** The relaxed final block *)

(** C3 -- With padding enabled, nothing staged and a block retained,
    [DecryptFinalRelaxed] looks at the last byte [n] of the retained block
    only: it fails exactly when [n = 0] or [n > block_size], and otherwise
    emits the first [block_size - n] bytes of the retained block, whatever
    the filler bytes before the last one are. *)
Theorem DecryptFinalRelaxed_last_byte_only (h : H235CryptoHelper) (ctx : EVP_CIPHER_CTX) :
  no_padding ctx = false -> 1 < block_size (cipher ctx) ->
  buf_len h = 0 -> final_used h <> 0 ->
  let bl := block_size (cipher ctx) in
  let n := byte_to_Z (nth (Z.to_nat (bl - 1)) (final_buf h) x00) in
  (fst (DecryptFinalRelaxed h ctx) = 0 <-> n = 0 \/ n > bl)
  /\ (0 < n <= bl ->
      DecryptFinalRelaxed h ctx = (1, firstn (Z.to_nat (bl - n)) (final_buf h)))
  /\ (forall h' : H235CryptoHelper,
        buf_len h' = 0 -> final_used h' <> 0 ->
        nth (Z.to_nat (bl - 1)) (final_buf h') x00
        = nth (Z.to_nat (bl - 1)) (final_buf h) x00 ->
        fst (DecryptFinalRelaxed h' ctx) = fst (DecryptFinalRelaxed h ctx)).
Proof.
  intros Hpad Hbl Hbuf Hfin bl n.
  assert (Hgen : forall g : H235CryptoHelper,
    buf_len g = 0 -> final_used g <> 0 ->
    DecryptFinalRelaxed g ctx =
    let m := byte_to_Z (nth (Z.to_nat (bl - 1)) (final_buf g) x00) in
    if (m =? 0) || (m >? bl) then (0, [])
    else (1, firstn (Z.to_nat (bl - m)) (final_buf g))).
  { intros g Hg1 Hg2.
    unfold DecryptFinalRelaxed, EVP_CIPHER_CTX_test_no_padding, EVP_CIPHER_CTX_block_size.
    rewrite Hpad, Hg1. fold bl.
    destruct (Z.gtb_spec bl 1) as [_|]; [|unfold bl in *; lia].
    destruct (Z.eqb_spec (final_used g) 0) as [|_]; [contradiction|].
    reflexivity. }
  rewrite (Hgen h Hbuf Hfin). cbv zeta. fold n.
  split; [|split].
  - destruct (Z.eqb_spec n 0) as [H0|H0]; destruct (Z.gtb_spec n bl) as [Hg|Hg];
      cbn [orb fst]; split; intros; try lia; try discriminate.
  - intros Hn.
    destruct (Z.eqb_spec n 0) as [H0|H0]; [lia|].
    destruct (Z.gtb_spec n bl) as [Hg|Hg]; [lia|]. reflexivity.
  - intros h' Hb' Hf' Hlast. rewrite (Hgen h' Hb' Hf'). cbv zeta.
    rewrite Hlast. fold n.
    destruct ((n =? 0) || (n >? bl)); reflexivity.
Qed.

(** ** The IV builder *)

(** C4 -- For a six-byte seed [s] and sixteen bytes to fill, [SetIV] writes
    [s || s || s[0..4]], whatever follows the seed in memory and whatever
    the array held; with a null seed pointer it writes sixteen zero
    bytes. *)
Theorem SetIV_tiles_seed (iv s rest : list byte) :
  length iv = 16%nat -> length s = 6%nat ->
  SetIV iv (Some (s ++ rest)) 16 = s ++ s ++ firstn 4 s
  /\ SetIV iv None 16 = repeat x00 16.
Proof.
  intros Hiv Hs. split.
  - rewrite SetIV_seed by (try assumption; rewrite length_app; lia).
    rewrite !firstn_app, Hs.
    replace (6 - 6)%nat with 0%nat by lia. replace (4 - 6)%nat with 0%nat by lia.
    rewrite !firstn_O, !app_nil_r.
    rewrite (firstn_all2 (n := 6)) by lia. reflexivity.
  - apply SetIV_null; assumption.
Qed.

(** ** Unsupported algorithms and key sizes *)

(** C5 -- If the algorithm OID of the engine is none of the supported AES
    OIDs, [SetKey] leaves the engine as it was, uninitialised; [Encrypt]
    and [Decrypt] then return an empty buffer and change nothing, and
    [EncryptInPlace] writes [inLength] zero bytes and returns
    [inLength]. *)
Theorem unsupported_oid_engine_inert (e : H235CryptoEngine) (key data : list byte)
    (inLength : Z) (ivSequence : option (list byte)) (pad : bool) :
  select_cipher (m_algorithmOID e) = None -> m_initialised e = false ->
  let e' := SetKey e key in
  e' = e /\ m_initialised e' = false
  /\ Encrypt e' data ivSequence pad = Some ([], e', pad)
  /\ Decrypt e' data ivSequence pad = Some ([], e', pad)
  /\ EncryptInPlace e' data inLength ivSequence pad
     = Some (inLength, repeat x00 (Z.to_nat inLength), e', pad).
Proof.
  intros Hsel Hinit e'.
  assert (He : e' = e) by (unfold e', SetKey; rewrite Hsel; reflexivity).
  rewrite He. unfold Encrypt, Decrypt, EncryptInPlace. rewrite Hinit.
  cbn [negb]. auto.
Qed.

(** [DecryptInPlace] has no test of [m_initialised]: on an engine that was
    never keyed it reaches [EVP_DecryptInit_ex] with the null context. *)
Lemma DecryptInPlace_never_keyed (oid : string) (data : list byte) (inLength : Z)
    (ivSequence : option (list byte)) (pad : bool) :
  DecryptInPlace (H235CryptoEngine_new oid) data inLength ivSequence pad = None.
Proof. reflexivity. Qed.

(** C6 -- [GenerateRandomKey(oid)] returns sixteen bytes whenever the
    parameter is the AES-128 OID, whatever the algorithm of the engine;
    otherwise it returns 24 or 32 bytes according to the instance field
    [m_algorithmOID], not the parameter; in every other case the key is
    empty. *)
Theorem GenerateRandomKey_oid_size (e : H235CryptoEngine) (oid : string)
    (rand : nat -> byte) :
  let key := fst (GenerateRandomKey_oid e oid rand) in
  (oid = ID_AES128 -> GetSize key = 16)
  /\ (oid <> ID_AES128 -> H323_H235_AES256 = true ->
      m_algorithmOID e = ID_AES192 -> GetSize key = 24)
  /\ (oid <> ID_AES128 -> H323_H235_AES256 = true ->
      m_algorithmOID e <> ID_AES192 -> m_algorithmOID e = ID_AES256 ->
      GetSize key = 32)
  /\ (oid <> ID_AES128 ->
      H323_H235_AES256 = false
      \/ (m_algorithmOID e <> ID_AES192 /\ m_algorithmOID e <> ID_AES256) ->
      key = []).
Proof.
  assert (Hsize : forall n, 0 <= n ->
    GetSize (fst (RAND_bytes rand (PBYTEArray_new n) (GetSize (PBYTEArray_new n)))) = n).
  { intros n Hn. unfold RAND_bytes, PBYTEArray_new. cbn [fst].
    assert (Hg : GetSize (repeat x00 (Z.to_nat n)) = n)
      by (unfold GetSize; rewrite repeat_length; lia).
    rewrite Hg. unfold GetSize at 1.
    rewrite memcpy_length; unfold GetSize;
      rewrite ?length_map, ?length_seq, ?repeat_length; lia. }
  unfold GenerateRandomKey_oid. cbv zeta.
  destruct (String.eqb_spec oid ID_AES128) as [H128|H128];
    [|destruct H323_H235_AES256; cbn [andb];
      [destruct (String.eqb_spec (m_algorithmOID e) ID_AES192) as [H192|H192];
       [|destruct (String.eqb_spec (m_algorithmOID e) ID_AES256) as [H256|H256]]|]];
    (split; [|split; [|split]]); intros;
    try contradiction; try discriminate; try (apply Hsize; lia); try reflexivity;
    match goal with
    | H : _ \/ _ |- _ => destruct H as [|[]]; try discriminate; contradiction
    end.
Qed.

(** ** Failure of the relaxed final in the two decrypting entry points *)

Lemma decrypt_stages_ready (e : H235CryptoEngine) (C : list byte)
    (ivSequence : option (list byte)) (pad : bool) (k : nat) (r : Z) :
  engine_ready e = true -> seed_ok ivSequence = true ->
  GetSize C = 16 * Z.of_nat k + r -> 0 <= r < 16 ->
  exists ctx2 h2 ctx3,
    packet_decrypt_ctx e ivSequence pad = Some ctx2
    /\ DecryptUpdate (Reset (m_decryptHelper e)) ctx2 C (GetSize C)
       = (1, fst (relaxed_stages pad k r (deciphered e ivSequence C)), h2, ctx3)
    /\ DecryptFinalRelaxed h2 ctx3
       = snd (relaxed_stages pad k r (deciphered e ivSequence C))
    /\ buf_len h2 = r
    /\ final_used h2 = Z.b2z (pad && (r =? 0) && negb (Nat.eqb k 0))
    /\ (final_used h2 <> 0 ->
        firstn 16 (final_buf h2) = skipn (16 * (k - 1)) (deciphered e ivSequence C)).
Proof.
  intros He Hs Hlen Hr.
  pose proof (engine_ready_inv e He)
    as (Hinit & (ectx & dctx & Hectx & Hdctx & Hre & Hrd & Hkey) & _).
  pose proof (decrypt_ctx_facts dctx ivSequence pad Hrd Hs)
    as (Hbl & Hmode & Hivl & Hpad & Hc & Hen & Hk & Hiv2).
  assert (Hek : engine_key e = ctx_key dctx)
    by (unfold engine_key; rewrite Hectx; exact Hkey).
  unfold packet_decrypt_ctx, deciphered. rewrite Hdctx, Hek.
  set (ctx2 := EVP_CIPHER_CTX_set_padding _ _) in *.
  destruct (decrypt_stages (Reset (m_decryptHelper e)) ctx2 C pad k r)
    as (h2 & ctx3 & Hu & Hf & _ & Hb2 & Hf2 & Hfb); try assumption; try reflexivity.
  unfold cbc_run in *. rewrite Hen, Hk, Hiv2 in *.
  replace (Z.to_nat (GetSize C / 16)) with k
    by (rewrite Hlen, div16_of_split, Nat2Z.id by assumption; reflexivity).
  exists ctx2, h2, ctx3. auto 10.
Qed.

(** C7 -- When the relaxed final fails because the last deciphered byte [n]
    is [0] or exceeds the block size, [DecryptInPlace] returns 0, while
    [Decrypt] returns the bytes the update produced, the final adding
    none. *)
Theorem relaxed_final_failure_results (e : H235CryptoEngine) (C : list byte)
    (ivSequence : option (list byte)) (k : nat) :
  engine_ready e = true -> seed_ok ivSequence = true ->
  GetSize C = 16 * Z.of_nat k -> (0 < k)%nat ->
  let plain := deciphered e ivSequence C in
  let n := byte_to_Z (nth (16 * k - 1) plain x00) in
  n = 0 \/ n > 16 ->
  (exists ctx2 h2 ctx3,
     packet_decrypt_ctx e ivSequence true = Some ctx2
     /\ DecryptUpdate (Reset (m_decryptHelper e)) ctx2 C (GetSize C)
        = (1, firstn (16 * (k - 1)) plain, h2, ctx3)
     /\ buf_len h2 = 0 /\ final_used h2 = 1
     /\ byte_to_Z (nth 15 (final_buf h2) x00) = n
     /\ DecryptFinalRelaxed h2 ctx3 = (0, []))
  /\ (exists e1, DecryptInPlace e C (GetSize C) ivSequence true = Some (0, [], e1, true))
  /\ (exists e2, Decrypt e C ivSequence true
                 = Some (firstn (16 * (k - 1)) plain, e2, false)).
Proof.
  intros He Hs Hlen Hk plain n Hn.
  assert (Hlen0 : GetSize C = 16 * Z.of_nat k + 0) by lia.
  assert (Hst : relaxed_stages true k 0 plain
                = (firstn (16 * (k - 1)) plain, (0, []))).
  { unfold relaxed_stages. cbn [andb Z.eqb].
    destruct (Nat.eqb_spec k 0) as [|_]; [lia|]. cbn [negb].
    rewrite nth_skipn.
    replace (16 * (k - 1) + 15)%nat with (16 * k - 1)%nat by lia. fold n.
    destruct (Z.eqb_spec n 0) as [|H0]; [reflexivity|].
    destruct (Z.gtb_spec n 16) as [|Hg]; [reflexivity|lia]. }
  split; [|split].
  - destruct (decrypt_stages_ready e C ivSequence true k 0 He Hs Hlen0)
      as (ctx2 & h2 & ctx3 & Hctx & Hu & Hf & Hb & Hfu & Hfb); [lia|].
    fold plain in Hu, Hf, Hfb. rewrite Hst in Hu, Hf.
    assert (Hone : final_used h2 = 1)
      by (rewrite Hfu; destruct (Nat.eqb_spec k 0) as [|_]; [lia|reflexivity]).
    exists ctx2, h2, ctx3. repeat split; try assumption.
    unfold n.
    replace (16 * k - 1)%nat with (16 * (k - 1) + 15)%nat by lia.
    rewrite <- nth_skipn, <- Hfb by (rewrite Hone; discriminate).
    rewrite nth_firstn. reflexivity.
  - destruct (DecryptInPlace_ready e C ivSequence true k 0 He Hs Hlen0)
      as (e1 & HD & _); [lia|auto|].
    fold plain in HD. rewrite Hst in HD. exists e1. exact HD.
  - destruct (Decrypt_ready e C ivSequence true k 0 He Hs Hlen0)
      as (e2 & HD & _); [lia|auto|].
    fold plain in HD. rewrite Hst in HD. cbn [fst snd] in HD.
    rewrite app_nil_r in HD. exists e2. exact HD.
Qed.

(** C9 -- On an initialised engine, with the padding flag set and a
    ciphertext whose length is not a positive multiple of 16, the relaxed
    final fails (bytes left staged, or no block retained):
    [DecryptInPlace] returns 0 and [Decrypt] returns the
    [16 * floor(L / 16)] bytes the update deciphered. *)
Theorem padded_decrypt_needs_whole_blocks (e : H235CryptoEngine) (C : list byte)
    (ivSequence : option (list byte)) (k : nat) (r : Z) :
  engine_ready e = true -> seed_ok ivSequence = true ->
  GetSize C = 16 * Z.of_nat k + r -> 0 <= r < 16 -> r <> 0 \/ k = 0%nat ->
  (exists ctx2 out1 h2 ctx3,
     packet_decrypt_ctx e ivSequence true = Some ctx2
     /\ DecryptUpdate (Reset (m_decryptHelper e)) ctx2 C (GetSize C)
        = (1, out1, h2, ctx3)
     /\ (buf_len h2 <> 0 \/ final_used h2 = 0)
     /\ DecryptFinalRelaxed h2 ctx3 = (0, []))
  /\ (exists e1, DecryptInPlace e C (GetSize C) ivSequence true = Some (0, [], e1, true))
  /\ (exists e2, Decrypt e C ivSequence true
                 = Some (deciphered e ivSequence C, e2, false))
  /\ GetSize (deciphered e ivSequence C) = 16 * (GetSize C / 16).
Proof.
  intros He Hs Hlen Hr Hcase.
  set (plain := deciphered e ivSequence C).
  assert (Hst : relaxed_stages true k r plain = (plain, (0, []))).
  { unfold relaxed_stages. cbn [andb orb].
    destruct Hcase as [Hr0| ->].
    - destruct (Z.eqb_spec r 0) as [|_]; [contradiction|]. reflexivity.
    - cbn [Nat.eqb negb]. rewrite andb_false_r. reflexivity. }
  split; [|split; [|split]].
  - destruct (decrypt_stages_ready e C ivSequence true k r He Hs Hlen Hr)
      as (ctx2 & h2 & ctx3 & Hctx & Hu & Hf & Hb & Hfu & _).
    fold plain in Hu, Hf. rewrite Hst in Hu, Hf.
    exists ctx2, plain, h2, ctx3. repeat split; try assumption.
    destruct Hcase as [Hr0| ->].
    + left. lia.
    + right. rewrite Hfu. cbn [Nat.eqb negb]. rewrite andb_false_r. reflexivity.
  - destruct (DecryptInPlace_ready e C ivSequence true k r He Hs Hlen Hr)
      as (e1 & HD & _); [auto|].
    fold plain in HD. rewrite Hst in HD. exists e1. exact HD.
  - destruct (Decrypt_ready e C ivSequence true k r He Hs Hlen Hr)
      as (e2 & HD & _); [auto|].
    fold plain in HD. rewrite Hst in HD. cbn [fst snd] in HD.
    rewrite app_nil_r in HD. exists e2. exact HD.
  - unfold plain, deciphered, GetSize at 1.
    rewrite cbc128_decrypt_length.
    + rewrite Nat2Z.inj_mul, Z2Nat.id; [reflexivity|].
      apply Z.div_pos; [apply GetSize_nonneg|lia].
    + apply packet_iv_length; assumption.
    + rewrite Hlen, div16_of_split by assumption.
      unfold GetSize in Hlen. lia.
Qed.

(** ** The session *)

(** C10 -- [CreateSession] on a session that is already initialised returns
    false and changes no field of the session; on a session that is not, it
    returns true and the session is initialised afterwards. *)
Theorem CreateSession_once (s : H235Session) (isMaster : bool) (rand : nat -> byte) :
  (m_isInitialised s = true -> CreateSession s isMaster rand = (false, s, rand))
  /\ (m_isInitialised s = false ->
      exists s' rand',
        CreateSession s isMaster rand = (true, s', rand')
        /\ m_isInitialised s' = true).
Proof.
  unfold CreateSession. split; intros Hinit; rewrite Hinit; [reflexivity|].
  destruct (if isMaster then GenerateRandomKey (m_context s) rand
            else (m_crytoMasterKey s, m_context s, rand)) as [[masterKey context] rand'].
  do 2 eexists. split; reflexivity.
Qed.

(** [SetKey] with a supported algorithm puts the engine into its serving
    state, bound to the leading [key_len] bytes of the key. *)
Lemma SetKey_engine_ready (e : H235CryptoEngine) (key : list byte) (c : EVP_CIPHER) :
  select_cipher (m_algorithmOID e) = Some c ->
  GetSize (m_iv e) = EVP_MAX_IV_LENGTH ->
  engine_ready (SetKey e key) = true
  /\ engine_key (SetKey e key) = firstn (Z.to_nat (key_len c)) key.
Proof.
  intros Hsel Hiv. unfold SetKey. rewrite Hsel.
  assert (Hc : c = EVP_aes_128_cbc \/ c = EVP_aes_192_cbc \/ c = EVP_aes_256_cbc).
  { unfold select_cipher in Hsel.
    destruct (String.eqb _ ID_AES128); [injection Hsel; auto|].
    destruct (H323_H235_AES256 && String.eqb _ ID_AES192); [injection Hsel; auto|].
    destruct (H323_H235_AES256 && String.eqb _ ID_AES256); [injection Hsel; auto|].
    discriminate. }
  unfold engine_ready.
  cbn [m_initialised m_encryptCtx m_decryptCtx m_enc_blockSize m_enc_ivLength
       m_dec_blockSize m_dec_ivLength m_iv engine_key ctx_key EVP_CipherInit_ex_key].
  rewrite Hiv, bytes_eqb_refl.
  destruct Hc as [-> |[-> | ->]]; split; reflexivity.
Qed.

(** ** The serving state is kept by every packet operation *)

(** Names the result of the next [EVP_Cipher] call of the goal and records
    that it kept cipher, direction and key. *)
Ltac step_cipher :=
  match goal with
  | |- context [EVP_Cipher ?c ?i ?l] =>
      let H := fresh "Hsame" in
      pose proof (EVP_Cipher_same c i l) as H;
      destruct (EVP_Cipher c i l) as [? ?]; cbn [fst snd] in H
  end.

Ltac same_chain :=
  cbn [fst snd];
  repeat step_cipher;
  cbn [fst snd];
  repeat match goal with
         | H : ctx_same ?a ?b |- ctx_same ?a ?c => apply (ctx_same_trans a b c H); clear H
         end;
  try apply ctx_same_refl.

(** The same through every branch of a helper function. *)
Ltac same_cases :=
  repeat (cbn beta iota zeta; cbn [fst snd];
          first [ step_cipher
                | match goal with
                  | |- context [if ?b then _ else _] => destruct b
                  | |- context [match EVP_CIPHER_CTX_mode ?c with _ => _ end] =>
                      destruct (EVP_CIPHER_CTX_mode c)
                  end ]);
  same_chain.

Lemma EncryptUpdate_same (h : H235CryptoHelper) (ctx : EVP_CIPHER_CTX)
    (inp : list byte) (inl : Z) :
  ctx_same (snd (EncryptUpdate h ctx inp inl)) ctx.
Proof. unfold EncryptUpdate. same_cases. Qed.

Lemma EncryptUpdateCTS_same (h : H235CryptoHelper) (ctx : EVP_CIPHER_CTX)
    (inp : list byte) (inl : Z) :
  ctx_same (snd (EncryptUpdateCTS h ctx inp inl)) ctx.
Proof. unfold EncryptUpdateCTS. same_cases. Qed.

Lemma EncryptFinalCTS_same (h : H235CryptoHelper) (ctx : EVP_CIPHER_CTX) :
  ctx_same (snd (EncryptFinalCTS h ctx)) ctx.
Proof. unfold EncryptFinalCTS. same_cases. Qed.

Lemma DecryptFinalCTS_same (h : H235CryptoHelper) (ctx : EVP_CIPHER_CTX) :
  ctx_same (snd (DecryptFinalCTS h ctx)) ctx.
Proof. unfold DecryptFinalCTS. same_cases. Qed.

Lemma DecryptUpdate_same (h : H235CryptoHelper) (ctx : EVP_CIPHER_CTX)
    (inp : list byte) (inl : Z) :
  ctx_same (snd (DecryptUpdate h ctx inp inl)) ctx.
Proof.
  unfold DecryptUpdate.
  destruct (inl <=? 0); [apply ctx_same_refl|].
  destruct (EVP_CIPHER_CTX_test_no_padding ctx); [apply EncryptUpdate_same|].
  pose proof (EncryptUpdate_same h ctx inp inl) as H.
  destruct (EncryptUpdate h ctx inp inl) as [[[r out] h1] ctx1]. cbn [snd] in H.
  destruct (r =? 0); [exact H|].
  destruct (_ && _); exact H.
Qed.

Lemma encrypt_stages_same (h : H235CryptoHelper) (ctx : EVP_CIPHER_CTX)
    (pad : bool) (bs : Z) (inp : list byte) (inl : Z) :
  ctx_same (snd (encrypt_stages h ctx pad bs inp inl)) ctx.
Proof.
  unfold encrypt_stages. destruct (negb pad && _).
  - pose proof (EncryptUpdateCTS_same h ctx inp inl) as H1.
    destruct (EncryptUpdateCTS h ctx inp inl) as [[[r1 out1] h1] ctx1].
    pose proof (EncryptFinalCTS_same h1 ctx1) as H2.
    destruct (EncryptFinalCTS h1 ctx1) as [[[r2 out2] h2] ctx2].
    cbn [snd] in *. exact (ctx_same_trans _ _ _ H2 H1).
  - unfold EVP_EncryptUpdate.
    pose proof (EncryptUpdate_same
                  {| buf := ctx_buf ctx; final_buf := []; buf_len := ctx_buf_len ctx;
                     final_used := 0 |} ctx inp inl) as H1.
    destruct (EncryptUpdate _ ctx inp inl) as [[[r1 out1] h1] ctx1].
    cbn [snd] in H1.
    unfold EVP_EncryptFinal_ex, EVP_CIPHER_CTX_block_size,
      EVP_CIPHER_CTX_test_no_padding.
    cbn [cipher set_ctx_buf no_padding ctx_buf_len ctx_buf].
    assert (H0 : ctx_same (set_ctx_buf ctx1 (buf h1) (buf_len h1)) ctx)
      by (destruct H1 as (? & ? & ?); repeat split; assumption).
    destruct (_ =? 1); [exact H0|].
    destruct (no_padding ctx1); [destruct (_ =? 0); exact H0|].
    step_cipher. cbn [snd].
    apply (ctx_same_trans _ _ _ Hsame).
    destruct H1 as (? & ? & ?); repeat split; assumption.
Qed.

Lemma engine_ready_set_encrypt (e : H235CryptoEngine) (ectx ctx : EVP_CIPHER_CTX)
    (h : H235CryptoHelper) (cnt : Z) (iv : list byte) :
  engine_ready e = true -> m_encryptCtx e = Some ectx ->
  ctx_same ctx ectx -> length iv = 16%nat ->
  engine_ready (set_encrypt_state e ctx h cnt iv) = true
  /\ engine_key (set_encrypt_state e ctx h cnt iv) = engine_key e.
Proof.
  intros He Hd (Hc & Hen & Hk) Hiv.
  pose proof (engine_ready_inv e He)
    as (Hinit & (ectx' & dctx & Hectx & Hdctx & Hre & Hrd & Hkey) & Heb & Hei & Hdb & Hdi & _).
  rewrite Hd in Hectx. injection Hectx as <-.
  pose proof (ctx_ready_inv _ _ Hre) as (_ & _ & _ & Henc).
  split; [|unfold engine_key; cbn [set_encrypt_state m_encryptCtx]; rewrite Hd; exact Hk].
  unfold engine_ready, set_encrypt_state.
  cbn [m_initialised m_encryptCtx m_decryptCtx m_enc_blockSize m_enc_ivLength
       m_dec_blockSize m_dec_ivLength m_iv].
  rewrite Hinit, Hdctx, Hrd, Heb, Hei, Hdb, Hdi, Hk, Hkey, bytes_eqb_refl.
  rewrite (ctx_ready_transfer true ectx ctx) by congruence.
  unfold GetSize, EVP_MAX_IV_LENGTH. rewrite Hiv. reflexivity.
Qed.

(** Whatever the payload, its stated length and the padding flag, a packet
    operation that returns leaves the engine in its serving state under the
    same key. *)
Theorem engine_ready_preserved (e : H235CryptoEngine) (data : list byte)
    (inLength : Z) (ivSequence : option (list byte)) (pad : bool) :
  engine_ready e = true -> seed_ok ivSequence = true ->
  (forall out e' pad',
     Encrypt e data ivSequence pad = Some (out, e', pad') ->
     engine_ready e' = true /\ engine_key e' = engine_key e)
  /\ (forall out e' pad',
       Decrypt e data ivSequence pad = Some (out, e', pad') ->
       engine_ready e' = true /\ engine_key e' = engine_key e)
  /\ (forall n out e' pad',
       EncryptInPlace e data inLength ivSequence pad = Some (n, out, e', pad') ->
       engine_ready e' = true /\ engine_key e' = engine_key e)
  /\ (forall n out e' pad',
       DecryptInPlace e data inLength ivSequence pad = Some (n, out, e', pad') ->
       engine_ready e' = true /\ engine_key e' = engine_key e).
Proof.
  intros He Hs.
  pose proof (engine_ready_inv e He)
    as (Hinit & (ectx & dctx & Hectx & Hdctx & Hre & Hrd & Hkey) & Heb & Hei & Hdb & Hdi & Hiv).
  assert (Hpiv : length (packet_iv ivSequence) = 16%nat)
    by (apply packet_iv_length; assumption).
  assert (Hsame_e : forall iv p,
            ctx_same (EVP_CIPHER_CTX_set_padding (EVP_CipherInit_ex_iv ectx iv) p) ectx)
    by (intros; repeat split).
  assert (Hsame_d : forall iv p,
            ctx_same (EVP_CIPHER_CTX_set_padding (EVP_CipherInit_ex_iv dctx iv) p) dctx)
    by (intros; repeat split).
  assert (Hd : forall ctx h cnt iv, ctx_same ctx dctx -> length iv = 16%nat ->
            engine_ready (set_decrypt_state e ctx h cnt iv) = true
            /\ engine_key (set_decrypt_state e ctx h cnt iv) = engine_key e).
  { intros ctx h cnt iv (Hc & Hen & Hk) Hl.
    pose proof (ctx_ready_inv _ _ Hrd) as (_ & _ & _ & Henc).
    apply engine_ready_set_decrypt with (dctx := dctx); try assumption; congruence. }
  split; [|split; [|split]].
  - unfold Encrypt. rewrite Hinit, Hectx, Heb, Hei. cbn [negb Z.eqb].
    intros out e' pad'.
    match goal with |- context [encrypt_stages ?h ?c ?p ?b ?i ?l] =>
      pose proof (encrypt_stages_same h c p b i l) as Hst;
      destruct (encrypt_stages h c p b i l) as [[[o1 o2] h2] c3] end.
    cbn [snd] in Hst. intros [= <- <- <-].
    apply engine_ready_set_encrypt with (ectx := ectx);
      first [assumption | exact (ctx_same_trans _ _ _ Hst (Hsame_e _ _))].
  - unfold Decrypt. rewrite Hinit, Hdctx, Hdb, Hdi. cbn [negb Z.eqb].
    rewrite andb_false_r.
    intros out e' pad'.
    set (ctx2 := EVP_CIPHER_CTX_set_padding _ _).
    set (h1 := Reset _).
    destruct (negb pad && _).
    + pose proof (EncryptUpdateCTS_same h1 ctx2 data (GetSize data)) as H1.
      unfold DecryptUpdateCTS.
      destruct (EncryptUpdateCTS h1 ctx2 data (GetSize data)) as [[[r1 o1] h2] c3].
      pose proof (DecryptFinalCTS_same h2 c3) as H2.
      destruct (DecryptFinalCTS h2 c3) as [[[r2 o2] h3] c4].
      cbn [snd] in *. intros [= <- <- <-].
      apply Hd; [|exact Hiv].
      exact (ctx_same_trans _ _ _ H2 (ctx_same_trans _ _ _ H1 (Hsame_d _ _))).
    + pose proof (DecryptUpdate_same h1 ctx2 data (GetSize data)) as H1.
      destruct (DecryptUpdate h1 ctx2 data (GetSize data)) as [[[r1 o1] h2] c3].
      destruct (DecryptFinalRelaxed h2 c3) as [r2 o2].
      cbn [snd] in *. intros [= <- <- <-].
      apply Hd; [|exact Hiv].
      exact (ctx_same_trans _ _ _ H1 (Hsame_d _ _)).
  - unfold EncryptInPlace. rewrite Hinit, Hectx, Heb, Hei. cbn [negb Z.eqb].
    rewrite SetIV_packet_iv by assumption.
    intros n out e' pad'.
    match goal with |- context [encrypt_stages ?h ?c ?p ?b ?i ?l] =>
      pose proof (encrypt_stages_same h c p b i l) as Hst;
      destruct (encrypt_stages h c p b i l) as [[[o1 o2] h2] c3] end.
    cbn [snd] in Hst. intros [= <- <- <- <-].
    apply engine_ready_set_encrypt with (ectx := ectx);
      first [assumption | exact (ctx_same_trans _ _ _ Hst (Hsame_e _ _))].
  - unfold DecryptInPlace. rewrite Hdctx, Hdb, Hdi. cbn [negb Z.eqb].
    rewrite andb_false_r, SetIV_packet_iv by assumption.
    intros n out e' pad'.
    set (ctx2 := EVP_CIPHER_CTX_set_padding _ _).
    set (h1 := Reset _).
    destruct (negb pad && _).
    + pose proof (EncryptUpdateCTS_same h1 ctx2 data inLength) as H1.
      unfold DecryptUpdateCTS.
      destruct (EncryptUpdateCTS h1 ctx2 data inLength) as [[[r1 o1] h2] c3].
      pose proof (DecryptFinalCTS_same h2 c3) as H2.
      destruct (DecryptFinalCTS h2 c3) as [[[r2 o2] h3] c4].
      cbn [snd] in *.
      assert (H3 : ctx_same c3 dctx) by exact (ctx_same_trans _ _ _ H1 (Hsame_d _ _)).
      assert (H4 : ctx_same c4 dctx) by exact (ctx_same_trans _ _ _ H2 H3).
      destruct (r1 =? 0); [intros [= <- <- <- <-]; apply Hd; assumption|].
      destruct (r2 =? 0); intros [= <- <- <- <-]; apply Hd; assumption.
    + pose proof (DecryptUpdate_same h1 ctx2 data inLength) as H1.
      destruct (DecryptUpdate h1 ctx2 data inLength) as [[[r1 o1] h2] c3].
      destruct (DecryptFinalRelaxed h2 c3) as [r2 o2].
      cbn [snd] in *.
      assert (H3 : ctx_same c3 dctx) by exact (ctx_same_trans _ _ _ H1 (Hsame_d _ _)).
      destruct (r1 =? 0); [intros [= <- <- <- <-]; apply Hd; assumption|].
      destruct (r2 =? 0); intros [= <- <- <- <-]; apply Hd; assumption.
Qed.

(** ** The ciphertext-stealing update *)

Lemma memcpy_firstn (dst src : list byte) (off n : Z) :
  0 <= off -> 0 <= n -> off <= GetSize dst -> n <= GetSize src ->
  firstn (Z.to_nat (off + n)) (memcpy dst off src n)
  = firstn (Z.to_nat off) dst ++ firstn (Z.to_nat n) src.
Proof.
  unfold memcpy, GetSize. intros Hoff Hn Hdst Hsrc.
  rewrite app_assoc, firstn_app, length_app, !length_firstn.
  replace (Z.to_nat (off + n)
           - (Nat.min (Z.to_nat off) (length dst) + Nat.min (Z.to_nat n) (length src)))%nat
    with 0%nat by lia.
  rewrite firstn_O, app_nil_r.
  apply firstn_all2. rewrite length_app, !length_firstn. lia.
Qed.

Lemma split3 (l : list byte) (a b : nat) :
  firstn a l ++ firstn b (skipn a l) ++ skipn (a + b) l = l.
Proof.
  rewrite <- (firstn_skipn a l) at 4. f_equal.
  rewrite <- (firstn_skipn b (skipn a l)) at 2. f_equal.
  rewrite skipn_skipn. f_equal. lia.
Qed.




Lemma UpdateCTS_result_one (staged inl : Z) :
  EVP_Cipher_returns_length = false \/ staged + inl <= 32 \/ 48 < staged + inl ->
  UpdateCTS_result staged inl = 1.
Proof.
  unfold UpdateCTS_result. intros [->|[H|H]]; [reflexivity| |].
  - destruct (Z.ltb_spec 32 (staged + inl)) as [|_]; [lia|].
    rewrite andb_false_r. reflexivity.
  - destruct (Z.leb_spec (staged + inl) 48) as [|_]; [lia|].
    rewrite andb_false_r. reflexivity.
Qed.

Lemma UpdateCTS_result_cases (staged inl : Z) :
  UpdateCTS_result staged inl = 0 \/ UpdateCTS_result staged inl = 1.
Proof. unfold UpdateCTS_result. destruct (_ && _); auto. Qed.




(** ** Sender and receiver: two engines under one key *)

(** The relaxed final takes off what [pkcs_padded] put on, for either
    value of the flag [Encrypt] reports. *)
Lemma relaxed_stages_pkcs (P : list byte) :
  relaxed_stages (GetSize P mod 16 >? 0)
    (Z.to_nat (GetSize (pkcs_padded P) / 16)) 0 (pkcs_padded P)
  = (fst (relaxed_stages (GetSize P mod 16 >? 0)
            (Z.to_nat (GetSize (pkcs_padded P) / 16)) 0 (pkcs_padded P)),
     (1, snd (snd (relaxed_stages (GetSize P mod 16 >? 0)
                     (Z.to_nat (GetSize (pkcs_padded P) / 16)) 0 (pkcs_padded P)))))
  /\ fst (relaxed_stages (GetSize P mod 16 >? 0)
            (Z.to_nat (GetSize (pkcs_padded P) / 16)) 0 (pkcs_padded P))
     ++ snd (snd (relaxed_stages (GetSize P mod 16 >? 0)
                    (Z.to_nat (GetSize (pkcs_padded P) / 16)) 0 (pkcs_padded P)))
     = P.
Proof.
  destruct (split_length P) as (k & r & Hlen & Hr & Hk & Hmod).
  rewrite <- Hmod.
  destruct (Z.eqb_spec r 0) as [Hr0|Hr0].
  - rewrite Hr0. cbn [Z.gtb Z.compare].
    unfold relaxed_stages. cbn [andb orb negb Z.eqb fst snd].
    unfold pkcs_padded. rewrite <- Hmod, Hr0. cbn [Z.eqb].
    split; [reflexivity|apply app_nil_r].
  - destruct (Z.gtb_spec r 0) as [_|]; [|lia].
    assert (HK : Z.to_nat (GetSize (pkcs_padded P) / 16) = S k).
    { rewrite pkcs_padded_length, Z.mul_comm, Z.div_mul, Hlen by lia.
      replace (16 * Z.of_nat k + r + 15) with (16 * Z.of_nat (S k) + (r - 1)) by lia.
      rewrite div16_of_split by lia. lia. }
    rewrite HK, (relaxed_stages_padded P k r) by (assumption || lia).
    cbn [fst snd]. split; [reflexivity|apply firstn_skipn].
Qed.

Lemma ciphertext_blocks (K : nat) (key iv P : list byte) :
  GetSize (fst (cbc128_encrypt K key iv P)) = 16 * Z.of_nat K + 0.
Proof. unfold GetSize. rewrite cbc128_encrypt_length. lia. Qed.

(** What [EncryptInPlace] computes on a serving engine when [inLength] is
    the size of the data: the bytes [Encrypt] returns, and their number. *)
Lemma EncryptInPlace_ready (e : H235CryptoEngine) (P : list byte)
    (ivSequence : option (list byte)) (rtpPadding : bool) :
  engine_ready e = true -> seed_ok ivSequence = true ->
  exists e',
    EncryptInPlace e P (GetSize P) ivSequence rtpPadding =
    Some (GetSize (pkcs_padded P),
          fst (cbc128_encrypt (Z.to_nat (GetSize (pkcs_padded P) / 16))
                 (engine_key e) (packet_iv ivSequence) (pkcs_padded P)),
          e', GetSize P mod 16 >? 0)
    /\ engine_ready e' = true /\ engine_key e' = engine_key e.
Proof.
  intros He Hs.
  pose proof (engine_ready_inv e He)
    as (Hinit & (ectx & dctx & Hectx & Hdctx & Hre & Hrd & Hkey) & Heb & Hei & Hdb & Hdi & Hiv).
  pose proof (ctx_ready_inv _ _ Hre) as (Hbl & Hivl & Hmode & Henc).
  unfold EncryptInPlace, engine_key. rewrite Hinit, Hectx, Heb, Hei.
  cbn [negb Z.eqb].
  rewrite SetIV_packet_iv by assumption.
  rewrite Z.rem_mod_nonneg by (try apply GetSize_nonneg; lia).
  unfold encrypt_stages.
  rewrite Z.rem_mod_nonneg by (try apply GetSize_nonneg; lia).
  rewrite andb_negb_l.
  set (ctx2 := EVP_CIPHER_CTX_set_padding _ _).
  destruct (standard_stages ctx2 P)
    as (r1 & r2 & out1 & out2 & ctx1' & ctx2' & Hu & Hf & Hout & Hc & Hen & Hk);
    try (subst ctx2; cbn; assumption || reflexivity).
  rewrite Hu, Hf.
  eexists. split.
  - assert (Hsz : GetSize out1 + GetSize out2 = GetSize (out1 ++ out2))
      by (unfold GetSize; rewrite length_app; lia).
    rewrite Hsz, Hout. subst ctx2.
    cbn [EVP_CIPHER_CTX_set_padding EVP_CipherInit_ex_iv ctx_key ctx_iv].
    rewrite Hivl, firstn_all2
      by (rewrite packet_iv_length by assumption; reflexivity).
    pose proof (ciphertext_blocks (Z.to_nat (GetSize (pkcs_padded P) / 16))
                  (ctx_key ectx) (packet_iv ivSequence) (pkcs_padded P)) as HC.
    pose proof (pkcs_padded_blocks P) as HB.
    assert (HG : GetSize (fst (cbc128_encrypt (Z.to_nat (GetSize (pkcs_padded P) / 16))
                                 (ctx_key ectx) (packet_iv ivSequence) (pkcs_padded P)))
                 = GetSize (pkcs_padded P))
      by (rewrite HC; unfold GetSize at 2; lia).
    rewrite HG. reflexivity.
  - replace (ctx_key ectx) with (engine_key e)
      by (unfold engine_key; rewrite Hectx; reflexivity).
    apply engine_ready_set_encrypt with (ectx := ectx); try assumption.
    + subst ctx2. repeat split; [exact Hc|rewrite Hen; symmetry; exact Henc|exact Hk].
    + apply packet_iv_length. assumption.
Qed.

(** X1 -- A packet enciphered by one serving engine is deciphered by every
    serving engine bound to the same key: [Decrypt], given the ciphertext,
    the seed and the padding flag [Encrypt] reported, returns exactly the
    plaintext and reports no padding. *)
Theorem Decrypt_peer_roundtrip (sender receiver : H235CryptoEngine) (P : list byte)
    (ivSequence : option (list byte)) (pad : bool) :
  engine_ready sender = true -> engine_ready receiver = true ->
  engine_key receiver = engine_key sender -> seed_ok ivSequence = true ->
  exists C sender' pad1 receiver',
    Encrypt sender P ivSequence pad = Some (C, sender', pad1)
    /\ Decrypt receiver C ivSequence pad1 = Some (P, receiver', false)
    /\ engine_ready sender' = true /\ engine_ready receiver' = true
    /\ engine_key receiver' = engine_key sender'.
Proof.
  intros Ha Hb Hkey Hs.
  destruct (Encrypt_ready sender P ivSequence pad Ha Hs) as (a1 & HE & Ha1 & Hk1).
  set (K := Z.to_nat (GetSize (pkcs_padded P) / 16)) in *.
  set (C := fst (cbc128_encrypt K (engine_key sender) (packet_iv ivSequence)
                   (pkcs_padded P))) in *.
  pose proof (ciphertext_blocks K (engine_key sender) (packet_iv ivSequence)
                (pkcs_padded P)) as HC.
  fold C in HC.
  destruct (Decrypt_ready receiver C ivSequence (GetSize P mod 16 >? 0) K 0 Hb Hs HC)
    as (b1 & HD & Hb1 & Hkb); [lia|auto|].
  exists C, a1, (GetSize P mod 16 >? 0), b1.
  split; [exact HE|]. split; [|split; [exact Ha1|split; [exact Hb1|congruence]]].
  rewrite HD. unfold C, K.
  rewrite (deciphered_encrypted receiver ivSequence _ P Hs Hkey).
  rewrite (proj2 (relaxed_stages_pkcs P)). reflexivity.
Qed.

(** X2 -- On a serving engine [EncryptInPlace], given the size of the data
    as [inLength], writes the very bytes [Encrypt] returns and returns their
    number, with the same padding flag; they are at most fifteen more than
    the plaintext has. *)
Theorem EncryptInPlace_agrees_with_Encrypt (e : H235CryptoEngine) (P : list byte)
    (ivSequence : option (list byte)) (pad pad' : bool) :
  engine_ready e = true -> seed_ok ivSequence = true ->
  exists C e1 e2 flag,
    Encrypt e P ivSequence pad = Some (C, e1, flag)
    /\ EncryptInPlace e P (GetSize P) ivSequence pad' = Some (GetSize C, C, e2, flag)
    /\ GetSize P <= GetSize C <= GetSize P + 15.
Proof.
  intros He Hs.
  destruct (Encrypt_ready e P ivSequence pad He Hs) as (e1 & HE & _ & _).
  destruct (EncryptInPlace_ready e P ivSequence pad' He Hs) as (e2 & HI & _ & _).
  pose proof (pkcs_padded_blocks P) as HB.
  set (K := Z.to_nat (GetSize (pkcs_padded P) / 16)) in *.
  pose proof (ciphertext_blocks K (engine_key e) (packet_iv ivSequence)
                (pkcs_padded P)) as HC.
  set (C := fst (cbc128_encrypt K (engine_key e) (packet_iv ivSequence)
                   (pkcs_padded P))) in *.
  assert (HG : GetSize C = GetSize (pkcs_padded P))
    by (rewrite HC; unfold GetSize; lia).
  exists C, e1, e2, (GetSize P mod 16 >? 0).
  split; [exact HE|]. split; [rewrite HG; exact HI|].
  rewrite HG, pkcs_padded_length.
  pose proof (GetSize_nonneg P).
  pose proof (Z.div_mod (GetSize P + 15) 16 ltac:(lia)).
  pose proof (Z.mod_pos_bound (GetSize P + 15) 16 ltac:(lia)).
  lia.
Qed.

(** X3 -- The in-place pair round-trips between two serving engines bound to
    the same key: [DecryptInPlace], given what [EncryptInPlace] wrote and
    returned, yields the plaintext and its length and clears the flag. *)
Theorem DecryptInPlace_EncryptInPlace_roundtrip (sender receiver : H235CryptoEngine)
    (P : list byte) (ivSequence : option (list byte)) (pad : bool) :
  engine_ready sender = true -> engine_ready receiver = true ->
  engine_key receiver = engine_key sender -> seed_ok ivSequence = true ->
  exists n C sender' pad1 receiver',
    EncryptInPlace sender P (GetSize P) ivSequence pad = Some (n, C, sender', pad1)
    /\ n = GetSize C
    /\ DecryptInPlace receiver C n ivSequence pad1
       = Some (GetSize P, P, receiver', false).
Proof.
  intros Ha Hb Hkey Hs.
  destruct (EncryptInPlace_ready sender P ivSequence pad Ha Hs) as (a1 & HE & _ & _).
  pose proof (pkcs_padded_blocks P) as HB.
  set (K := Z.to_nat (GetSize (pkcs_padded P) / 16)) in *.
  pose proof (ciphertext_blocks K (engine_key sender) (packet_iv ivSequence)
                (pkcs_padded P)) as HC.
  set (C := fst (cbc128_encrypt K (engine_key sender) (packet_iv ivSequence)
                   (pkcs_padded P))) in *.
  assert (HG : GetSize (pkcs_padded P) = GetSize C)
    by (rewrite HC; unfold GetSize; lia).
  destruct (DecryptInPlace_ready receiver C ivSequence (GetSize P mod 16 >? 0) K 0
              Hb Hs HC) as (b1 & HD & _); [lia|auto|].
  exists (GetSize C), C, a1, (GetSize P mod 16 >? 0), b1.
  split; [rewrite <- HG; exact HE|]. split; [reflexivity|].
  rewrite HD. unfold C, K.
  rewrite (deciphered_encrypted receiver ivSequence _ P Hs Hkey).
  destruct (relaxed_stages_pkcs P) as [Hst Hcat].
  rewrite Hst. cbn [fst snd Z.eqb].
  assert (Hsz : forall a b : list byte, GetSize a + GetSize b = GetSize (a ++ b))
    by (intros; unfold GetSize; rewrite length_app; lia).
  rewrite Hsz, Hcat. reflexivity.
Qed.

(** X4 -- The ciphertext is a function of the key, the seed and the
    plaintext alone: two serving engines bound to the same key return the
    same bytes and flag, whatever packets they served before and whatever
    flag came in; so does the engine [Encrypt] leaves behind, asked again. *)
Theorem Encrypt_depends_on_key_seed_plaintext (a b : H235CryptoEngine) (P : list byte)
    (ivSequence : option (list byte)) (pada padb : bool) :
  engine_ready a = true -> engine_ready b = true ->
  engine_key a = engine_key b -> seed_ok ivSequence = true ->
  exists C a' b' a'' flag,
    Encrypt a P ivSequence pada = Some (C, a', flag)
    /\ Encrypt b P ivSequence padb = Some (C, b', flag)
    /\ Encrypt a' P ivSequence flag = Some (C, a'', flag).
Proof.
  intros Ha Hb Hkey Hs.
  destruct (Encrypt_ready a P ivSequence pada Ha Hs) as (a1 & HA & Ha1 & Hk1).
  destruct (Encrypt_ready b P ivSequence padb Hb Hs) as (b1 & HB & _ & _).
  destruct (Encrypt_ready a1 P ivSequence (GetSize P mod 16 >? 0) Ha1 Hs)
    as (a2 & HA2 & _ & _).
  do 5 eexists. split; [exact HA|]. split.
  - rewrite HB, Hkey. reflexivity.
  - rewrite HA2, Hk1. reflexivity.
Qed.

(** ** Deciphering: the accepted packets *)

Lemma firstn_plus (a b : nat) (l : list byte) :
  firstn (a + b) l = firstn a l ++ firstn b (skipn a l).
Proof.
  rewrite firstn_skipn_comm.
  rewrite <- (firstn_skipn a (firstn (a + b) l)) at 1.
  rewrite firstn_firstn. f_equal. f_equal. lia.
Qed.

(** X6 -- With the padding flag set and whole blocks, a last deciphered byte
    [n] between 1 and 16 is all the relaxed final asks for: both entry
    points return the deciphered bytes without the last [n], whatever the
    other filler bytes are. *)
Theorem padded_decrypt_strips_last_byte_count (e : H235CryptoEngine) (C : list byte)
    (ivSequence : option (list byte)) (k : nat) :
  engine_ready e = true -> seed_ok ivSequence = true ->
  GetSize C = 16 * Z.of_nat k -> (0 < k)%nat ->
  let plain := deciphered e ivSequence C in
  let n := byte_to_Z (nth (16 * k - 1) plain x00) in
  0 < n <= 16 ->
  (exists e1, Decrypt e C ivSequence true
              = Some (firstn (16 * k - Z.to_nat n) plain, e1, false))
  /\ (exists e2, DecryptInPlace e C (GetSize C) ivSequence true
                 = Some (GetSize C - n, firstn (16 * k - Z.to_nat n) plain, e2, false)).
Proof.
  intros He Hs Hlen Hk plain n Hn.
  assert (Hlen0 : GetSize C = 16 * Z.of_nat k + 0) by lia.
  assert (Hplain : length plain = (16 * k)%nat).
  { unfold plain, deciphered. rewrite Hlen0, div16_of_split, Nat2Z.id by lia.
    apply cbc128_decrypt_length; [apply packet_iv_length; assumption|].
    unfold GetSize in Hlen. lia. }
  assert (Hst : relaxed_stages true k 0 plain
                = (firstn (16 * (k - 1)) plain,
                   (1, firstn (Z.to_nat (16 - n)) (skipn (16 * (k - 1)) plain)))).
  { unfold relaxed_stages. cbn [andb Z.eqb].
    destruct (Nat.eqb_spec k 0) as [|_]; [lia|]. cbn [negb].
    rewrite nth_skipn.
    replace (16 * (k - 1) + 15)%nat with (16 * k - 1)%nat by lia. fold n.
    destruct (Z.eqb_spec n 0) as [|_]; [lia|].
    destruct (Z.gtb_spec n 16) as [|_]; [lia|]. reflexivity. }
  assert (Hcat : firstn (16 * (k - 1)) plain
                   ++ firstn (Z.to_nat (16 - n)) (skipn (16 * (k - 1)) plain)
                 = firstn (16 * k - Z.to_nat n) plain).
  { replace (16 * k - Z.to_nat n)%nat with (16 * (k - 1) + Z.to_nat (16 - n))%nat by lia.
    apply eq_sym, firstn_plus. }
  split.
  - destruct (Decrypt_ready e C ivSequence true k 0 He Hs Hlen0)
      as (e1 & HD & _); [lia|auto|].
    fold plain in HD. rewrite Hst in HD. cbn [fst snd] in HD.
    rewrite Hcat in HD. exists e1. exact HD.
  - destruct (DecryptInPlace_ready e C ivSequence true k 0 He Hs Hlen0)
      as (e2 & HD & _); [lia|auto|].
    fold plain in HD. rewrite Hst in HD. cbn [fst snd Z.eqb] in HD.
    rewrite Hcat in HD. exists e2. rewrite HD. do 4 f_equal.
    unfold GetSize in *. rewrite !length_firstn, length_skipn. lia.
Qed.

(** X7 -- With the padding flag clear and whole blocks, both entry points
    return every deciphered byte: the output has the length of the input. *)
Theorem unpadded_decrypt_keeps_every_block (e : H235CryptoEngine) (C : list byte)
    (ivSequence : option (list byte)) (k : nat) :
  engine_ready e = true -> seed_ok ivSequence = true ->
  GetSize C = 16 * Z.of_nat k ->
  let plain := deciphered e ivSequence C in
  GetSize plain = GetSize C
  /\ (exists e1, Decrypt e C ivSequence false = Some (plain, e1, false))
  /\ (exists e2, DecryptInPlace e C (GetSize C) ivSequence false
                 = Some (GetSize C, plain, e2, false)).
Proof.
  intros He Hs Hlen plain.
  assert (Hlen0 : GetSize C = 16 * Z.of_nat k + 0) by lia.
  assert (Hplain : GetSize plain = GetSize C).
  { unfold plain, deciphered, GetSize at 1.
    rewrite Hlen0 at 1. rewrite div16_of_split, Nat2Z.id by lia.
    rewrite cbc128_decrypt_length; [lia|apply packet_iv_length; assumption|].
    unfold GetSize in Hlen. lia. }
  assert (Hst : relaxed_stages false k 0 plain = (plain, (1, []))) by reflexivity.
  split; [exact Hplain|]. split.
  - destruct (Decrypt_ready e C ivSequence false k 0 He Hs Hlen0)
      as (e1 & HD & _); [lia|auto|].
    fold plain in HD. rewrite Hst in HD. cbn [fst snd] in HD.
    rewrite app_nil_r in HD. exists e1. exact HD.
  - destruct (DecryptInPlace_ready e C ivSequence false k 0 He Hs Hlen0)
      as (e2 & HD & _); [lia|auto|].
    fold plain in HD. rewrite Hst in HD. cbn [fst snd Z.eqb] in HD.
    rewrite app_nil_r in HD. exists e2. rewrite HD, Hplain. do 4 f_equal.
    unfold GetSize. cbn [length]. lia.
Qed.

(** X8 -- With the padding flag clear, a packet shorter than one block
    cannot be deciphered: the stealing update only stages it and the
    stealing final finds no block retained. [Decrypt] returns an empty array
    and [DecryptInPlace] returns 0. *)
Theorem unpadded_decrypt_below_one_block (e : H235CryptoEngine) (C : list byte)
    (ivSequence : option (list byte)) :
  engine_ready e = true -> seed_ok ivSequence = true ->
  0 < GetSize C < 16 ->
  (exists e1, Decrypt e C ivSequence false = Some ([], e1, false))
  /\ (exists e2, DecryptInPlace e C (GetSize C) ivSequence false
                 = Some (0, [], e2, false)).
Proof.
  intros He Hs Hlen.
  pose proof (engine_ready_inv e He)
    as (Hinit & (ectx & dctx & Hectx & Hdctx & Hre & Hrd & Hkey) & Heb & Hei & Hdb & Hdi & Hiv).
  pose proof (ctx_ready_inv _ _ Hrd) as (Hbl & Hivl & Hmode & Henc).
  assert (Hguard : (Z.rem (GetSize C) 16 >? 0) = true).
  { rewrite Z.rem_mod_nonneg, Z.mod_small by lia. apply Z.gtb_lt. lia. }
  split.
  - unfold Decrypt. rewrite Hinit, Hdctx, Hdb, Hguard. cbn [negb andb Z.eqb].
    unfold DecryptUpdateCTS, EncryptUpdateCTS, EVP_CIPHER_CTX_block_size.
    cbn [EVP_CIPHER_CTX_set_padding EVP_CipherInit_ex_iv cipher Reset buf_len].
    rewrite Hbl.
    destruct (Z.leb_spec (GetSize C) 0) as [|_]; [lia|].
    destruct (Z.leb_spec (0 + GetSize C) 16) as [_|]; [|lia].
    unfold DecryptFinalCTS. cbn [final_used Z.eqb app].
    eexists. reflexivity.
  - unfold DecryptInPlace. rewrite Hdctx, Hdb, Hguard. cbn [negb andb Z.eqb].
    unfold DecryptUpdateCTS, EncryptUpdateCTS, EVP_CIPHER_CTX_block_size.
    cbn [EVP_CIPHER_CTX_set_padding EVP_CipherInit_ex_iv cipher Reset buf_len].
    rewrite Hbl.
    destruct (Z.leb_spec (GetSize C) 0) as [|_]; [lia|].
    destruct (Z.leb_spec (0 + GetSize C) 16) as [_|]; [|lia].
    cbn [Z.eqb]. unfold DecryptFinalCTS. cbn [final_used Z.eqb].
    eexists. reflexivity.
Qed.

(** ** Exclusive or on blocks: further lemmas *)

Lemma byte_xor_comm (a b : byte) : byte_xor a b = byte_xor b a.
Proof.
  unfold byte_xor.
  destruct (Byte.to_bits a) as (a0 & a1 & a2 & a3 & a4 & a5 & a6 & a7).
  destruct (Byte.to_bits b) as (b0 & b1 & b2 & b3 & b4 & b5 & b6 & b7).
  f_equal. repeat (f_equal; try apply xorb_comm).
Qed.

Lemma byte_xor_x00_r (a : byte) : byte_xor a x00 = a.
Proof. destruct a; reflexivity. Qed.

Lemma byte_xor_x00_l (a : byte) : byte_xor x00 a = a.
Proof. destruct a; reflexivity. Qed.

Lemma byte_xor_cancel_l (a b c : byte) : byte_xor a b = byte_xor a c -> b = c.
Proof.
  intros H.
  rewrite <- (byte_xor_involutive b a), <- (byte_xor_involutive c a).
  rewrite (byte_xor_comm b a), (byte_xor_comm c a), H. reflexivity.
Qed.

Lemma xor_bytes_cancel_l (a b c : list byte) :
  length b = length a -> length c = length a ->
  xor_bytes a b = xor_bytes a c -> b = c.
Proof.
  revert b c; induction a as [|x a IH]; intros [|y b] [|z c] Hb Hc H;
    try discriminate; [reflexivity|].
  cbn [xor_bytes] in H. injection H as Hh Ht.
  apply byte_xor_cancel_l in Hh. subst z. f_equal.
  apply IH; cbn [length] in *; congruence || lia.
Qed.

Lemma xor_bytes_app (a1 a2 b1 b2 : list byte) :
  length a1 = length b1 ->
  xor_bytes (a1 ++ a2) (b1 ++ b2) = xor_bytes a1 b1 ++ xor_bytes a2 b2.
Proof.
  revert b1; induction a1 as [|x a1 IH]; intros [|y b1] Hlen; try discriminate.
  - reflexivity.
  - cbn [app xor_bytes]. rewrite IH by (cbn [length] in Hlen; lia). reflexivity.
Qed.

(** The loop [for (i = 0; i < bl; i++)] reads the first [bl] bytes only. *)
Lemma xor_bytes_firstn (a b : list byte) (n : nat) :
  (length a <= n)%nat -> xor_bytes a b = xor_bytes a (firstn n b).
Proof.
  revert b n; induction a as [|x a IH]; intros [|y b] [|n] Hlen;
    cbn [length] in *; try lia; try reflexivity.
  cbn [firstn xor_bytes]. rewrite (IH b n) by lia. reflexivity.
Qed.

Lemma xor_bytes_zero_l (b : list byte) :
  xor_bytes (repeat x00 (length b)) b = b.
Proof.
  induction b as [|y b IH]; [reflexivity|].
  cbn [length repeat xor_bytes]. rewrite byte_xor_x00_l, IH. reflexivity.
Qed.

Lemma xor_bytes_zero_r (a : list byte) :
  xor_bytes a (repeat x00 (length a)) = a.
Proof.
  induction a as [|x a IH]; [reflexivity|].
  cbn [length repeat xor_bytes]. rewrite byte_xor_x00_r, IH. reflexivity.
Qed.

Lemma firstn_app_exact (a b : list byte) (n : nat) :
  length a = n -> firstn n (a ++ b) = a.
Proof.
  intros <-. rewrite firstn_app, Nat.sub_diag, firstn_O, app_nil_r.
  apply firstn_all.
Qed.

Lemma skipn_app_exact (a b : list byte) (n : nat) :
  length a = n -> skipn n (a ++ b) = b.
Proof.
  intros <-. rewrite skipn_app, Nat.sub_diag, skipn_all. reflexivity.
Qed.

(** ** The block loop: what the receiver sees *)

Lemma AES_encrypt_injective (key x y : list byte) :
  length x = 16%nat -> length y = 16%nat ->
  AES_encrypt key x = AES_encrypt key y -> x = y.
Proof.
  intros Hx Hy H.
  rewrite <- (AES_decrypt_encrypt key x Hx), <- (AES_decrypt_encrypt key y Hy), H.
  reflexivity.
Qed.

Lemma cbc128_encrypt_iv_length (n : nat) (key iv inp : list byte) :
  length iv = 16%nat -> length (snd (cbc128_encrypt n key iv inp)) = 16%nat.
Proof.
  revert iv inp; induction n as [|n IH]; intros iv inp Hiv; [exact Hiv|].
  cbn [cbc128_encrypt].
  specialize (IH (AES_encrypt key (xor_bytes (firstn 16 inp) iv)) (skipn 16 inp)
                 (AES_encrypt_length _ _)).
  destruct (cbc128_encrypt n key _ (skipn 16 inp)) as [out iv'].
  exact IH.
Qed.

(** Deciphering the blocks the loop enciphered, whatever follows them,
    gives the blocks back and leaves the running IV where the enciphering
    side left it. *)
Lemma cbc128_decrypt_encrypt_app (n : nat) (key iv P rest : list byte) :
  length iv = 16%nat -> (16 * n <= length P)%nat ->
  cbc128_decrypt n key iv (fst (cbc128_encrypt n key iv P) ++ rest)
  = (firstn (16 * n) P, snd (cbc128_encrypt n key iv P)).
Proof.
  revert iv P; induction n as [|n IH]; intros iv P Hiv Hlen; [reflexivity|].
  cbn [cbc128_encrypt].
  set (c := AES_encrypt key (xor_bytes (firstn 16 P) iv)).
  assert (Hc : length c = 16%nat) by apply AES_encrypt_length.
  pose proof (IH c (skipn 16 P) Hc ltac:(rewrite length_skipn; lia)) as IH'.
  destruct (cbc128_encrypt n key c (skipn 16 P)) as [out iv'].
  cbn [fst snd] in *. cbn [cbc128_decrypt].
  rewrite <- app_assoc.
  rewrite (firstn_app_exact c _ 16 Hc), (skipn_app_exact c _ 16 Hc), IH'.
  unfold c. rewrite AES_decrypt_encrypt
    by (rewrite xor_bytes_length, length_firstn; lia).
  rewrite xor_bytes_involutive by (rewrite length_firstn; lia).
  replace (16 * S n)%nat with (16 + 16 * n)%nat by lia.
  rewrite firstn_plus. reflexivity.
Qed.

(** The first block of the loop goes through the cipher whichever buffer
    holds it. *)
Lemma cbc_run_0 (ctx : EVP_CIPHER_CTX) (inp : list byte) :
  cbc_run ctx inp 0 = ([], ctx_iv ctx).
Proof. unfold cbc_run. destruct (encrypt ctx); reflexivity. Qed.

Lemma cbc_run_first (ctx : EVP_CIPHER_CTX) (b inp : list byte) (n : nat) :
  firstn 16 b = firstn 16 inp ->
  cbc_run ctx inp (S n)
  = (fst (cbc_run ctx b 1)
       ++ fst (cbc_run (set_ctx_iv ctx (snd (cbc_run ctx b 1))) (skipn 16 inp) n),
     snd (cbc_run (set_ctx_iv ctx (snd (cbc_run ctx b 1))) (skipn 16 inp) n)).
Proof.
  intros Hb. unfold cbc_run. cbn [set_ctx_iv encrypt ctx_key ctx_iv].
  destruct (encrypt ctx).
  - cbn [cbc128_encrypt fst snd]. rewrite Hb, app_nil_r.
    destruct (cbc128_encrypt n _ _ _). reflexivity.
  - cbn [cbc128_decrypt fst snd]. rewrite Hb, app_nil_r.
    destruct (cbc128_decrypt n _ _ _). reflexivity.
Qed.

(** ** Ciphertext stealing: a whole packet through update and final *)

(** The update on a fresh helper and a packet of more than one block: all
    blocks but the last whole one go through the cipher, the last whole
    block is retained and the bytes after it are staged. *)
Lemma UpdateCTS_fresh (h : H235CryptoHelper) (ctx : EVP_CIPHER_CTX)
    (P : list byte) (k : nat) (r : Z) :
  block_size (cipher ctx) = 16 ->
  cipher_mode (cipher ctx) = EVP_CIPH_CBC_MODE ->
  buf_len h = 0 -> final_used h = 0 ->
  GetSize P = 16 * Z.of_nat (S k) + r -> 0 < r <= 16 ->
  exists h1,
    EncryptUpdateCTS h ctx P (GetSize P)
    = (UpdateCTS_result 0 (GetSize P), fst (cbc_run ctx P k), h1,
       set_ctx_iv ctx (snd (cbc_run ctx P k)))
    /\ final_used h1 = 1 /\ buf_len h1 = r
    /\ firstn 16 (final_buf h1) = firstn 16 (skipn (16 * k) P)
    /\ firstn (Z.to_nat r) (buf h1) = skipn (16 * S k) P.
Proof.
  intros Hbl Hmode Hbuf Hfin Hlen Hr.
  assert (HlenP : length P = (16 * S k + Z.to_nat r)%nat)
    by (unfold GetSize in Hlen; lia).
  unfold EncryptUpdateCTS, EVP_CIPHER_CTX_block_size.
  rewrite Hbl, Hbuf, Hfin. cbn [Z.eqb].
  rewrite Z.add_0_l, Z.sub_0_r.
  destruct (Z.leb_spec (GetSize P) 0) as [|_]; [lia|].
  destruct (Z.leb_spec (GetSize P) 16) as [|_]; [lia|].
  set (buf1 := memcpy (buf h) 0 P 16).
  assert (Hbuf1 : firstn 16 buf1 = firstn 16 P).
  { unfold buf1. change 16%nat with (Z.to_nat 16).
    apply memcpy_0_firstn; lia. }
  set (inp1 := skipn (Z.to_nat 16) P).
  assert (Hinp1 : length inp1 = (16 * k + Z.to_nat r)%nat)
    by (unfold inp1; rewrite length_skipn; lia).
  destruct (Z.leb_spec (GetSize P - 16) 16) as [Hshort|Hlong].
  - (* one block retained, nothing enciphered yet *)
    assert (k = 0%nat) as -> by lia.
    rewrite cbc_run_0, UpdateCTS_result_one by lia.
    cbn [fst snd]. rewrite set_ctx_iv_same.
    eexists. split; [reflexivity|]. cbn [final_used buf_len final_buf buf].
    split; [reflexivity|]. split; [lia|]. split.
    + change 16%nat with (Z.to_nat 16) at 1.
      rewrite memcpy_0_firstn by (unfold GetSize; rewrite ?memcpy_length; lia
                                  || (unfold buf1, memcpy; rewrite !length_app, !length_firstn; lia)).
      exact Hbuf1.
    + replace (GetSize P - 16) with r by lia.
      rewrite memcpy_0_firstn by (unfold GetSize; lia).
      apply firstn_all2. unfold inp1. rewrite length_skipn. lia.
  - (* whole blocks go through the cipher first *)
    destruct k as [|k]; [lia|].
    rewrite !EVP_Cipher_cbc by assumption.
    rewrite (EVP_Cipher_result_pos 16) by lia.
    change (Z.to_nat (16 / 16)) with 1%nat.
    rewrite land_15.
    set (leftover := (GetSize P - 16) mod 16).
    set (inl2 := if leftover =? 0 then GetSize P - 16 - 2 * 16
                 else GetSize P - 16 - (16 + leftover)).
    assert (Hleft : leftover = if r =? 16 then 0 else r).
    { unfold leftover. destruct (Z.eqb_spec r 16) as [->|].
      - replace (GetSize P - 16) with (16 * Z.of_nat (S (S k)) + 0) by lia.
        apply mod16_of_split. lia.
      - replace (GetSize P - 16) with (16 * Z.of_nat (S k) + r) by lia.
        apply mod16_of_split. lia. }
    assert (Hinl2 : inl2 = 16 * Z.of_nat k).
    { unfold inl2. rewrite Hleft.
      destruct (Z.eqb_spec r 16) as [->|]; cbn [Z.eqb].
      - lia.
      - destruct (Z.eqb_spec r 0) as [|_]; lia. }
    assert (Hnew : (if leftover =? 0 then 16 else leftover) = r).
    { rewrite Hleft. destruct (Z.eqb_spec r 16) as [->|]; [reflexivity|].
      destruct (Z.eqb_spec r 0) as [|_]; lia. }
    rewrite Hinl2.
    replace (Z.to_nat (16 * Z.of_nat k / 16)) with k
      by (rewrite Z.mul_comm, Z.div_mul; lia).
    rewrite (cbc_run_first ctx buf1 P k Hbuf1).
    cbn [app fst snd].
    (* the last call has no block to encipher in a packet of three blocks
       at most *)
    assert (Hcode : (EVP_Cipher_result (16 * Z.of_nat k) =? 0) = false
                      /\ UpdateCTS_result 0 (GetSize P) = 1
                    \/ (EVP_Cipher_result (16 * Z.of_nat k) =? 0) = true
                      /\ UpdateCTS_result 0 (GetSize P) = 0 /\ k = 0%nat).
    { destruct k as [|k].
      - change (16 * Z.of_nat 0) with 0. rewrite EVP_Cipher_result_0.
        unfold UpdateCTS_result.
        destruct (Z.ltb_spec 32 (0 + GetSize P)) as [_|]; [|lia].
        destruct (Z.leb_spec (0 + GetSize P) 48) as [_|]; [|lia].
        destruct EVP_Cipher_returns_length; [right|left]; auto.
      - left. split; [apply EVP_Cipher_result_pos; lia|].
        apply UpdateCTS_result_one. lia. }
    eexists. split.
    { destruct Hcode as [[-> ->]|(-> & -> & ->)]; [reflexivity|].
      rewrite !cbc_run_0. cbn [fst snd]. rewrite app_nil_r. reflexivity. }
    cbn [final_used buf_len final_buf buf].
    split; [reflexivity|]. split; [exact Hnew|]. split.
    + change 16%nat with (Z.to_nat 16) at 1.
      rewrite memcpy_0_firstn
        by (unfold GetSize; rewrite ?length_skipn; lia).
      unfold inp1. rewrite skipn_skipn. do 2 f_equal. lia.
    + replace (if leftover =? 0
               then memcpy buf1 0 (skipn (Z.to_nat (16 * Z.of_nat k + 16)) inp1) 16
               else memcpy buf1 0 (skipn (Z.to_nat (16 * Z.of_nat k + 16)) inp1) leftover)
        with (memcpy buf1 0 (skipn (Z.to_nat (16 * Z.of_nat k + 16)) inp1) r)
        by (rewrite <- Hnew; destruct (leftover =? 0); reflexivity).
      rewrite memcpy_0_firstn
        by (unfold GetSize; rewrite ?length_skipn; lia).
      unfold inp1. rewrite skipn_skipn.
      replace (Z.to_nat (16 * Z.of_nat k + 16) + Z.to_nat 16)%nat
        with (16 * S (S k))%nat by lia.
      apply firstn_all2. rewrite length_skipn. lia.
Qed.

Lemma staged_zero_filled (b T : list byte) (r : Z) :
  0 < r <= 16 -> firstn (Z.to_nat r) b = T -> length T = Z.to_nat r ->
  firstn 16 (memset b r x00 (16 - r)) = T ++ repeat x00 (Z.to_nat (16 - r)).
Proof.
  intros Hr HT Hlen. unfold memset. rewrite HT, app_assoc.
  apply firstn_app_exact. rewrite length_app, repeat_length. lia.
Qed.

(** The stealing final of the enciphering side in CBC mode, from what the
    helper retains: [X] is the retained block enciphered, [Y] the staged
    bytes, zero-filled, enciphered after it; out go [Y] and the head of
    [X]. *)
Lemma EncryptFinalCTS_retained (h : H235CryptoHelper) (ctx : EVP_CIPHER_CTX)
    (r : Z) (F T : list byte) :
  block_size (cipher ctx) = 16 ->
  cipher_mode (cipher ctx) = EVP_CIPH_CBC_MODE -> encrypt ctx = true ->
  final_used h = 1 -> buf_len h = r -> 0 < r <= 16 ->
  firstn 16 (final_buf h) = F ->
  firstn (Z.to_nat r) (buf h) = T -> length T = Z.to_nat r ->
  exists h2 ctx2,
    EncryptFinalCTS h ctx
    = (1,
       AES_encrypt (ctx_key ctx)
         (xor_bytes (T ++ repeat x00 (Z.to_nat (16 - r)))
            (AES_encrypt (ctx_key ctx) (xor_bytes F (ctx_iv ctx))))
       ++ firstn (Z.to_nat r) (AES_encrypt (ctx_key ctx) (xor_bytes F (ctx_iv ctx))),
       h2, ctx2).
Proof.
  intros Hbl Hmode Henc Hfu Hb Hr HF HT HlenT.
  unfold EncryptFinalCTS, EVP_CIPHER_CTX_block_size, EVP_CIPHER_CTX_mode.
  rewrite Hfu, Hb, Hbl, Hmode. cbn [Z.eqb].
  destruct (Z.eqb_spec r 0) as [|_]; [lia|].
  rewrite !EVP_Cipher_cbc by assumption.
  rewrite !(EVP_Cipher_result_pos 16) by lia.
  change (Z.to_nat (16 / 16)) with 1%nat.
  unfold cbc_run. cbn [set_ctx_iv encrypt ctx_key ctx_iv]. rewrite Henc.
  cbn [cbc128_encrypt fst snd].
  rewrite HF, (staged_zero_filled (buf h) T r Hr HT HlenT), !app_nil_r.
  do 2 eexists. reflexivity.
Qed.

(** The stealing final of the deciphering side in CBC mode, from what the
    helper retains: the retained block [Yc] deciphered and xored with the
    staged bytes [Tc], zero-filled, gives the tail of the plaintext followed
    by the stolen bytes; with these the block before is restored and
    deciphered. *)
Lemma DecryptFinalCTS_retained (h : H235CryptoHelper) (ctx : EVP_CIPHER_CTX)
    (r : Z) (Yc Tc : list byte) :
  block_size (cipher ctx) = 16 ->
  cipher_mode (cipher ctx) = EVP_CIPH_CBC_MODE -> encrypt ctx = false ->
  length (ctx_iv ctx) = 16%nat ->
  final_used h = 1 -> buf_len h = r -> 0 < r <= 16 ->
  firstn 16 (final_buf h) = Yc -> length Yc = 16%nat ->
  firstn (Z.to_nat r) (buf h) = Tc -> length Tc = Z.to_nat r ->
  exists h2 ctx2,
    DecryptFinalCTS h ctx
    = (1,
       xor_bytes
         (AES_decrypt (ctx_key ctx)
            (Tc ++ skipn (Z.to_nat r)
                     (xor_bytes (AES_decrypt (ctx_key ctx) Yc)
                        (Tc ++ repeat x00 (Z.to_nat (16 - r))))))
         (ctx_iv ctx)
       ++ firstn (Z.to_nat r)
            (xor_bytes (AES_decrypt (ctx_key ctx) Yc)
               (Tc ++ repeat x00 (Z.to_nat (16 - r)))),
       h2, ctx2).
Proof.
  intros Hbl Hmode Henc Hiv Hfu Hb Hr HY HlenY HT HlenT.
  unfold DecryptFinalCTS, EVP_CIPHER_CTX_block_size, EVP_CIPHER_CTX_mode,
    EVP_CIPHER_CTX_iv.
  rewrite Hfu, Hb, Hbl, Hmode. cbn [Z.eqb].
  destruct (Z.eqb_spec r 0) as [|_]; [lia|].
  rewrite !EVP_Cipher_cbc by assumption.
  rewrite !(EVP_Cipher_result_pos 16) by lia.
  change (Z.to_nat (16 / 16)) with 1%nat. change (Z.to_nat 16) with 16%nat.
  unfold cbc_run. cbn [set_ctx_iv encrypt ctx_key ctx_iv]. rewrite Henc.
  cbn [cbc128_decrypt fst snd].
  rewrite HY, !app_nil_r.
  rewrite (firstn_all2 (ctx_iv ctx)) by lia.
  set (D := AES_decrypt (ctx_key ctx)).
  rewrite (xor_bytes_involutive (D Yc) (ctx_iv ctx))
    by (unfold D; rewrite AES_decrypt_length; lia).
  set (buf1 := memset (buf h) r x00 (16 - r)).
  assert (Hbuf1 : firstn 16 buf1 = Tc ++ repeat x00 (Z.to_nat (16 - r)))
    by (apply staged_zero_filled; assumption).
  rewrite (xor_bytes_firstn (D Yc) buf1 16)
    by (unfold D; rewrite AES_decrypt_length; lia).
  rewrite Hbuf1.
  set (tmp := xor_bytes (D Yc) (Tc ++ repeat x00 (Z.to_nat (16 - r)))).
  assert (Htmp : length tmp = 16%nat).
  { unfold tmp, D. rewrite xor_bytes_length, AES_decrypt_length, length_app,
      repeat_length. lia. }
  assert (Hbuf2 : firstn 16 (memcpy buf1 r (skipn (Z.to_nat r) tmp) (16 - r))
                  = Tc ++ skipn (Z.to_nat r) tmp).
  { unfold memcpy.
    assert (Hh : firstn (Z.to_nat r) buf1 = Tc).
    { replace (firstn (Z.to_nat r) buf1)
        with (firstn (Z.to_nat r) (firstn 16 buf1))
        by (rewrite firstn_firstn; f_equal; lia).
      rewrite Hbuf1. apply firstn_app_exact. exact HlenT. }
    rewrite Hh, (firstn_all2 (skipn (Z.to_nat r) tmp))
      by (rewrite length_skipn; lia).
    rewrite app_assoc. apply firstn_app_exact.
    rewrite length_app, length_skipn. lia. }
  rewrite Hbuf2.
  set (Xc := Tc ++ skipn (Z.to_nat r) tmp).
  rewrite (xor_bytes_firstn (xor_bytes (D Xc) Yc) (final_buf h) 16)
    by (unfold D; rewrite xor_bytes_length, AES_decrypt_length; lia).
  rewrite HY, xor_bytes_involutive
    by (unfold D; rewrite AES_decrypt_length; lia).
  do 2 eexists. reflexivity.
Qed.

(** What the deciphering final computes from the output of the enciphering
    one: the stolen bytes complete the block [X], and the two blocks of
    plaintext come back. *)
Lemma stealing_blocks_cancel (key iv F T : list byte) (r : Z) :
  0 < r <= 16 -> length iv = 16%nat -> length F = 16%nat ->
  length T = Z.to_nat r ->
  let X := AES_encrypt key (xor_bytes F iv) in
  let Y := AES_encrypt key (xor_bytes (T ++ repeat x00 (Z.to_nat (16 - r))) X) in
  let Tc := firstn (Z.to_nat r) X in
  let tmp := xor_bytes (AES_decrypt key Y) (Tc ++ repeat x00 (Z.to_nat (16 - r))) in
  xor_bytes (AES_decrypt key (Tc ++ skipn (Z.to_nat r) tmp)) iv
    ++ firstn (Z.to_nat r) tmp
  = F ++ T.
Proof.
  intros Hr Hiv HF HT X Y Tc tmp.
  set (Z0 := repeat x00 (Z.to_nat (16 - r))) in *.
  assert (HX : length X = 16%nat) by apply AES_encrypt_length.
  set (X2 := skipn (Z.to_nat r) X).
  assert (HXs : X = Tc ++ X2) by (symmetry; apply firstn_skipn).
  assert (HTc : length Tc = Z.to_nat r)
    by (unfold Tc; rewrite length_firstn; lia).
  assert (HX2 : length X2 = Z.to_nat (16 - r))
    by (unfold X2; rewrite length_skipn; lia).
  assert (HZ0 : Z0 = repeat x00 (length X2)) by (rewrite HX2; reflexivity).
  assert (Htmp : tmp = T ++ X2).
  { unfold tmp, Y.
    rewrite AES_decrypt_encrypt
      by (rewrite xor_bytes_length, length_app, HX; unfold Z0;
          rewrite repeat_length; lia).
    rewrite HXs at 1.
    rewrite xor_bytes_app by lia.
    rewrite xor_bytes_app by (rewrite xor_bytes_length; lia).
    rewrite xor_bytes_involutive by lia.
    rewrite HZ0, xor_bytes_zero_l, xor_bytes_zero_r. reflexivity. }
  rewrite Htmp, (skipn_app_exact T X2 _ HT), (firstn_app_exact T X2 _ HT), <- HXs.
  unfold X. rewrite AES_decrypt_encrypt by (rewrite xor_bytes_length; lia).
  rewrite xor_bytes_involutive by lia. reflexivity.
Qed.

(** A packet of more than one block as whole blocks, one more whole block
    and a tail of 1 to 16 bytes. *)
Lemma split_stolen (P : list byte) :
  16 < GetSize P ->
  exists (k : nat) (r : Z), GetSize P = 16 * Z.of_nat (S k) + r /\ 0 < r <= 16.
Proof.
  intros HP.
  pose proof (Z.div_mod (GetSize P - 17) 16 ltac:(lia)) as Hdm.
  pose proof (Z.mod_pos_bound (GetSize P - 17) 16 ltac:(lia)) as Hmb.
  assert (0 <= (GetSize P - 17) / 16) by (apply Z.div_pos; lia).
  exists (Z.to_nat ((GetSize P - 17) / 16)), ((GetSize P - 17) mod 16 + 1).
  split; lia.
Qed.

Lemma stealing_ciphertext_length (key iv P : list byte) (k : nat) (r : Z) :
  0 < r <= 16 ->
  GetSize (stealing_ciphertext key iv P k r) = 16 * Z.of_nat (S k) + r.
Proof.
  intros Hr. unfold stealing_ciphertext.
  pose proof (cbc128_encrypt_length k key iv P) as Hc1.
  destruct (cbc128_encrypt k key iv P) as [c1 iv']. cbn [fst] in Hc1.
  unfold GetSize.
  rewrite !length_app, length_firstn, Hc1, !AES_encrypt_length. lia.
Qed.

(** The stealing update and final of the enciphering side on a fresh
    helper produce [stealing_ciphertext], whatever the update returns. *)
Lemma stealing_encrypt (he : H235CryptoHelper) (ectx : EVP_CIPHER_CTX)
    (P : list byte) (k : nat) (r : Z) :
  ctx_ready true ectx = true ->
  GetSize P = 16 * Z.of_nat (S k) + r -> 0 < r <= 16 ->
  exists c1 he1 ectx1 c2 he2 ectx2,
    EncryptUpdateCTS (Reset he) ectx P (GetSize P)
    = (UpdateCTS_result 0 (GetSize P), c1, he1, ectx1)
    /\ EncryptFinalCTS he1 ectx1 = (1, c2, he2, ectx2)
    /\ c1 ++ c2 = stealing_ciphertext (ctx_key ectx) (ctx_iv ectx) P k r.
Proof.
  intros Hre Hlen Hr.
  pose proof (ctx_ready_inv _ _ Hre) as (Hbl & _ & Hmode & Henc).
  assert (HlenP : length P = (16 * S k + Z.to_nat r)%nat)
    by (unfold GetSize in Hlen; lia).
  destruct (UpdateCTS_fresh (Reset he) ectx P k r Hbl Hmode eq_refl eq_refl Hlen Hr)
    as (he1 & HEU & Hfu1 & Hb1 & Hfb1 & Hbuf1).
  unfold cbc_run in HEU. rewrite Henc in HEU.
  unfold stealing_ciphertext.
  destruct (cbc128_encrypt k (ctx_key ectx) (ctx_iv ectx) P) as [c1 iv'].
  cbn [fst snd] in HEU.
  destruct (EncryptFinalCTS_retained he1 (set_ctx_iv ectx iv') r
              (firstn 16 (skipn (16 * k) P)) (skipn (16 * S k) P)
              Hbl Hmode Henc Hfu1 Hb1 Hr Hfb1 Hbuf1)
    as (he2 & ectx2 & HEF); [rewrite length_skipn; lia|].
  cbn [set_ctx_iv ctx_key ctx_iv] in HEF.
  do 6 eexists. split; [exact HEU|]. split; [exact HEF|]. reflexivity.
Qed.

(** The stealing update and final of the deciphering side on a fresh
    helper, run on [stealing_ciphertext], return the packet, whatever the
    update returns. *)
Lemma stealing_decrypt (hd : H235CryptoHelper) (dctx : EVP_CIPHER_CTX)
    (P : list byte) (k : nat) (r : Z) :
  ctx_ready false dctx = true -> length (ctx_iv dctx) = 16%nat ->
  GetSize P = 16 * Z.of_nat (S k) + r -> 0 < r <= 16 ->
  exists p1 hd1 dctx1 p2 hd2 dctx2,
    DecryptUpdateCTS (Reset hd) dctx
      (stealing_ciphertext (ctx_key dctx) (ctx_iv dctx) P k r) (GetSize P)
    = (UpdateCTS_result 0 (GetSize P), p1, hd1, dctx1)
    /\ DecryptFinalCTS hd1 dctx1 = (1, p2, hd2, dctx2)
    /\ p1 ++ p2 = P.
Proof.
  intros Hrd Hiv Hlen Hr.
  pose proof (ctx_ready_inv _ _ Hrd) as (Hbl & _ & Hmode & Hdec).
  assert (HlenP : length P = (16 * S k + Z.to_nat r)%nat)
    by (unfold GetSize in Hlen; lia).
  pose proof (stealing_ciphertext_length (ctx_key dctx) (ctx_iv dctx) P k r Hr) as HlenC.
  set (key := ctx_key dctx) in *. set (iv := ctx_iv dctx) in *.
  set (F := firstn 16 (skipn (16 * k) P)).
  set (T := skipn (16 * S k) P).
  assert (HF : length F = 16%nat)
    by (unfold F; rewrite length_firstn, length_skipn; lia).
  assert (HT : length T = Z.to_nat r) by (unfold T; rewrite length_skipn; lia).
  pose proof (cbc128_encrypt_length k key iv P) as Hc1.
  pose proof (cbc128_encrypt_iv_length k key iv P Hiv) as Hiv'.
  pose proof (cbc128_decrypt_encrypt_app k key iv P) as Hrun.
  revert HlenC. unfold stealing_ciphertext. fold F T.
  destruct (cbc128_encrypt k key iv P) as [c1 iv']. cbn [fst snd] in *.
  set (X := AES_encrypt key (xor_bytes F iv')).
  set (Y := AES_encrypt key (xor_bytes (T ++ repeat x00 (Z.to_nat (16 - r))) X)).
  assert (HX : length X = 16%nat) by apply AES_encrypt_length.
  assert (HY : length Y = 16%nat) by apply AES_encrypt_length.
  set (c2 := Y ++ firstn (Z.to_nat r) X).
  intros HlenC.
  destruct (UpdateCTS_fresh (Reset hd) dctx (c1 ++ c2) k r Hbl Hmode
              eq_refl eq_refl HlenC Hr) as (hd1 & HDU & Hfu2 & Hb2 & Hfb2 & Hbuf2).
  unfold cbc_run in HDU. rewrite Hdec in HDU. fold key iv in HDU.
  rewrite (Hrun c2 Hiv ltac:(lia)) in HDU. cbn [fst snd] in HDU.
  assert (HYc : firstn 16 (skipn (16 * k) (c1 ++ c2)) = Y).
  { rewrite (skipn_app_exact c1 c2 _ Hc1). unfold c2.
    apply firstn_app_exact. exact HY. }
  assert (HTc : skipn (16 * S k) (c1 ++ c2) = firstn (Z.to_nat r) X).
  { replace (16 * S k)%nat with (16 + 16 * k)%nat by lia.
    rewrite <- skipn_skipn, (skipn_app_exact c1 c2 _ Hc1). unfold c2.
    apply skipn_app_exact. exact HY. }
  rewrite HYc in Hfb2. rewrite HTc in Hbuf2.
  destruct (DecryptFinalCTS_retained hd1 (set_ctx_iv dctx iv') r Y
              (firstn (Z.to_nat r) X) Hbl Hmode Hdec Hiv' Hfu2 Hb2 Hr Hfb2 HY Hbuf2)
    as (hd2 & dctx2 & HDF); [rewrite length_firstn; lia|].
  cbn [set_ctx_iv ctx_key ctx_iv] in HDF. fold key in HDF.
  pose proof (stealing_blocks_cancel key iv' F T r Hr Hiv' HF HT) as Hcancel.
  cbv zeta in Hcancel. fold X in Hcancel. fold Y in Hcancel.
  rewrite Hcancel in HDF.
  rewrite HlenC, <- Hlen in HDU.
  do 6 eexists. split; [exact HDU|]. split; [exact HDF|].
  unfold F, T. replace (16 * S k)%nat with (16 * k + 16)%nat by lia.
  apply split3.
Qed.


(** X12 -- A packet of more than one block and not a whole number of them,
    enciphered by the stealing stages under the engine's key and the
    packet's IV, keeps its length.  Called with the padding flag clear on
    a serving engine, [Decrypt], which only traces what the stages return,
    gives the packet back; [DecryptInPlace] gives it back when the update
    returns 1, and returns 0 with no payload when the update returns 0,
    which is so for more than two blocks and less than three when
    [EVP_Cipher] reports the number of bytes. *)
Theorem Decrypt_undoes_stealing (e : H235CryptoEngine) (he : H235CryptoHelper)
    (ectx : EVP_CIPHER_CTX) (P : list byte) (ivSequence : option (list byte)) :
  engine_ready e = true -> seed_ok ivSequence = true ->
  m_encryptCtx e = Some ectx ->
  16 < GetSize P -> GetSize P mod 16 <> 0 ->
  exists c1 c2 he' ectx',
    encrypt_stages (Reset he)
      (EVP_CIPHER_CTX_set_padding
         (EVP_CipherInit_ex_iv ectx (packet_iv ivSequence)) false)
      false 16 P (GetSize P)
    = (c1, c2, he', ectx')
    /\ GetSize (c1 ++ c2) = GetSize P
    /\ (exists e1, Decrypt e (c1 ++ c2) ivSequence false = Some (P, e1, false))
    /\ (exists e2, DecryptInPlace e (c1 ++ c2) (GetSize P) ivSequence false
                   = Some (if UpdateCTS_result 0 (GetSize P) =? 0
                           then (0, [], e2, false)
                           else (GetSize P, P, e2, false))).
Proof.
  intros He Hs Hectx HP Hmod.
  pose proof (engine_ready_inv e He)
    as (Hinit & (ectx0 & dctx & Hectx0 & Hdctx & Hre & Hrd & Hkey) & Heb & Hei & Hdb & Hdi & Hiv).
  rewrite Hectx in Hectx0. injection Hectx0 as <-.
  pose proof (ctx_ready_inv _ _ Hre) as (Hbl & Hivl & Hmode & Henc).
  pose proof (decrypt_ctx_facts dctx ivSequence false Hrd Hs)
    as (Hbld & Hmoded & Hivd & _ & Hcd & Hend & Hkd & Hivd2).
  set (ctxe := EVP_CIPHER_CTX_set_padding
                 (EVP_CipherInit_ex_iv ectx (packet_iv ivSequence)) false).
  set (ctxd := EVP_CIPHER_CTX_set_padding
                 (EVP_CipherInit_ex_iv dctx (packet_iv ivSequence)) false) in *.
  assert (Hpiv : length (packet_iv ivSequence) = 16%nat)
    by (apply packet_iv_length; assumption).
  assert (Hive : ctx_iv ctxe = packet_iv ivSequence).
  { unfold ctxe. cbn [EVP_CIPHER_CTX_set_padding EVP_CipherInit_ex_iv ctx_iv].
    rewrite Hivl. apply firstn_all2. rewrite Hpiv. reflexivity. }
  assert (Hkeye : ctx_key ctxe = ctx_key ctxd) by (rewrite Hkd; exact Hkey).
  destruct (split_stolen P HP) as (k & r & Hlen & Hr).
  destruct (stealing_encrypt he ctxe P k r) as
    (c1 & he1 & ectx1 & c2 & he2 & ectx2 & HEU & HEF & HC);
    [apply (ctx_ready_transfer true ectx); [reflexivity|exact Henc|exact Hre]
    |exact Hlen|exact Hr|].
  destruct (stealing_decrypt (m_decryptHelper e) ctxd P k r) as
    (p1 & hd1 & dctx1 & p2 & hd2 & dctx2 & HDU & HDF & Hcat);
    [apply (ctx_ready_transfer false dctx); [exact Hcd|exact Hend|exact Hrd]
    |exact Hivd|exact Hlen|exact Hr|].
  rewrite Hivd2, <- Hive, <- Hkeye, <- HC in HDU.
  assert (HlenC : GetSize (c1 ++ c2) = GetSize P)
    by (rewrite HC, stealing_ciphertext_length, Hlen by exact Hr; reflexivity).
  assert (Hguard : forall n, n = GetSize P -> (Z.rem n 16 >? 0) = true).
  { intros n ->. rewrite Z.rem_mod_nonneg by lia.
    pose proof (Z.mod_pos_bound (GetSize P) 16 ltac:(lia)).
    apply Z.gtb_lt. lia. }
  exists c1, c2, he2, ectx2.
  split; [|split; [exact HlenC|split]].
  - unfold encrypt_stages. rewrite (Hguard _ eq_refl). cbn [negb andb].
    fold ctxe. rewrite HEU, HEF. reflexivity.
  - unfold Decrypt. rewrite Hinit, Hdctx, Hdb, Hdi, (Hguard _ HlenC).
    cbn [negb andb Z.eqb].
    rewrite SetIV_packet_iv by (assumption || reflexivity).
    fold ctxd. rewrite HlenC, HDU, HDF, Hcat. eexists. reflexivity.
  - unfold DecryptInPlace. rewrite Hdctx, Hdb, Hdi, (Hguard _ eq_refl).
    cbn [negb andb Z.eqb].
    rewrite SetIV_packet_iv by assumption.
    fold ctxd. rewrite HDU.
    destruct (UpdateCTS_result_cases 0 (GetSize P)) as [-> | ->]; cbn [Z.eqb];
      [eexists; reflexivity|].
    rewrite HDF. cbn [Z.eqb].
    assert (Hsz : GetSize p1 + GetSize p2 = GetSize (p1 ++ p2))
      by (unfold GetSize; rewrite length_app; lia).
    rewrite Hsz, Hcat. eexists. reflexivity.
Qed.

(** ** The seed of the IV *)

Lemma packet_iv_seed (s : list byte) :
  seed_ok (Some s) = true ->
  packet_iv (Some s) = firstn 6 s ++ firstn 6 s ++ firstn 4 (firstn 6 s).
Proof.
  intros Hs. apply seed_ok_length in Hs. unfold packet_iv.
  rewrite SetIV_seed by (assumption || reflexivity).
  rewrite firstn_firstn. reflexivity.
Qed.

Lemma cbc128_encrypt_head (n : nat) (key iv P : list byte) :
  firstn 16 (fst (cbc128_encrypt (S n) key iv P))
  = AES_encrypt key (xor_bytes (firstn 16 P) iv).
Proof.
  cbn [cbc128_encrypt].
  destruct (cbc128_encrypt n key _ (skipn 16 P)) as [out iv'].
  cbn [fst]. apply firstn_app_exact. apply AES_encrypt_length.
Qed.

(** X5 -- The ciphertext depends on the seed through its first six bytes and
    through nothing else of it: two seeds that agree on them give the same
    ciphertext, and two that differ on them give ciphertexts of a non-empty
    plaintext that differ in the first block already. *)
Theorem Encrypt_seed_six_bytes (e : H235CryptoEngine) (P s1 s2 : list byte)
    (pad : bool) :
  engine_ready e = true ->
  seed_ok (Some s1) = true -> seed_ok (Some s2) = true ->
  0 < GetSize P ->
  exists C1 C2 e1 e2 flag,
    Encrypt e P (Some s1) pad = Some (C1, e1, flag)
    /\ Encrypt e P (Some s2) pad = Some (C2, e2, flag)
    /\ (firstn 6 s1 = firstn 6 s2 -> C1 = C2)
    /\ (firstn 6 s1 <> firstn 6 s2 -> firstn 16 C1 <> firstn 16 C2).
Proof.
  intros He Hs1 Hs2 HP.
  destruct (Encrypt_ready e P (Some s1) pad He Hs1) as (e1 & HE1 & _ & _).
  destruct (Encrypt_ready e P (Some s2) pad He Hs2) as (e2 & HE2 & _ & _).
  do 5 eexists. split; [exact HE1|]. split; [exact HE2|].
  rewrite (packet_iv_seed s1 Hs1), (packet_iv_seed s2 Hs2).
  split.
  - intros ->. reflexivity.
  - intros Hne Heq. apply Hne. clear Hne.
    pose proof (pkcs_padded_blocks P) as HB.
    pose proof (pkcs_padded_length P) as HL.
    set (K := Z.to_nat (GetSize (pkcs_padded P) / 16)) in *.
    assert (HK : (0 < K)%nat).
    { pose proof (Z.div_mod (GetSize P + 15) 16 ltac:(lia)).
      pose proof (Z.mod_pos_bound (GetSize P + 15) 16 ltac:(lia)).
      unfold GetSize in *. lia. }
    destruct K as [|K']; [lia|].
    rewrite !cbc128_encrypt_head in Heq.
    apply seed_ok_length in Hs1, Hs2.
    assert (Hl : forall s : list byte, (6 <= length s)%nat ->
              length (firstn 6 s ++ firstn 6 s ++ firstn 4 (firstn 6 s)) = 16%nat)
      by (intros s Hs; rewrite !length_app, !length_firstn; lia).
    assert (HB16 : length (firstn 16 (pkcs_padded P)) = 16%nat)
      by (rewrite length_firstn; lia).
    apply AES_encrypt_injective in Heq;
      try (rewrite xor_bytes_length, HB16, Hl by assumption; reflexivity).
    apply xor_bytes_cancel_l in Heq;
      try (rewrite HB16, Hl by assumption; reflexivity).
    apply (f_equal (firstn 6)) in Heq.
    rewrite !firstn_app_exact in Heq by (rewrite length_firstn; lia).
    exact Heq.
Qed.

(** ** Keys: generating and installing *)

Lemma select_cipher_cases (oid : string) (c : EVP_CIPHER) :
  select_cipher oid = Some c ->
  (String.eqb oid ID_AES128 = true /\ c = EVP_aes_128_cbc)
  \/ (String.eqb oid ID_AES128 = false
      /\ H323_H235_AES256 && String.eqb oid ID_AES192 = true /\ c = EVP_aes_192_cbc)
  \/ (String.eqb oid ID_AES128 = false
      /\ H323_H235_AES256 && String.eqb oid ID_AES192 = false
      /\ H323_H235_AES256 && String.eqb oid ID_AES256 = true /\ c = EVP_aes_256_cbc).
Proof.
  unfold select_cipher.
  destruct (String.eqb oid ID_AES128); [intros [= <-]; auto|].
  destruct (H323_H235_AES256 && String.eqb oid ID_AES192); [intros [= <-]; auto|].
  destruct (H323_H235_AES256 && String.eqb oid ID_AES256); [intros [= <-]; auto 6|].
  discriminate.
Qed.

Lemma select_cipher_key_len (oid : string) (c : EVP_CIPHER) :
  select_cipher oid = Some c -> key_len c = 16 \/ key_len c = 24 \/ key_len c = 32.
Proof.
  intros H. destruct (select_cipher_cases oid c H)
    as [(_ & ->)|[(_ & _ & ->)|(_ & _ & _ & ->)]]; cbn; auto.
Qed.

(** [GenerateRandomKey()] on an engine with a supported algorithm: the key
    is the next [key_len] bytes of the random stream, and it is installed. *)
Lemma GenerateRandomKey_supported (e : H235CryptoEngine) (rand : nat -> byte)
    (c : EVP_CIPHER) :
  select_cipher (m_algorithmOID e) = Some c ->
  GenerateRandomKey e rand
  = (map rand (seq 0 (Z.to_nat (key_len c))),
     SetKey e (map rand (seq 0 (Z.to_nat (key_len c)))),
     fun i => rand (i + Z.to_nat (key_len c))%nat).
Proof.
  intros H. unfold GenerateRandomKey, GenerateRandomKey_oid.
  destruct (select_cipher_cases _ c H)
    as [(H1 & ->)|[(H1 & H2 & ->)|(H1 & H2 & H3 & ->)]];
    rewrite ?H1, ?H2, ?H3; reflexivity.
Qed.

(** X16 -- [GenerateRandomKey()] on an engine with a supported algorithm
    returns exactly [key_len] bytes, the next ones of the random stream, and
    leaves the engine in its serving state bound to that very key; with an
    unsupported algorithm it returns an empty key, draws nothing and leaves
    the engine as it was. *)
Theorem GenerateRandomKey_installs_key (e : H235CryptoEngine) (rand : nat -> byte) :
  (forall c, select_cipher (m_algorithmOID e) = Some c ->
     GetSize (m_iv e) = EVP_MAX_IV_LENGTH ->
     exists key e' rand',
       GenerateRandomKey e rand = (key, e', rand')
       /\ GetSize key = key_len c
       /\ key = map rand (seq 0 (Z.to_nat (key_len c)))
       /\ engine_ready e' = true /\ engine_key e' = key)
  /\ (select_cipher (m_algorithmOID e) = None ->
      GenerateRandomKey e rand = ([], e, rand)).
Proof.
  split.
  - intros c Hsel Hiv.
    rewrite (GenerateRandomKey_supported e rand c Hsel).
    pose proof (select_cipher_key_len _ c Hsel) as Hk.
    set (key := map rand (seq 0 (Z.to_nat (key_len c)))).
    assert (Hlen : length key = Z.to_nat (key_len c))
      by (unfold key; rewrite length_map, length_seq; reflexivity).
    destruct (SetKey_engine_ready e key c Hsel Hiv) as (Hr & Hkey).
    exists key, (SetKey e key), (fun i => rand (i + Z.to_nat (key_len c))%nat).
    split; [reflexivity|]. split; [unfold GetSize; lia|]. split; [reflexivity|].
    split; [exact Hr|]. rewrite Hkey. apply firstn_all2. lia.
  - intros Hsel.
    assert (HS : forall k, SetKey e k = e)
      by (intros k; unfold SetKey; rewrite Hsel; reflexivity).
    unfold GenerateRandomKey, GenerateRandomKey_oid.
    unfold select_cipher in Hsel.
    destruct (String.eqb (m_algorithmOID e) ID_AES128); [discriminate|].
    destruct (H323_H235_AES256 && String.eqb (m_algorithmOID e) ID_AES192);
      [discriminate|].
    destruct (H323_H235_AES256 && String.eqb (m_algorithmOID e) ID_AES256);
      [discriminate|].
    rewrite HS. reflexivity.
Qed.

(** ** The session: keys *)

Lemma PBYTEArray_new_size (n : Z) : 0 <= n -> GetSize (PBYTEArray_new n) = n.
Proof.
  intros Hn. unfold GetSize, PBYTEArray_new. rewrite repeat_length. lia.
Qed.

(** The copy of the trailing [n] bytes of the secret into the zeroed key
    array of [n] bytes. *)
Lemma trailing_bytes (secret : list byte) (n : Z) :
  0 <= n <= GetSize secret ->
  memcpy (PBYTEArray_new n) 0
    (skipn (Z.to_nat (GetSize secret - GetSize (PBYTEArray_new n))) secret)
    (GetSize (PBYTEArray_new n))
  = skipn (length secret - Z.to_nat n) secret.
Proof.
  intros Hn. rewrite PBYTEArray_new_size by lia.
  unfold memcpy, PBYTEArray_new, GetSize in *.
  change (Z.to_nat 0) with 0%nat. rewrite firstn_O. cbn [app].
  replace (Z.to_nat (Z.of_nat (length secret) - n))
    with (length secret - Z.to_nat n)%nat by lia.
  rewrite firstn_all2 by (rewrite length_skipn; lia).
  rewrite (skipn_all2 (repeat x00 (Z.to_nat n))) by (rewrite repeat_length; lia).
  apply app_nil_r.
Qed.

Lemma SetKey_algorithmOID (e : H235CryptoEngine) (key : list byte) :
  m_algorithmOID (SetKey e key) = m_algorithmOID e
  /\ m_iv (SetKey e key) = m_iv e.
Proof.
  unfold SetKey. destruct (select_cipher (m_algorithmOID e)); split; reflexivity.
Qed.

(** [CreateSession] on a session as constructed for a supported
    algorithm, the shared secret being long enough. *)
Lemma CreateSession_fresh (dh : H235_DiffieHellman) (oid : string) (isMaster : bool)
    (rand : nat -> byte) (c : EVP_CIPHER) :
  select_cipher oid = Some c ->
  key_len c <= GetSize (ComputeSessionKey dh) ->
  exists s' rand',
    CreateSession (H235Session_new dh oid) isMaster rand = (true, s', rand')
    /\ m_isInitialised s' = true
    /\ engine_ready (m_dhcontext s') = true
    /\ engine_key (m_dhcontext s')
       = skipn (length (ComputeSessionKey dh) - Z.to_nat (key_len c))
           (ComputeSessionKey dh)
    /\ m_algorithmOID (m_context s') = oid
    /\ GetSize (m_iv (m_context s')) = EVP_MAX_IV_LENGTH
    /\ (isMaster = true ->
        engine_ready (m_context s') = true
        /\ engine_key (m_context s') = m_crytoMasterKey s'
        /\ m_crytoMasterKey s' = map rand (seq 0 (Z.to_nat (key_len c))))
    /\ (isMaster = false ->
        m_context s' = H235CryptoEngine_new oid /\ m_crytoMasterKey s' = []).
Proof.
  intros Hsel Hlen.
  pose proof (select_cipher_key_len oid c Hsel) as Hk.
  assert (Hdh : m_dhkeyLen (H235Session_new dh oid) = key_len c).
  { unfold H235Session_new. cbn [m_dhkeyLen].
    destruct (select_cipher_cases oid c Hsel)
      as [(H1 & ->)|[(H1 & H2 & ->)|(H1 & H2 & H3 & ->)]];
      rewrite ?H1, ?H2, ?H3; reflexivity. }
  unfold CreateSession.
  change (m_isInitialised (H235Session_new dh oid)) with false. cbv iota.
  change (m_dh (H235Session_new dh oid)) with dh.
  change (m_dhcontext (H235Session_new dh oid)) with (H235CryptoEngine_new oid).
  change (m_context (H235Session_new dh oid)) with (H235CryptoEngine_new oid).
  change (m_crytoMasterKey (H235Session_new dh oid)) with (PBYTEArray_new 0).
  rewrite Hdh, trailing_bytes by lia.
  set (kek := skipn _ (ComputeSessionKey dh)).
  assert (Hkek : length kek = Z.to_nat (key_len c)).
  { unfold kek. rewrite length_skipn. unfold GetSize in Hlen. lia. }
  destruct (SetKey_engine_ready (H235CryptoEngine_new oid) kek c Hsel eq_refl)
    as (Hrd & Hkd).
  rewrite firstn_all2 in Hkd by lia.
  destruct isMaster.
  - rewrite (GenerateRandomKey_supported (H235CryptoEngine_new oid) rand c Hsel).
    set (key := map rand (seq 0 (Z.to_nat (key_len c)))).
    assert (Hkey : length key = Z.to_nat (key_len c))
      by (unfold key; rewrite length_map, length_seq; reflexivity).
    destruct (SetKey_engine_ready (H235CryptoEngine_new oid) key c Hsel eq_refl)
      as (Hrm & Hkm).
    rewrite firstn_all2 in Hkm by lia.
    do 2 eexists. split; [reflexivity|].
    cbn [m_isInitialised m_dhcontext m_context m_crytoMasterKey].
    destruct (SetKey_algorithmOID (H235CryptoEngine_new oid) key) as (Ho & Hi).
    rewrite Ho, Hi.
    repeat split; try assumption; try reflexivity; discriminate.
  - do 2 eexists. split; [reflexivity|].
    cbn [m_isInitialised m_dhcontext m_context m_crytoMasterKey].
    repeat split; try assumption; try reflexivity; discriminate.
Qed.

(** X17 -- [CreateSession] on a session as constructed for a supported
    algorithm: the key-encrypting engine serves under the trailing [key_len]
    bytes of the shared secret; the master also gets a media engine serving
    under a fresh random key of [key_len] bytes, which it keeps as master
    key, while the slave's media engine stays without a key. [IsInitialised]
    holds afterwards and [IsActive] does not. *)
Theorem CreateSession_derives_keys (dh : H235_DiffieHellman) (oid : string)
    (isMaster : bool) (rand : nat -> byte) (c : EVP_CIPHER) :
  select_cipher oid = Some c ->
  key_len c <= GetSize (ComputeSessionKey dh) ->
  exists s' rand',
    CreateSession (H235Session_new dh oid) isMaster rand = (true, s', rand')
    /\ IsInitialised s' = true /\ IsActive s' = false
    /\ engine_ready (m_dhcontext s') = true
    /\ engine_key (m_dhcontext s')
       = skipn (length (ComputeSessionKey dh) - Z.to_nat (key_len c))
           (ComputeSessionKey dh)
    /\ (isMaster = true ->
        engine_ready (m_context s') = true
        /\ engine_key (m_context s') = m_crytoMasterKey s'
        /\ GetSize (m_crytoMasterKey s') = key_len c)
    /\ (isMaster = false ->
        m_initialised (m_context s') = false /\ m_crytoMasterKey s' = []).
Proof.
  intros Hsel Hlen.
  pose proof (select_cipher_key_len oid c Hsel) as Hk.
  destruct (CreateSession_fresh dh oid isMaster rand c Hsel Hlen)
    as (s' & rand' & HC & Hi & Hrd & Hkd & _ & _ & Hm & Hs).
  exists s', rand'. split; [exact HC|].
  unfold IsActive, IsInitialised. rewrite Hi.
  split; [reflexivity|]. split; [reflexivity|]. split; [exact Hrd|].
  split; [exact Hkd|]. split.
  - intros H. destruct (Hm H) as (H1 & H2 & H3).
    split; [exact H1|]. split; [exact H2|].
    rewrite H3. unfold GetSize. rewrite length_map, length_seq. lia.
  - intros H. destruct (Hs H) as (H1 & H2). rewrite H1. auto.
Qed.

(** ** The session: carrying the media key and the frames *)

Lemma pkcs_padded_head (K : list byte) (n : nat) :
  (n <= length K)%nat -> firstn n (pkcs_padded K) = firstn n K.
Proof.
  intros Hn. unfold pkcs_padded. destruct (_ =? 0); [reflexivity|].
  rewrite firstn_app. replace (n - length K)%nat with 0%nat by lia.
  rewrite firstn_O. apply app_nil_r.
Qed.

(** The wrapped media key from the master's [EncodeMediaKey] through the
    slave's [DecodeMediaKey], the two key-encrypting engines serving under
    one key. *)
Lemma media_key_transport (master slave : H235Session) (c : EVP_CIPHER) :
  engine_ready (m_dhcontext master) = true ->
  engine_ready (m_dhcontext slave) = true ->
  engine_key (m_dhcontext slave) = engine_key (m_dhcontext master) ->
  m_isInitialised slave = true ->
  select_cipher (m_algorithmOID (m_context slave)) = Some c ->
  GetSize (m_iv (m_context slave)) = EVP_MAX_IV_LENGTH ->
  key_len c <= GetSize (m_crytoMasterKey master) ->
  exists wrapped master' slave',
    EncodeMediaKey master = Some (wrapped, master')
    /\ m_context master' = m_context master
    /\ m_crytoMasterKey master' = m_crytoMasterKey master
    /\ GetSize wrapped = GetSize (pkcs_padded (m_crytoMasterKey master))
    /\ DecodeMediaKey slave wrapped = Some (true, slave')
    /\ m_crytoMasterKey slave' = pkcs_padded (m_crytoMasterKey master)
    /\ engine_ready (m_context slave') = true
    /\ engine_key (m_context slave')
       = firstn (Z.to_nat (key_len c)) (m_crytoMasterKey master).
Proof.
  intros Hm Hsl Hkey Hinit Hsel Hiv Hlen.
  set (K := m_crytoMasterKey master) in *.
  assert (Hnull : seed_ok None = true) by reflexivity.
  destruct (Encrypt_ready (m_dhcontext master) K None false Hm Hnull)
    as (dh1 & HE & _ & _).
  pose proof (pkcs_padded_blocks K) as HB.
  set (n := Z.to_nat (GetSize (pkcs_padded K) / 16)) in *.
  pose proof (ciphertext_blocks n (engine_key (m_dhcontext master)) (packet_iv None)
                (pkcs_padded K)) as HC.
  set (W := fst (cbc128_encrypt n (engine_key (m_dhcontext master)) (packet_iv None)
                   (pkcs_padded K))) in *.
  destruct (Decrypt_ready (m_dhcontext slave) W None false n 0 Hsl Hnull HC)
    as (dh2 & HD & _ & _); [lia|auto|].
  unfold W, n in HD.
  rewrite (deciphered_encrypted (m_dhcontext slave) None _ K Hnull Hkey) in HD.
  change (relaxed_stages false (Z.to_nat (GetSize (pkcs_padded K) / 16)) 0
            (pkcs_padded K)) with (pkcs_padded K, (1, @nil byte)) in HD.
  cbn [fst snd] in HD. rewrite app_nil_r in HD. fold n in HD. fold W in HD.
  destruct (SetKey_engine_ready (m_context slave) (pkcs_padded K) c Hsel Hiv)
    as (Hr & Hk).
  exists W. do 2 eexists.
  unfold EncodeMediaKey, DecodeMediaKey. fold K. rewrite HE, Hinit.
  cbn [negb]. rewrite HD.
  split; [reflexivity|].
  cbn [set_session_keys m_context m_crytoMasterKey].
  split; [reflexivity|]. split; [reflexivity|].
  split; [rewrite HC; unfold GetSize; lia|].
  split; [reflexivity|].
  cbn [set_session_keys m_context m_crytoMasterKey].
  split; [reflexivity|]. split; [exact Hr|].
  rewrite Hk. apply pkcs_padded_head. unfold GetSize in Hlen. lia.
Qed.

(** X18 -- The wrapped media key round-trips between a master and an
    initialised slave whose key-encrypting engines serve under one key:
    [DecodeMediaKey] succeeds on what [EncodeMediaKey] produced and leaves
    the slave's media engine serving under the leading [key_len] bytes of
    the master key. The wrapped key is padded to whole blocks and the pad is
    not taken off again, the flag being passed clear: the master key the
    slave stores is the padded one (the same bytes when the key is a whole
    number of blocks, eight bytes more for a key of 24 bytes). *)
Theorem DecodeMediaKey_EncodeMediaKey (master slave : H235Session) (c : EVP_CIPHER) :
  engine_ready (m_dhcontext master) = true ->
  engine_ready (m_dhcontext slave) = true ->
  engine_key (m_dhcontext slave) = engine_key (m_dhcontext master) ->
  m_isInitialised slave = true ->
  select_cipher (m_algorithmOID (m_context slave)) = Some c ->
  GetSize (m_iv (m_context slave)) = EVP_MAX_IV_LENGTH ->
  key_len c <= GetSize (m_crytoMasterKey master) ->
  exists wrapped master' slave',
    EncodeMediaKey master = Some (wrapped, master')
    /\ GetSize wrapped = 16 * ((GetSize (m_crytoMasterKey master) + 15) / 16)
    /\ DecodeMediaKey slave wrapped = Some (true, slave')
    /\ m_crytoMasterKey slave' = pkcs_padded (m_crytoMasterKey master)
    /\ (GetSize (m_crytoMasterKey master) mod 16 = 0 ->
        m_crytoMasterKey slave' = m_crytoMasterKey master)
    /\ engine_ready (m_context slave') = true
    /\ engine_key (m_context slave')
       = firstn (Z.to_nat (key_len c)) (m_crytoMasterKey master).
Proof.
  intros Hm Hsl Hkey Hinit Hsel Hiv Hlen.
  destruct (media_key_transport master slave c Hm Hsl Hkey Hinit Hsel Hiv Hlen)
    as (wrapped & master' & slave' & HE & _ & _ & Hw & HD & HK & Hr & Hk).
  exists wrapped, master', slave'.
  split; [exact HE|]. split; [rewrite Hw; apply pkcs_padded_length|].
  split; [exact HD|]. split; [exact HK|].
  split; [|split; assumption].
  intros H0. rewrite HK. unfold pkcs_padded. rewrite H0. reflexivity.
Qed.

Lemma SetSize_length (a : list byte) (n : Z) :
  length (SetSize a n) = Z.to_nat n.
Proof.
  unfold SetSize. rewrite length_firstn, length_app, repeat_length. lia.
Qed.

(** A buffer resized for the data and filled with all of them holds the
    data. *)
Lemma copy_whole (dst data : list byte) :
  memcpy (SetSize dst (GetSize data)) 0 data (GetSize data) = data.
Proof.
  unfold memcpy. change (Z.to_nat 0) with 0%nat. rewrite firstn_O. cbn [app].
  rewrite Z.add_0_l, skipn_all2 by (rewrite SetSize_length; lia).
  rewrite app_nil_r. apply firstn_all2. unfold GetSize. lia.
Qed.

Lemma frame_ivSequence_seed (frame : RTP_DataFrame) :
  IV_SEQUENCE_LEN <= GetSize (frame_sequence frame) ->
  frame_ivSequence frame = firstn 6 (frame_sequence frame)
  /\ seed_ok (Some (frame_ivSequence frame)) = true.
Proof.
  unfold IV_SEQUENCE_LEN, GetSize. intros H.
  assert (Heq : frame_ivSequence frame = firstn 6 (frame_sequence frame)).
  { unfold frame_ivSequence, memcpy, IV_SEQUENCE_LEN.
    change (Z.to_nat 0) with 0%nat. change (Z.to_nat 6) with 6%nat.
    change (Z.to_nat (0 + 6)) with 6%nat.
    rewrite firstn_O, skipn_all2 by (rewrite repeat_length; lia).
    cbn [app]. apply app_nil_r. }
  split; [exact Heq|].
  rewrite Heq. unfold seed_ok, IV_SEQUENCE_LEN, GetSize.
  rewrite length_firstn. apply Z.leb_le. lia.
Qed.

(** A frame from the sender's [WriteFrame] through the receiver's
    [ReadFrame], the two media engines serving under one key. *)
Lemma frame_transport (sender receiver : H235Session) (frame : RTP_DataFrame) :
  engine_ready (m_context sender) = true ->
  engine_ready (m_context receiver) = true ->
  engine_key (m_context receiver) = engine_key (m_context sender) ->
  IV_SEQUENCE_LEN <= GetSize (frame_sequence frame) ->
  exists sender' sent receiver' received,
    WriteFrame sender frame = Some (true, sender', sent)
    /\ frame_sequence sent = frame_sequence frame
    /\ frame_padding sent = (GetPayloadSize frame mod 16 >? 0)
    /\ GetPayloadSize sent = 16 * ((GetPayloadSize frame + 15) / 16)
    /\ ReadFrame receiver sent = Some (true, receiver', received)
    /\ received = {| frame_sequence := frame_sequence frame;
                     frame_padding := false;
                     frame_payload := frame_payload frame |}
    /\ m_frameBuffer sender' = [] /\ m_frameBuffer receiver' = []
    /\ (engine_ready (m_context sender') = true
        /\ engine_key (m_context sender') = engine_key (m_context sender))
    /\ (engine_ready (m_context receiver') = true
        /\ engine_key (m_context receiver') = engine_key (m_context receiver)).
Proof.
  intros Ha Hb Hkey Hseq.
  destruct (frame_ivSequence_seed frame Hseq) as (Hseed & Hs).
  set (P := frame_payload frame).
  set (seed := frame_ivSequence frame) in *.
  destruct (Encrypt_ready (m_context sender) P (Some seed) (frame_padding frame) Ha Hs)
    as (a1 & HE & Ha1 & Hka).
  pose proof (pkcs_padded_blocks P) as HB.
  set (K := Z.to_nat (GetSize (pkcs_padded P) / 16)) in *.
  pose proof (ciphertext_blocks K (engine_key (m_context sender)) (packet_iv (Some seed))
                (pkcs_padded P)) as HC.
  set (C := fst (cbc128_encrypt K (engine_key (m_context sender)) (packet_iv (Some seed))
                   (pkcs_padded P))) in *.
  destruct (Decrypt_ready (m_context receiver) C (Some seed) (GetSize P mod 16 >? 0) K 0
              Hb Hs HC) as (b1 & HD & Hb1 & Hkb); [lia|auto|].
  unfold C, K in HD.
  rewrite (deciphered_encrypted (m_context receiver) (Some seed) _ P Hs Hkey) in HD.
  rewrite (proj2 (relaxed_stages_pkcs P)) in HD. fold K in HD. fold C in HD.
  set (sent := set_frame_payload frame C (GetSize P mod 16 >? 0)).
  assert (Hsent : frame_payload sent = C) by apply copy_whole.
  assert (Hsseed : frame_ivSequence sent = seed) by reflexivity.
  assert (HW : WriteFrame sender frame
               = Some (true, set_session_media sender a1 (SetSize C 0), sent)).
  { unfold WriteFrame, load_frameBuffer, GetPayloadSize. fold P.
    rewrite copy_whole. fold seed. rewrite HE. reflexivity. }
  assert (HR : ReadFrame receiver sent
               = Some (true, set_session_media receiver b1 (SetSize P 0),
                       set_frame_payload sent P false)).
  { unfold ReadFrame, load_frameBuffer, GetPayloadSize.
    rewrite Hsent, copy_whole, Hsseed.
    change (frame_padding sent) with (GetSize P mod 16 >? 0).
    rewrite HD. reflexivity. }
  eexists. exists sent. do 2 eexists. split; [exact HW|].
  split; [reflexivity|]. split; [reflexivity|].
  split.
  { unfold GetPayloadSize. rewrite Hsent. fold P.
    rewrite <- pkcs_padded_length, HC. unfold GetSize. lia. }
  split; [exact HR|].
  split.
  { unfold set_frame_payload. cbn [frame_sequence frame_padding frame_payload].
    rewrite copy_whole. reflexivity. }
  cbn [set_session_media m_frameBuffer m_context].
  repeat split; assumption || reflexivity.
Qed.

(** X19 -- A frame round-trips between two sessions whose media engines
    serve under one key: [ReadFrame] on what [WriteFrame] made of the frame
    restores the payload and clears the padding bit, the header bytes being
    left alone; on the wire the payload is padded to whole blocks, the
    padding bit telling whether it was. Both calls return true and empty the
    frame buffer of their session. *)
Theorem ReadFrame_WriteFrame_roundtrip (sender receiver : H235Session)
    (frame : RTP_DataFrame) :
  engine_ready (m_context sender) = true ->
  engine_ready (m_context receiver) = true ->
  engine_key (m_context receiver) = engine_key (m_context sender) ->
  IV_SEQUENCE_LEN <= GetSize (frame_sequence frame) ->
  exists sender' sent receiver' received,
    WriteFrame sender frame = Some (true, sender', sent)
    /\ frame_sequence sent = frame_sequence frame
    /\ frame_padding sent = negb (GetPayloadSize frame mod 16 =? 0)
    /\ GetPayloadSize sent = 16 * ((GetPayloadSize frame + 15) / 16)
    /\ ReadFrame receiver sent = Some (true, receiver', received)
    /\ frame_payload received = frame_payload frame
    /\ frame_padding received = false
    /\ frame_sequence received = frame_sequence frame
    /\ m_frameBuffer sender' = [] /\ m_frameBuffer receiver' = [].
Proof.
  intros Ha Hb Hkey Hseq.
  destruct (frame_transport sender receiver frame Ha Hb Hkey Hseq)
    as (sender' & sent & receiver' & received
        & HW & Hq & Hp & Hl & HR & Hrec & Hfa & Hfb & _ & _).
  exists sender', sent, receiver', received.
  split; [exact HW|]. split; [exact Hq|].
  split.
  { rewrite Hp.
    pose proof (Z.mod_pos_bound (GetPayloadSize frame) 16 ltac:(lia)).
    destruct (Z.eqb_spec (GetPayloadSize frame mod 16) 0) as [->|];
      [reflexivity|].
    apply Z.gtb_lt. lia. }
  split; [exact Hl|]. split; [exact HR|].
  rewrite Hrec. cbn [frame_payload frame_padding frame_sequence]. auto.
Qed.

(** X20 -- On a session whose media engine has no key (a slave before
    [DecodeMediaKey], or an unsupported algorithm) [WriteFrame] and
    [ReadFrame] still return true: the payload of the frame is emptied, so
    no plaintext goes out, and the padding bit and the engine stay as they
    were. *)
Theorem frames_without_key_are_emptied (s : H235Session) (frame : RTP_DataFrame) :
  m_initialised (m_context s) = false ->
  exists s' frame',
    WriteFrame s frame = Some (true, s', frame')
    /\ ReadFrame s frame = Some (true, s', frame')
    /\ frame_payload frame' = [] /\ frame_padding frame' = frame_padding frame
    /\ frame_sequence frame' = frame_sequence frame
    /\ m_context s' = m_context s /\ m_frameBuffer s' = [].
Proof.
  intros Hinit. unfold WriteFrame, ReadFrame, Encrypt, Decrypt.
  rewrite Hinit. cbn [negb].
  do 2 eexists. split; [reflexivity|]. split; [reflexivity|].
  repeat split.
Qed.

(** ** The session end to end *)

(** X21 -- Two sessions constructed for the same supported algorithm over
    the same Diffie-Hellman secret, one created as master and one as slave:
    once the master's wrapped media key has gone through the slave's
    [DecodeMediaKey], a frame written by either side is read back by the
    other with its payload restored. *)
Theorem session_end_to_end (dhm dhs : H235_DiffieHellman) (oid : string)
    (c : EVP_CIPHER) (randm rands : nat -> byte) (frame : RTP_DataFrame) :
  select_cipher oid = Some c ->
  ComputeSessionKey dhs = ComputeSessionKey dhm ->
  key_len c <= GetSize (ComputeSessionKey dhm) ->
  IV_SEQUENCE_LEN <= GetSize (frame_sequence frame) ->
  exists master randm' slave rands' wrapped master1 slave1,
    CreateSession (H235Session_new dhm oid) true randm = (true, master, randm')
    /\ CreateSession (H235Session_new dhs oid) false rands = (true, slave, rands')
    /\ EncodeMediaKey master = Some (wrapped, master1)
    /\ DecodeMediaKey slave wrapped = Some (true, slave1)
    /\ (exists master2 sent slave2 received,
          WriteFrame master1 frame = Some (true, master2, sent)
          /\ ReadFrame slave1 sent = Some (true, slave2, received)
          /\ frame_payload received = frame_payload frame)
    /\ (exists slave2 sent master2 received,
          WriteFrame slave1 frame = Some (true, slave2, sent)
          /\ ReadFrame master1 sent = Some (true, master2, received)
          /\ frame_payload received = frame_payload frame).
Proof.
  intros Hsel Hsecret Hlen Hseq.
  pose proof (select_cipher_key_len oid c Hsel) as Hkl.
  destruct (CreateSession_fresh dhm oid true randm c Hsel Hlen)
    as (master & randm' & HCm & _ & Hrdm & Hkdm & _ & _ & Hmaster & _).
  destruct (Hmaster eq_refl) as (Hrm & Hkm & HK).
  destruct (CreateSession_fresh dhs oid false rands c Hsel
              ltac:(rewrite Hsecret; exact Hlen))
    as (slave & rands' & HCs & His & Hrds & Hkds & Hoid & Hiv & _ & _).
  assert (HKlen : GetSize (m_crytoMasterKey master) = key_len c)
    by (rewrite HK; unfold GetSize; rewrite length_map, length_seq; lia).
  destruct (media_key_transport master slave c Hrdm Hrds) as
    (wrapped & master1 & slave1 & HE & Hctx & _ & _ & HD & _ & Hrs & Hks);
    try assumption.
  { rewrite Hkds, Hkdm, Hsecret. reflexivity. }
  { rewrite Hoid. exact Hsel. }
  { lia. }
  rewrite firstn_all2 in Hks by (unfold GetSize in HKlen; lia).
  rewrite <- Hctx in Hrm, Hkm.
  assert (Hsame : engine_key (m_context slave1) = engine_key (m_context master1))
    by congruence.
  exists master, randm', slave, rands', wrapped, master1, slave1.
  split; [exact HCm|]. split; [exact HCs|]. split; [exact HE|].
  split; [exact HD|]. split.
  - destruct (frame_transport master1 slave1 frame Hrm Hrs Hsame Hseq)
      as (m2 & sent & s2 & received & HW & _ & _ & _ & HR & Hrec & _).
    exists m2, sent, s2, received. split; [exact HW|]. split; [exact HR|].
    rewrite Hrec. reflexivity.
  - destruct (frame_transport slave1 master1 frame Hrs Hrm (eq_sym Hsame) Hseq)
      as (s2 & sent & m2 & received & HW & _ & _ & _ & HR & Hrec & _).
    exists s2, sent, m2, received. split; [exact HW|]. split; [exact HR|].
    rewrite Hrec. reflexivity.
Qed.

(** ** Deciphering: the size of the output *)

Lemma cbc128_decrypt_iv_length (n : nat) (key iv inp : list byte) :
  length iv = 16%nat -> (16 * n <= length inp)%nat ->
  length (snd (cbc128_decrypt n key iv inp)) = 16%nat.
Proof.
  revert iv inp; induction n as [|n IH]; intros iv inp Hiv Hlen; [exact Hiv|].
  cbn [cbc128_decrypt].
  specialize (IH (firstn 16 inp) (skipn 16 inp)
                 ltac:(rewrite length_firstn; lia)
                 ltac:(rewrite length_skipn; lia)).
  destruct (cbc128_decrypt n key (firstn 16 inp) (skipn 16 inp)) as [out iv'].
  exact IH.
Qed.

Lemma relaxed_stages_length (pad : bool) (k : nat) (r : Z) (plain : list byte) :
  length plain = (16 * k)%nat ->
  (length (fst (relaxed_stages pad k r plain)
           ++ snd (snd (relaxed_stages pad k r plain))) <= 16 * k)%nat.
Proof.
  intros Hlen. unfold relaxed_stages.
  destruct (pad && (r =? 0) && negb (Nat.eqb k 0)) eqn:Hc.
  - apply andb_prop in Hc as [_ Hk]. apply negb_true_iff, Nat.eqb_neq in Hk.
    cbn [fst snd].
    destruct ((_ =? 0) || (_ >? 16)); cbn [snd];
      rewrite length_app, !length_firstn, ?length_skipn; cbn [length]; lia.
  - cbn [fst snd]. destruct (pad || negb (r =? 0)); cbn [snd];
      rewrite app_nil_r; lia.
Qed.

(** The stealing update and final of the deciphering side on any packet of
    more than one block: their bytes are as many as came in; the final
    returns 1. *)
Lemma decrypt_stealing_stages (h : H235CryptoHelper) (ctx : EVP_CIPHER_CTX)
    (C : list byte) (k : nat) (r : Z) :
  block_size (cipher ctx) = 16 ->
  cipher_mode (cipher ctx) = EVP_CIPH_CBC_MODE -> encrypt ctx = false ->
  length (ctx_iv ctx) = 16%nat ->
  buf_len h = 0 -> final_used h = 0 ->
  GetSize C = 16 * Z.of_nat (S k) + r -> 0 < r <= 16 ->
  exists p1 h1 ctx1 p2 h2 ctx2,
    DecryptUpdateCTS h ctx C (GetSize C)
    = (UpdateCTS_result 0 (GetSize C), p1, h1, ctx1)
    /\ DecryptFinalCTS h1 ctx1 = (1, p2, h2, ctx2)
    /\ GetSize (p1 ++ p2) = GetSize C.
Proof.
  intros Hbl Hmode Hdec Hiv Hb Hf Hlen Hr.
  assert (HlenC : length C = (16 * S k + Z.to_nat r)%nat)
    by (unfold GetSize in Hlen; lia).
  destruct (UpdateCTS_fresh h ctx C k r Hbl Hmode Hb Hf Hlen Hr)
    as (h1 & HU & Hfu & Hbl1 & Hfb & Hbuf).
  pose proof (cbc_run_length ctx C k Hiv ltac:(lia)) as Hp1.
  set (p1 := fst (cbc_run ctx C k)) in *.
  set (iv' := snd (cbc_run ctx C k)) in *.
  assert (Hiv' : length iv' = 16%nat).
  { unfold iv', cbc_run. rewrite Hdec.
    apply cbc128_decrypt_iv_length; [exact Hiv|lia]. }
  destruct (DecryptFinalCTS_retained h1 (set_ctx_iv ctx iv') r
              (firstn 16 (skipn (16 * k) C)) (skipn (16 * S k) C)
              Hbl Hmode Hdec Hiv' Hfu Hbl1 Hr Hfb) as (h2 & ctx2 & HF).
  { rewrite length_firstn, length_skipn. lia. }
  { exact Hbuf. }
  { rewrite length_skipn. lia. }
  do 6 eexists. split; [exact HU|]. split; [exact HF|].
  unfold GetSize. cbn [set_ctx_iv ctx_iv ctx_key].
  rewrite !length_app, Hp1, !xor_bytes_length, !length_firstn, !xor_bytes_length,
    !AES_decrypt_length, Hiv', !length_app, repeat_length, length_skipn.
  lia.
Qed.

(** X9 -- On a serving engine both deciphering entry points return for every
    ciphertext, seed and flag, and never more bytes than came in, the space
    the caller provides: the plaintext array of [Decrypt] is allocated with
    the size of the ciphertext. [Decrypt] always reports the flag clear. *)
Theorem Decrypt_output_fits (e : H235CryptoEngine) (C : list byte)
    (ivSequence : option (list byte)) (pad : bool) :
  engine_ready e = true -> seed_ok ivSequence = true ->
  (exists out e1, Decrypt e C ivSequence pad = Some (out, e1, false)
                  /\ GetSize out <= GetSize C)
  /\ (exists n out e2 flag,
        DecryptInPlace e C (GetSize C) ivSequence pad = Some (n, out, e2, flag)
        /\ n = GetSize out /\ n <= GetSize C).
Proof.
  intros He Hs.
  destruct (split_length C) as (k & r & Hlen & Hr & _ & _).
  assert (HlenC : length C = (16 * k + Z.to_nat r)%nat)
    by (unfold GetSize in Hlen; lia).
  assert (Hsz : forall a b : list byte, GetSize a + GetSize b = GetSize (a ++ b))
    by (intros; unfold GetSize; rewrite length_app; lia).
  assert (Hcase : (pad = true \/ r = 0) \/ (pad = false /\ r <> 0))
    by (destruct pad; [auto|destruct (Z.eq_dec r 0); auto]).
  destruct Hcase as [Hoff|(-> & Hr0)].
  - (* the update and the relaxed final *)
    assert (Hplain : length (deciphered e ivSequence C) = (16 * k)%nat).
    { unfold deciphered. rewrite Hlen, div16_of_split, Nat2Z.id by lia.
      apply cbc128_decrypt_length; [apply packet_iv_length; assumption|lia]. }
    pose proof (relaxed_stages_length pad k r _ Hplain) as Hbound.
    destruct (Decrypt_ready e C ivSequence pad k r He Hs Hlen Hr Hoff)
      as (e1 & HD & _).
    destruct (DecryptInPlace_ready e C ivSequence pad k r He Hs Hlen Hr Hoff)
      as (e2 & HI & _).
    split.
    + do 2 eexists. split; [exact HD|]. unfold GetSize. lia.
    + rewrite HI. cbv zeta.
      destruct (fst (snd (relaxed_stages pad k r (deciphered e ivSequence C))) =? 0).
      * do 4 eexists. split; [reflexivity|]. split; [reflexivity|].
        apply GetSize_nonneg.
      * do 4 eexists. split; [reflexivity|]. split; [apply Hsz|].
        rewrite Hsz. unfold GetSize. lia.
  - (* ciphertext stealing *)
    pose proof (engine_ready_inv e He)
      as (Hinit & (ectx & dctx & Hectx & Hdctx & Hre & Hrd & Hkey)
          & Heb & Hei & Hdb & Hdi & Hiv).
    pose proof (decrypt_ctx_facts dctx ivSequence false Hrd Hs)
      as (Hbl & Hmode & Hivl & _ & _ & Hdec & _ & _).
    assert (Hguard : (Z.rem (GetSize C) 16 >? 0) = true).
    { rewrite Z.rem_mod_nonneg by (try apply GetSize_nonneg; lia).
      rewrite Hlen, mod16_of_split by lia. apply Z.gtb_lt. lia. }
    unfold Decrypt, DecryptInPlace.
    rewrite Hinit, Hdctx, Hdb, Hdi, Hguard. cbn [negb andb Z.eqb].
    rewrite !SetIV_packet_iv by (assumption || reflexivity).
    set (ctx2 := EVP_CIPHER_CTX_set_padding _ _) in *.
    destruct k as [|k].
    + (* less than one block: staged, then nothing retained *)
      unfold DecryptUpdateCTS, EncryptUpdateCTS, EVP_CIPHER_CTX_block_size.
      rewrite Hbl. cbn [Reset buf_len].
      destruct (Z.leb_spec (GetSize C) 0) as [|_]; [lia|].
      destruct (Z.leb_spec (0 + GetSize C) 16) as [_|]; [|lia].
      unfold DecryptFinalCTS. cbn [final_used Z.eqb app].
      split.
      * do 2 eexists. split; [reflexivity|]. apply GetSize_nonneg.
      * do 4 eexists. split; [reflexivity|]. split; [reflexivity|].
        apply GetSize_nonneg.
    + destruct (decrypt_stealing_stages (Reset (m_decryptHelper e)) ctx2 C k r
                  Hbl Hmode Hdec Hivl eq_refl eq_refl Hlen ltac:(lia))
        as (p1 & h1 & ctx1 & p2 & h2 & ctx3 & HU & HF & Hsize).
      rewrite HU, HF.
      split.
      * do 2 eexists. split; [reflexivity|]. lia.
      * destruct (UpdateCTS_result_cases 0 (GetSize C)) as [-> | ->]; cbn [Z.eqb].
        -- do 4 eexists. split; [reflexivity|]. split; [reflexivity|].
           apply GetSize_nonneg.
        -- do 4 eexists. split; [reflexivity|]. split; [apply Hsz|].
           rewrite Hsz. lia.
Qed.

(** ** The update in several calls *)

Lemma firstn_16_of (a b : list byte) (n : nat) :
  firstn (16 * S n) a = firstn (16 * S n) b ->
  firstn 16 a = firstn 16 b
  /\ firstn (16 * n) (skipn 16 a) = firstn (16 * n) (skipn 16 b).
Proof.
  intros H. split.
  - apply (f_equal (firstn 16)) in H. rewrite !firstn_firstn in H.
    replace (Nat.min 16 (16 * S n)) with 16%nat in H by lia. exact H.
  - rewrite !firstn_skipn_comm.
    replace (16 + 16 * n)%nat with (16 * S n)%nat by lia.
    rewrite H. reflexivity.
Qed.

(** The loop over [n] blocks reads the first [16 * n] bytes only. *)
Lemma cbc_run_ext (ctx : EVP_CIPHER_CTX) (a b : list byte) (n : nat) :
  firstn (16 * n) a = firstn (16 * n) b -> cbc_run ctx a n = cbc_run ctx b n.
Proof.
  unfold cbc_run. generalize (ctx_iv ctx) as iv.
  destruct (encrypt ctx).
  - revert a b; induction n as [|n IH]; intros a b iv H; [reflexivity|].
    apply firstn_16_of in H as [H1 H2].
    cbn [cbc128_encrypt]. rewrite H1, (IH _ _ _ H2). reflexivity.
  - revert a b; induction n as [|n IH]; intros a b iv H; [reflexivity|].
    apply firstn_16_of in H as [H1 H2].
    cbn [cbc128_decrypt]. rewrite H1, (IH _ _ _ H2). reflexivity.
Qed.

Lemma cbc128_decrypt_plus (n m : nat) (key iv inp : list byte) :
  cbc128_decrypt (n + m) key iv inp =
  let '(o1, iv1) := cbc128_decrypt n key iv inp in
  let '(o2, iv2) := cbc128_decrypt m key iv1 (skipn (16 * n) inp) in
  (o1 ++ o2, iv2).
Proof.
  revert iv inp; induction n as [|n IH]; intros iv inp.
  - cbn [Nat.add cbc128_decrypt Nat.mul skipn].
    destruct (cbc128_decrypt m key iv inp); reflexivity.
  - cbn [Nat.add cbc128_decrypt]. rewrite IH.
    destruct (cbc128_decrypt n key _ (skipn 16 inp)) as [o1 iv1].
    replace (16 * S n)%nat with (16 * n + 16)%nat by lia.
    rewrite <- skipn_skipn.
    destruct (cbc128_decrypt m key iv1 _) as [o2 iv2].
    rewrite app_assoc. reflexivity.
Qed.

(** The loop over [n + m] blocks is the loop over [n], then the loop over
    [m] on what follows, from the IV the first left. *)
Lemma cbc_run_plus (ctx : EVP_CIPHER_CTX) (inp : list byte) (n m : nat) :
  cbc_run ctx inp (n + m)
  = (fst (cbc_run ctx inp n)
       ++ fst (cbc_run (set_ctx_iv ctx (snd (cbc_run ctx inp n)))
                 (skipn (16 * n) inp) m),
     snd (cbc_run (set_ctx_iv ctx (snd (cbc_run ctx inp n)))
            (skipn (16 * n) inp) m)).
Proof.
  unfold cbc_run. cbn [set_ctx_iv encrypt ctx_key ctx_iv].
  destruct (encrypt ctx).
  - rewrite cbc128_encrypt_plus.
    destruct (cbc128_encrypt n _ _ _) as [o1 iv1]. cbn [fst snd].
    destruct (cbc128_encrypt m _ _ _) as [o2 iv2]. reflexivity.
  - rewrite cbc128_decrypt_plus.
    destruct (cbc128_decrypt n _ _ _) as [o1 iv1]. cbn [fst snd].
    destruct (cbc128_decrypt m _ _ _) as [o2 iv2]. reflexivity.
Qed.

(** One call of [EncryptUpdate], whatever is staged: the staged bytes
    followed by the input go through the cipher as far as they make whole
    blocks, and the rest is staged. *)
Lemma EncryptUpdate_staged (h : H235CryptoHelper) (ctx : EVP_CIPHER_CTX)
    (inp : list byte) (k : nat) (r : Z) :
  block_size (cipher ctx) = 16 ->
  cipher_mode (cipher ctx) = EVP_CIPH_CBC_MODE ->
  0 <= buf_len h < 16 -> 16 <= GetSize (buf h) ->
  GetSize (firstn (Z.to_nat (buf_len h)) (buf h) ++ inp) = 16 * Z.of_nat k + r ->
  0 <= r < 16 ->
  exists h',
    EncryptUpdate h ctx inp (GetSize inp)
    = (1, fst (cbc_run ctx (firstn (Z.to_nat (buf_len h)) (buf h) ++ inp) k), h',
       set_ctx_iv ctx
         (snd (cbc_run ctx (firstn (Z.to_nat (buf_len h)) (buf h) ++ inp) k)))
    /\ buf_len h' = r
    /\ firstn (Z.to_nat r) (buf h')
       = skipn (16 * k) (firstn (Z.to_nat (buf_len h)) (buf h) ++ inp)
    /\ GetSize (buf h') = GetSize (buf h)
    /\ final_buf h' = final_buf h /\ final_used h' = final_used h.
Proof.
  intros Hbl Hmode Hi Hbuf Hlen Hr.
  set (i := buf_len h) in *.
  set (S0 := firstn (Z.to_nat i) (buf h)) in *.
  assert (HS0 : length S0 = Z.to_nat i)
    by (unfold S0; rewrite length_firstn; unfold GetSize in Hbuf; lia).
  assert (HlenM : (Z.to_nat i + length inp = 16 * k + Z.to_nat r)%nat)
    by (unfold GetSize in Hlen; rewrite length_app, HS0 in Hlen; lia).
  destruct (Z.eq_dec i 0) as [Hi0|Hi0].
  - (* nothing staged *)
    assert (HS0' : S0 = []) by (destruct S0; [reflexivity|cbn in HS0; lia]).
    rewrite HS0' in *. cbn [app] in *.
    rewrite (EncryptUpdate_fresh h ctx inp k r) by assumption.
    eexists. split; [reflexivity|]. cbn [buf_len buf final_buf final_used].
    split; [reflexivity|].
    destruct (Z.eqb_spec r 0) as [->|Hr0].
    + split; [|auto]. change (Z.to_nat 0) with 0%nat. rewrite firstn_O.
      symmetry. apply skipn_all2. lia.
    + assert (Hsk : length (skipn (Z.to_nat (16 * Z.of_nat k)) inp) = Z.to_nat r)
        by (rewrite length_skipn; lia).
      split; [|split; [|auto]].
      * rewrite memcpy_0_firstn by (unfold GetSize; lia).
        replace (Z.to_nat (16 * Z.of_nat k)) with (16 * k)%nat by lia.
        apply firstn_all2. rewrite length_skipn. lia.
      * unfold GetSize at 1. rewrite memcpy_length; unfold GetSize in *; lia.
  - (* bytes staged by an earlier call *)
    unfold EncryptUpdate, EVP_CIPHER_CTX_block_size. rewrite Hbl. fold i.
    destruct (Z.leb_spec (GetSize inp) 0) as [Hz|Hpos].
    + (* no input *)
      assert (Hnil : inp = [])
        by (destruct inp; [reflexivity|unfold GetSize in Hz; cbn in Hz; lia]).
      subst inp. rewrite app_nil_r in *. cbn [length] in HlenM.
      assert (k = 0%nat) as -> by lia.
      rewrite cbc_run_0. cbn [fst snd GetSize length Z.of_nat Z.eqb Z.b2z].
      rewrite set_ctx_iv_same.
      exists h. split; [reflexivity|]. fold i.
      split; [lia|]. rewrite Nat.mul_0_r, skipn_O.
      replace r with i by lia. auto.
    + destruct (Z.eqb_spec i 0) as [|_]; [contradiction|]. cbn [andb negb].
      destruct (Z.ltb_spec (i + GetSize inp) 16) as [Hfit|Hfill].
      * (* the input is staged as well *)
        assert (k = 0%nat) as -> by (unfold GetSize in Hfit; lia).
        rewrite cbc_run_0. cbn [fst snd]. rewrite set_ctx_iv_same.
        eexists. split; [reflexivity|]. cbn [buf_len buf final_buf final_used].
        fold i. split; [unfold GetSize in *; lia|].
        rewrite Nat.mul_0_r, skipn_O.
        split; [|split; [|auto]].
        -- replace r with (i + GetSize inp) by (unfold GetSize in *; lia).
           rewrite memcpy_firstn by (unfold GetSize in *; lia).
           fold S0. f_equal. apply firstn_all2. unfold GetSize. lia.
        -- unfold GetSize at 1. rewrite memcpy_length; unfold GetSize in *; lia.
      * (* the staged block is filled and goes first *)
        destruct k as [|k]; [unfold GetSize in Hfill; lia|].
        set (j := 16 - i).
        set (b := memcpy (buf h) i inp j).
        assert (Hb : firstn 16 b = firstn 16 (S0 ++ inp)).
        { unfold b. replace 16%nat with (Z.to_nat (i + j)) at 1 by (unfold j; lia).
          rewrite memcpy_firstn by (unfold j, GetSize in *; lia).
          fold S0. rewrite firstn_app, HS0, (firstn_all2 S0) by lia.
          do 2 f_equal. unfold j. lia. }
        assert (Hblen : GetSize b = GetSize (buf h)).
        { unfold b, GetSize. rewrite memcpy_length; unfold j, GetSize in *; lia. }
        assert (Hrest : skipn 16 (S0 ++ inp) = skipn (Z.to_nat j) inp).
        { rewrite skipn_app, HS0, (skipn_all2 S0) by lia. cbn [app].
          f_equal. unfold j. lia. }
        rewrite !EVP_Cipher_cbc by assumption.
        change (Z.to_nat (16 / 16)) with 1%nat.
        rewrite !land_15.
        assert (Hinl1 : GetSize inp - j = 16 * Z.of_nat k + r)
          by (unfold j, GetSize in *; lia).
        rewrite Hinl1, mod16_of_split by assumption.
        replace (16 * Z.of_nat k + r - r) with (16 * Z.of_nat k) by lia.
        rewrite (cbc_run_first ctx b (S0 ++ inp) k Hb), Hrest.
        cbn [fst snd].
        rewrite (EVP_Cipher_result_pos 16) by lia.
        set (ctx1 := set_ctx_iv ctx (snd (cbc_run ctx b 1))).
        assert (Hout2 :
          (if 16 * Z.of_nat k >? 0
           then (EVP_Cipher_result (16 * Z.of_nat k),
                 fst (cbc_run ctx1 (skipn (Z.to_nat j) inp)
                        (Z.to_nat (16 * Z.of_nat k / 16))),
                 set_ctx_iv ctx1
                   (snd (cbc_run ctx1 (skipn (Z.to_nat j) inp)
                           (Z.to_nat (16 * Z.of_nat k / 16)))))
           else (1, [], ctx1))
          = (if 16 * Z.of_nat k >? 0 then EVP_Cipher_result (16 * Z.of_nat k) else 1,
             fst (cbc_run ctx1 (skipn (Z.to_nat j) inp) k),
             set_ctx_iv ctx (snd (cbc_run ctx1 (skipn (Z.to_nat j) inp) k)))).
        { destruct (Z.gtb_spec (16 * Z.of_nat k) 0) as [Hk|Hk].
          - replace (Z.to_nat (16 * Z.of_nat k / 16)) with k
              by (rewrite Z.mul_comm, Z.div_mul; lia).
            reflexivity.
          - assert (k = 0%nat) as -> by lia. rewrite cbc_run_0.
            cbn [fst snd]. unfold ctx1. cbn [set_ctx_iv ctx_iv].
            reflexivity. }
        rewrite Hout2.
        assert (Hr2 : ((if 16 * Z.of_nat k >? 0
                        then EVP_Cipher_result (16 * Z.of_nat k) else 1) =? 0) = false).
        { destruct (Z.gtb_spec (16 * Z.of_nat k) 0) as [Hk|Hk];
            [apply EVP_Cipher_result_pos; lia|reflexivity]. }
        rewrite Hr2.
        eexists. split; [reflexivity|]. cbn [buf_len buf final_buf final_used].
        split; [reflexivity|].
        destruct (Z.eqb_spec r 0) as [->|Hr0].
        -- split; [|auto]. change (Z.to_nat 0) with 0%nat. rewrite firstn_O.
           symmetry. apply skipn_all2. rewrite length_app. lia.
        -- split; [|split; [|auto]].
           ++ rewrite memcpy_0_firstn
                by (unfold GetSize; rewrite ?length_skipn; unfold j in *; lia).
              replace (16 * S k)%nat with (16 * k + 16)%nat by lia.
              rewrite <- skipn_skipn, Hrest.
              replace (Z.to_nat (16 * Z.of_nat k)) with (16 * k)%nat by lia.
              apply firstn_all2. rewrite !length_skipn. unfold j. lia.
           ++ unfold GetSize at 1.
              rewrite memcpy_length;
                unfold GetSize in *; rewrite ?length_skipn; unfold j in *; lia.
Qed.

Lemma EncryptUpdate_calls_staged (inputs : list (list byte)) :
  forall (h : H235CryptoHelper) (ctx : EVP_CIPHER_CTX) (k : nat) (r : Z),
  block_size (cipher ctx) = 16 ->
  cipher_mode (cipher ctx) = EVP_CIPH_CBC_MODE ->
  0 <= buf_len h < 16 -> 16 <= GetSize (buf h) ->
  GetSize (firstn (Z.to_nat (buf_len h)) (buf h) ++ concat inputs)
  = 16 * Z.of_nat k + r ->
  0 <= r < 16 ->
  exists h',
    EncryptUpdate_calls h ctx inputs
    = Some (fst (cbc_run ctx (firstn (Z.to_nat (buf_len h)) (buf h) ++ concat inputs) k),
            h',
            set_ctx_iv ctx
              (snd (cbc_run ctx
                      (firstn (Z.to_nat (buf_len h)) (buf h) ++ concat inputs) k)))
    /\ buf_len h' = r
    /\ firstn (Z.to_nat r) (buf h')
       = skipn (16 * k) (firstn (Z.to_nat (buf_len h)) (buf h) ++ concat inputs).
Proof.
  induction inputs as [|inp rest IH]; intros h ctx k r Hbl Hmode Hi Hbuf Hlen Hr.
  - cbn [concat EncryptUpdate_calls] in *. rewrite app_nil_r in *.
    assert (HS : length (firstn (Z.to_nat (buf_len h)) (buf h)) = Z.to_nat (buf_len h))
      by (rewrite length_firstn; unfold GetSize in Hbuf; lia).
    unfold GetSize in Hlen. rewrite HS in Hlen.
    assert (k = 0%nat) as -> by lia.
    rewrite cbc_run_0. cbn [fst snd]. rewrite set_ctx_iv_same, Nat.mul_0_r, skipn_O.
    exists h. split; [reflexivity|]. split; [lia|].
    replace r with (buf_len h) by lia. reflexivity.
  - cbn [concat EncryptUpdate_calls].
    set (S0 := firstn (Z.to_nat (buf_len h)) (buf h)) in *.
    cbn [concat] in Hlen.
    destruct (split_length (S0 ++ inp)) as (k1 & r1 & Hlen1 & Hr1 & _ & _).
    destruct (EncryptUpdate_staged h ctx inp k1 r1 Hbl Hmode Hi Hbuf Hlen1 Hr1)
      as (h1 & HU & Hb1 & Hst1 & Hsz1 & _).
    fold S0 in HU, Hst1. rewrite HU. cbn [Z.eqb].
    set (ctx1 := set_ctx_iv ctx (snd (cbc_run ctx (S0 ++ inp) k1))) in *.
    assert (Hk : (k1 <= k)%nat).
    { unfold GetSize in *. rewrite !length_app in *. nia. }
    assert (Hlen2 : GetSize (firstn (Z.to_nat (buf_len h1)) (buf h1) ++ concat rest)
                    = 16 * Z.of_nat (k - k1) + r).
    { rewrite Hb1, Hst1. unfold GetSize in *.
      rewrite !length_app, length_skipn, !length_app in *. lia. }
    destruct (IH h1 ctx1 (k - k1)%nat r Hbl Hmode ltac:(lia) ltac:(lia) Hlen2 Hr)
      as (h2 & HC & Hb2 & Hst2).
    rewrite Hb1, Hst1 in HC, Hst2. rewrite HC.
    assert (Hsk : skipn (16 * k1) (S0 ++ inp ++ concat rest)
                  = skipn (16 * k1) (S0 ++ inp) ++ concat rest).
    { rewrite app_assoc, skipn_app.
      replace (16 * k1 - length (S0 ++ inp))%nat with 0%nat
        by (unfold GetSize in Hlen1; lia).
      rewrite skipn_O. reflexivity. }
    assert (Hrun : cbc_run ctx (S0 ++ inp ++ concat rest) k1
                   = cbc_run ctx (S0 ++ inp) k1).
    { apply cbc_run_ext. rewrite app_assoc, firstn_app.
      replace (16 * k1 - length (S0 ++ inp))%nat with 0%nat
        by (unfold GetSize in Hlen1; lia).
      rewrite firstn_O. apply app_nil_r. }
    pose proof (cbc_run_plus ctx (S0 ++ inp ++ concat rest) k1 (k - k1)) as Hp.
    replace (k1 + (k - k1))%nat with k in Hp by lia.
    rewrite Hp, Hrun, Hsk. fold ctx1. cbn [fst snd].
    exists h2. split; [reflexivity|]. split; [exact Hb2|].
    rewrite Hst2, <- Hsk, skipn_skipn. f_equal. lia.
Qed.

(** X13 -- However a stream is cut into calls of [EncryptUpdate] on a fresh
    helper, every call succeeds, the outputs together are the CBC of the
    whole blocks of the stream, the running IV is where one pass over them
    leaves it, and the helper stages the bytes after the last whole block. *)
Theorem EncryptUpdate_any_chunking (h0 : H235CryptoHelper) (ctx : EVP_CIPHER_CTX)
    (inputs : list (list byte)) :
  block_size (cipher ctx) = 16 ->
  cipher_mode (cipher ctx) = EVP_CIPH_CBC_MODE ->
  16 <= GetSize (buf h0) ->
  exists h,
    EncryptUpdate_calls (Reset h0) ctx inputs
    = Some (fst (cbc_run ctx (concat inputs)
                   (Z.to_nat (GetSize (concat inputs) / 16))),
            h,
            set_ctx_iv ctx
              (snd (cbc_run ctx (concat inputs)
                      (Z.to_nat (GetSize (concat inputs) / 16)))))
    /\ buf_len h = GetSize (concat inputs) mod 16
    /\ firstn (Z.to_nat (buf_len h)) (buf h)
       = skipn (16 * Z.to_nat (GetSize (concat inputs) / 16)) (concat inputs).
Proof.
  intros Hbl Hmode Hbuf.
  destruct (split_length (concat inputs)) as (k & r & Hlen & Hr & Hk & Hmod).
  destruct (EncryptUpdate_calls_staged inputs (Reset h0) ctx k r Hbl Hmode)
    as (h & HC & Hb & Hst); cbn [Reset buf_len buf]; try lia; try assumption.
  cbn [Reset buf_len buf firstn Z.to_nat app] in HC, Hst.
  exists h. rewrite <- Hk, <- Hmod, Hb. auto.
Qed.

Lemma cbc_run_iv_length (ctx : EVP_CIPHER_CTX) (inp : list byte) (k : nat) :
  length (ctx_iv ctx) = 16%nat -> (16 * k <= length inp)%nat ->
  length (snd (cbc_run ctx inp k)) = 16%nat.
Proof.
  intros Hiv Hlen. unfold cbc_run. destruct (encrypt ctx).
  - apply cbc128_encrypt_iv_length. exact Hiv.
  - apply cbc128_decrypt_iv_length; assumption.
Qed.

(** One call of [DecryptUpdate] with padding on and a non-empty input: the
    block retained before goes out first; of the blocks deciphered now the
    last is retained when nothing is left staged. *)
Lemma DecryptUpdate_staged (h : H235CryptoHelper) (ctx : EVP_CIPHER_CTX)
    (inp : list byte) (k : nat) (r : Z) :
  block_size (cipher ctx) = 16 ->
  cipher_mode (cipher ctx) = EVP_CIPH_CBC_MODE ->
  no_padding ctx = false -> length (ctx_iv ctx) = 16%nat ->
  0 <= buf_len h < 16 -> 16 <= GetSize (buf h) ->
  0 < GetSize inp ->
  GetSize (firstn (Z.to_nat (buf_len h)) (buf h) ++ inp) = 16 * Z.of_nat k + r ->
  0 <= r < 16 ->
  exists out h',
    DecryptUpdate h ctx inp (GetSize inp)
    = (1, out, h',
       set_ctx_iv ctx
         (snd (cbc_run ctx (firstn (Z.to_nat (buf_len h)) (buf h) ++ inp) k)))
    /\ retained h
         ++ fst (cbc_run ctx (firstn (Z.to_nat (buf_len h)) (buf h) ++ inp) k)
       = out ++ retained h'
    /\ buf_len h' = r
    /\ firstn (Z.to_nat r) (buf h')
       = skipn (16 * k) (firstn (Z.to_nat (buf_len h)) (buf h) ++ inp)
    /\ GetSize (buf h') = GetSize (buf h)
    /\ final_used h' = Z.b2z (r =? 0).
Proof.
  intros Hbl Hmode Hpad Hiv Hi Hbuf Hpos Hlen Hr.
  destruct (EncryptUpdate_staged h ctx inp k r Hbl Hmode Hi Hbuf Hlen Hr)
    as (h1 & HU & Hb1 & Hst1 & Hsz1 & Hfb1 & Hfu1).
  set (M := firstn (Z.to_nat (buf_len h)) (buf h) ++ inp) in *.
  assert (Hplain : length (fst (cbc_run ctx M k)) = (16 * k)%nat)
    by (apply cbc_run_length; [exact Hiv|unfold GetSize in Hlen; lia]).
  set (plain := fst (cbc_run ctx M k)) in *.
  unfold DecryptUpdate, EVP_CIPHER_CTX_test_no_padding, EVP_CIPHER_CTX_block_size.
  rewrite Hpad, Hbl, HU.
  destruct (Z.leb_spec (GetSize inp) 0) as [|_]; [lia|].
  cbn [Z.eqb]. change (16 >? 1) with true. cbn [andb].
  rewrite Hb1.
  fold (retained h).
  destruct (Z.eqb_spec r 0) as [->|Hr0].
  - (* whole blocks: the last one is retained *)
    assert (Hk : (0 < k)%nat).
    { unfold M, GetSize in *. rewrite length_app, length_firstn in Hlen. lia. }
    assert (Hout : Z.to_nat (GetSize plain - 16) = (16 * (k - 1))%nat)
      by (unfold GetSize; lia).
    rewrite Hout.
    do 2 eexists. split; [reflexivity|].
    cbn [buf_len buf final_buf final_used Z.b2z].
    split; [|auto].
    unfold retained at 2. cbn [final_used final_buf Z.eqb].
    change 16%nat with (Z.to_nat 16) at 2.
    rewrite memcpy_0_firstn
      by (unfold GetSize; rewrite ?length_skipn; lia).
    change (Z.to_nat 16) with 16%nat.
    rewrite (firstn_all2 (skipn (16 * (k - 1)) plain)) by (rewrite length_skipn; lia).
    rewrite <- app_assoc, firstn_skipn. reflexivity.
  - do 2 eexists. split; [reflexivity|].
    cbn [buf_len buf final_buf final_used Z.b2z].
    split; [|auto].
    unfold retained at 2. cbn [final_used Z.eqb]. rewrite app_nil_r. reflexivity.
Qed.

Lemma DecryptUpdate_calls_staged (inputs : list (list byte)) :
  forall (h : H235CryptoHelper) (ctx : EVP_CIPHER_CTX) (k : nat) (r : Z),
  block_size (cipher ctx) = 16 ->
  cipher_mode (cipher ctx) = EVP_CIPH_CBC_MODE ->
  no_padding ctx = false -> length (ctx_iv ctx) = 16%nat ->
  0 <= buf_len h < 16 -> 16 <= GetSize (buf h) ->
  GetSize (firstn (Z.to_nat (buf_len h)) (buf h) ++ concat inputs)
  = 16 * Z.of_nat k + r ->
  0 <= r < 16 ->
  exists out h',
    DecryptUpdate_calls h ctx inputs
    = Some (out, h',
            set_ctx_iv ctx
              (snd (cbc_run ctx
                      (firstn (Z.to_nat (buf_len h)) (buf h) ++ concat inputs) k)))
    /\ retained h
         ++ fst (cbc_run ctx
                   (firstn (Z.to_nat (buf_len h)) (buf h) ++ concat inputs) k)
       = out ++ retained h'
    /\ buf_len h' = r
    /\ firstn (Z.to_nat r) (buf h')
       = skipn (16 * k) (firstn (Z.to_nat (buf_len h)) (buf h) ++ concat inputs)
    /\ (GetSize (concat inputs) = 0 -> final_used h' = final_used h)
    /\ (0 < GetSize (concat inputs) -> final_used h' = Z.b2z (r =? 0)).
Proof.
  induction inputs as [|inp rest IH];
    intros h ctx k r Hbl Hmode Hpad Hiv Hi Hbuf Hlen Hr.
  - cbn [concat DecryptUpdate_calls] in *. rewrite app_nil_r in *.
    assert (HS : length (firstn (Z.to_nat (buf_len h)) (buf h)) = Z.to_nat (buf_len h))
      by (rewrite length_firstn; unfold GetSize in Hbuf; lia).
    unfold GetSize in Hlen. rewrite HS in Hlen.
    assert (k = 0%nat) as -> by lia.
    rewrite cbc_run_0. cbn [fst snd].
    rewrite set_ctx_iv_same, Nat.mul_0_r, skipn_O, app_nil_r.
    exists [], h. split; [reflexivity|]. split; [reflexivity|]. split; [lia|].
    replace r with (buf_len h) by lia.
    split; [reflexivity|]. split; [reflexivity|].
    unfold GetSize. cbn [length]. lia.
  - cbn [concat DecryptUpdate_calls].
    set (S0 := firstn (Z.to_nat (buf_len h)) (buf h)) in *.
    cbn [concat] in Hlen.
    destruct (Z.le_gt_cases (GetSize inp) 0) as [Hz|Hpos].
    + (* an empty piece changes nothing *)
      assert (Hnil : inp = [])
        by (destruct inp; [reflexivity|unfold GetSize in Hz; cbn in Hz; lia]).
      subst inp. cbn [app] in *.
      unfold DecryptUpdate at 1. cbn [GetSize length Z.of_nat Z.leb Z.compare
                                      Z.eqb Z.b2z].
      destruct (IH h ctx k r Hbl Hmode Hpad Hiv Hi Hbuf Hlen Hr)
        as (out & h' & HC & Heq & Hb & Hst & Hf0 & Hf1).
      fold S0 in HC, Heq, Hst. rewrite HC.
      exists out, h'. cbn [app]. auto 10.
    + destruct (split_length (S0 ++ inp)) as (k1 & r1 & Hlen1 & Hr1 & _ & _).
      destruct (DecryptUpdate_staged h ctx inp k1 r1 Hbl Hmode Hpad Hiv Hi Hbuf
                  Hpos Hlen1 Hr1)
        as (out1 & h1 & HU & Heq1 & Hb1 & Hst1 & Hsz1 & Hfu1).
      fold S0 in HU, Heq1, Hst1. rewrite HU. cbn [Z.eqb].
      set (ctx1 := set_ctx_iv ctx (snd (cbc_run ctx (S0 ++ inp) k1))) in *.
      assert (Hk : (k1 <= k)%nat).
      { unfold GetSize in *. rewrite !length_app in *. nia. }
      assert (Hlen2 : GetSize (firstn (Z.to_nat (buf_len h1)) (buf h1) ++ concat rest)
                      = 16 * Z.of_nat (k - k1) + r).
      { rewrite Hb1, Hst1. unfold GetSize in *.
        rewrite !length_app, length_skipn, !length_app in *. lia. }
      assert (Hiv1 : length (ctx_iv ctx1) = 16%nat).
      { unfold ctx1. cbn [set_ctx_iv ctx_iv]. apply cbc_run_iv_length;
          [exact Hiv|unfold GetSize in Hlen1; lia]. }
      destruct (IH h1 ctx1 (k - k1)%nat r Hbl Hmode Hpad Hiv1
                  ltac:(lia) ltac:(lia) Hlen2 Hr)
        as (out2 & h2 & HC & Heq2 & Hb2 & Hst2 & Hf0 & Hf1).
      rewrite Hb1, Hst1 in HC, Heq2, Hst2. rewrite HC.
      assert (Hsk : skipn (16 * k1) (S0 ++ inp ++ concat rest)
                    = skipn (16 * k1) (S0 ++ inp) ++ concat rest).
      { rewrite app_assoc, skipn_app.
        replace (16 * k1 - length (S0 ++ inp))%nat with 0%nat
          by (unfold GetSize in Hlen1; lia).
        rewrite skipn_O. reflexivity. }
      assert (Hrun : cbc_run ctx (S0 ++ inp ++ concat rest) k1
                     = cbc_run ctx (S0 ++ inp) k1).
      { apply cbc_run_ext. rewrite app_assoc, firstn_app.
        replace (16 * k1 - length (S0 ++ inp))%nat with 0%nat
          by (unfold GetSize in Hlen1; lia).
        rewrite firstn_O. apply app_nil_r. }
      pose proof (cbc_run_plus ctx (S0 ++ inp ++ concat rest) k1 (k - k1)) as Hp.
      replace (k1 + (k - k1))%nat with k in Hp by lia.
      rewrite Hp, Hrun, Hsk. fold ctx1. cbn [fst snd].
      exists (out1 ++ out2), h2. split; [reflexivity|].
      split.
      { rewrite app_assoc, Heq1, <- !app_assoc, Heq2. reflexivity. }
      split; [exact Hb2|].
      split; [rewrite Hst2, <- Hsk, skipn_skipn; f_equal; lia|].
      split.
      { intros H0. unfold GetSize in *. rewrite length_app in H0. lia. }
      intros _.
      destruct (Z.le_gt_cases (GetSize (concat rest)) 0) as [Hrz|Hrp].
      * pose proof (GetSize_nonneg (concat rest)).
        rewrite Hf0, Hfu1 by lia.
        assert (Hrr : r = r1).
        { unfold GetSize in *. rewrite !length_app in *. lia. }
        rewrite Hrr. reflexivity.
      * apply Hf1. exact Hrp.
Qed.

(** X14 -- However a stream is cut into calls of [DecryptUpdate] with
    padding on, every call succeeds; the bytes put out, followed by the
    block the helper retains if it retains one, are the deciphered whole
    blocks of the stream. A block is retained exactly when the stream so far
    is a positive whole number of blocks, so the last block is never put out
    before the final has seen it. *)
Theorem DecryptUpdate_any_chunking (h0 : H235CryptoHelper) (ctx : EVP_CIPHER_CTX)
    (inputs : list (list byte)) :
  block_size (cipher ctx) = 16 ->
  cipher_mode (cipher ctx) = EVP_CIPH_CBC_MODE ->
  no_padding ctx = false -> length (ctx_iv ctx) = 16%nat ->
  16 <= GetSize (buf h0) ->
  exists out h ctx',
    DecryptUpdate_calls (Reset h0) ctx inputs = Some (out, h, ctx')
    /\ out ++ retained h
       = fst (cbc_run ctx (concat inputs) (Z.to_nat (GetSize (concat inputs) / 16)))
    /\ final_used h
       = Z.b2z ((GetSize (concat inputs) mod 16 =? 0) && (0 <? GetSize (concat inputs)))
    /\ buf_len h = GetSize (concat inputs) mod 16
    /\ firstn (Z.to_nat (buf_len h)) (buf h)
       = skipn (16 * Z.to_nat (GetSize (concat inputs) / 16)) (concat inputs).
Proof.
  intros Hbl Hmode Hpad Hiv Hbuf.
  destruct (split_length (concat inputs)) as (k & r & Hlen & Hr & Hk & Hmod).
  destruct (DecryptUpdate_calls_staged inputs (Reset h0) ctx k r Hbl Hmode Hpad Hiv)
    as (out & h & HC & Heq & Hb & Hst & Hf0 & Hf1);
    cbn [Reset buf_len buf]; try lia; try assumption.
  cbn [Reset buf_len buf firstn Z.to_nat app retained final_used Z.eqb]
    in HC, Heq, Hst, Hf0, Hf1.
  unfold retained at 1 in Heq. cbn [Reset final_used Z.eqb app] in Heq.
  exists out, h, (set_ctx_iv ctx (snd (cbc_run ctx (concat inputs) k))).
  rewrite <- Hk, <- Hmod, Hb.
  split; [exact HC|]. split; [symmetry; exact Heq|].
  split; [|auto].
  pose proof (GetSize_nonneg (concat inputs)).
  destruct (Z.ltb_spec 0 (GetSize (concat inputs))) as [Hp|Hz].
  - rewrite andb_true_r. apply Hf1. exact Hp.
  - rewrite andb_false_r. apply Hf0. lia.
Qed.

(** ** The IV builder for any length *)

Lemma SetIV_loop_tiles (cnt : nat) :
  forall (i : nat) (iv s : list byte),
  (6 <= length s)%nat -> (6 * (i + cnt) <= length iv)%nat ->
  SetIV_loop cnt (Z.of_nat i) iv s
  = firstn (6 * i) iv ++ concat (repeat (firstn 6 s) cnt)
      ++ skipn (6 * (i + cnt)) iv.
Proof.
  induction cnt as [|cnt IH]; intros i iv s Hs Hiv.
  - cbn [SetIV_loop repeat concat app]. rewrite Nat.add_0_r.
    symmetry. apply firstn_skipn.
  - cbn [SetIV_loop repeat concat].
    replace (Z.of_nat i + 1) with (Z.of_nat (S i)) by lia.
    set (iv1 := memcpy iv (Z.of_nat i * IV_SEQUENCE_LEN) s IV_SEQUENCE_LEN).
    assert (Hiv1 : iv1 = firstn (6 * i) iv ++ firstn 6 s ++ skipn (6 * S i) iv).
    { unfold iv1, memcpy, IV_SEQUENCE_LEN. do 2 f_equal; [f_equal; lia|].
      f_equal. f_equal. lia. }
    assert (Hlen1 : length iv1 = length iv).
    { rewrite Hiv1, !length_app, !length_firstn, length_skipn. lia. }
    rewrite IH by (rewrite ?Hlen1; lia).
    assert (Hh : firstn (6 * S i) iv1 = firstn (6 * i) iv ++ firstn 6 s).
    { rewrite Hiv1, app_assoc. apply firstn_app_exact.
      rewrite length_app, !length_firstn. lia. }
    assert (Ht : skipn (6 * (S i + cnt)) iv1 = skipn (6 * (i + S cnt)) iv).
    { rewrite Hiv1, app_assoc, skipn_app, length_app, !length_firstn.
      rewrite skipn_all2 by (rewrite length_app, !length_firstn; lia).
      cbn [app]. rewrite skipn_skipn. f_equal. lia. }
    rewrite Hh, Ht, <- !app_assoc. reflexivity.
Qed.

(** X15 -- [SetIV] for every length that fits the array: the first [ivLen]
    bytes are the six seed bytes repeated, cut off at [ivLen], or zeros when
    there is no seed; the bytes of the array beyond [ivLen] are left as they
    were and the array keeps its size. *)
Theorem SetIV_any_length (iv s : list byte) (ivLen : Z) :
  0 <= ivLen <= GetSize iv -> IV_SEQUENCE_LEN <= GetSize s ->
  SetIV iv (Some s) ivLen
  = concat (repeat (firstn 6 s) (Z.to_nat (ivLen / 6)))
      ++ firstn (Z.to_nat (ivLen mod 6)) s ++ skipn (Z.to_nat ivLen) iv
  /\ SetIV iv None ivLen = repeat x00 (Z.to_nat ivLen) ++ skipn (Z.to_nat ivLen) iv
  /\ GetSize (SetIV iv (Some s) ivLen) = GetSize iv
  /\ GetSize (SetIV iv None ivLen) = GetSize iv.
Proof.
  unfold IV_SEQUENCE_LEN, GetSize. intros Hn Hs.
  pose proof (Z.div_mod ivLen 6 ltac:(lia)) as Hdm.
  pose proof (Z.mod_pos_bound ivLen 6 ltac:(lia)) as Hmb.
  assert (Hq : 0 <= ivLen / 6) by (apply Z.div_pos; lia).
  set (q := Z.to_nat (ivLen / 6)) in *.
  set (m := Z.to_nat (ivLen mod 6)) in *.
  assert (Hnat : Z.to_nat ivLen = (6 * q + m)%nat) by (unfold q, m; lia).
  assert (Htiles : length (concat (repeat (firstn 6 s) q)) = (6 * q)%nat).
  { clear -Hs. induction q as [|q IH]; [reflexivity|].
    cbn [repeat concat]. rewrite length_app, IH, length_firstn. lia. }
  assert (Hseed : SetIV iv (Some s) ivLen
                  = concat (repeat (firstn 6 s) q) ++ firstn m s
                      ++ skipn (Z.to_nat ivLen) iv).
  { unfold SetIV, IV_SEQUENCE_LEN. fold q.
    pose proof (SetIV_loop_tiles q 0 iv s ltac:(lia) ltac:(lia)) as Hloop.
    change (Z.of_nat 0) with 0 in Hloop.
    rewrite Nat.mul_0_r, Nat.add_0_l, firstn_O in Hloop.
    cbn [app] in Hloop. rewrite Hloop.
    destruct (Z.gtb_spec (ivLen mod 6) 0) as [Hm|Hm].
    - unfold memcpy.
      replace (Z.to_nat (ivLen - ivLen mod 6)) with (6 * q)%nat by (unfold q; lia).
      replace (Z.to_nat (ivLen - ivLen mod 6 + ivLen mod 6)) with (6 * q + m)%nat
        by (unfold q, m; lia).
      fold m.
      rewrite (firstn_app_exact _ _ _ Htiles).
      rewrite skipn_app, Htiles, skipn_all2 by lia.
      cbn [app]. rewrite skipn_skipn, Hnat. do 3 f_equal. lia.
    - assert (m = 0%nat) as Hm0 by (unfold m; lia).
      rewrite Hm0, firstn_O, Hnat, Hm0, Nat.add_0_r. reflexivity. }
  assert (Hnull : SetIV iv None ivLen
                  = repeat x00 (Z.to_nat ivLen) ++ skipn (Z.to_nat ivLen) iv)
    by reflexivity.
  split; [exact Hseed|]. split; [exact Hnull|].
  rewrite Hseed, Hnull.
  rewrite !length_app, Htiles, length_firstn, repeat_length, length_skipn.
  split; lia.
Qed.

(** ** No packet takes the engine out of service *)

(** Splits the pairs and conditions a packet operation branches on until
    its result shows. *)
Ltac show_result :=
  repeat match goal with
         | |- context [match ?t with pair _ _ => _ end] => destruct t
         | |- context [if ?c then _ else _] => destruct c
         end;
  eexists; reflexivity.

(** X10 -- On a serving engine each of the four packet operations returns,
    whatever the data, the length passed in, the seed and the flag, and
    leaves the engine serving under the same key. *)
Theorem packet_operations_keep_serving (e : H235CryptoEngine) (data : list byte)
    (inLength : Z) (ivSequence : option (list byte)) (pad : bool) :
  engine_ready e = true -> seed_ok ivSequence = true ->
  (exists out e' pad',
     Encrypt e data ivSequence pad = Some (out, e', pad')
     /\ engine_ready e' = true /\ engine_key e' = engine_key e)
  /\ (exists out e' pad',
        Decrypt e data ivSequence pad = Some (out, e', pad')
        /\ engine_ready e' = true /\ engine_key e' = engine_key e)
  /\ (exists n out e' pad',
        EncryptInPlace e data inLength ivSequence pad = Some (n, out, e', pad')
        /\ engine_ready e' = true /\ engine_key e' = engine_key e)
  /\ (exists n out e' pad',
        DecryptInPlace e data inLength ivSequence pad = Some (n, out, e', pad')
        /\ engine_ready e' = true /\ engine_key e' = engine_key e).
Proof.
  intros He Hs.
  destruct (engine_ready_preserved e data inLength ivSequence pad He Hs)
    as (HE & HD & HEI & HDI).
  pose proof (engine_ready_inv e He)
    as (Hinit & (ectx & dctx & Hectx & Hdctx & _) & Heb & _ & Hdb & _ & _).
  assert (HxE : exists x, Encrypt e data ivSequence pad = Some x).
  { unfold Encrypt. rewrite Hinit, Hectx, Heb. cbn [negb Z.eqb]. show_result. }
  assert (HxD : exists x, Decrypt e data ivSequence pad = Some x).
  { unfold Decrypt. rewrite Hinit, Hdctx, Hdb. cbn [negb Z.eqb].
    rewrite andb_false_r. show_result. }
  assert (HxEI : exists x, EncryptInPlace e data inLength ivSequence pad = Some x).
  { unfold EncryptInPlace. rewrite Hinit, Hectx, Heb. cbn [negb Z.eqb].
    show_result. }
  assert (HxDI : exists x, DecryptInPlace e data inLength ivSequence pad = Some x).
  { unfold DecryptInPlace. rewrite Hdctx, Hdb. cbn [negb Z.eqb].
    rewrite andb_false_r. show_result. }
  destruct HxE as ([[out1 e1] p1] & H1). destruct HxD as ([[out2 e2] p2] & H2).
  destruct HxEI as ([[[n3 out3] e3] p3] & H3).
  destruct HxDI as ([[[n4 out4] e4] p4] & H4).
  split; [|split; [|split]].
  - exists out1, e1, p1. split; [exact H1|exact (HE _ _ _ H1)].
  - exists out2, e2, p2. split; [exact H2|exact (HD _ _ _ H2)].
  - exists n3, out3, e3, p3. split; [exact H3|exact (HEI _ _ _ _ H3)].
  - exists n4, out4, e4, p4. split; [exact H4|exact (HDI _ _ _ _ H4)].
Qed.

End H235.

(** ** Instances: the engine over the reference cipher *)

Lemma block16_length (l : list byte) : length (block16 l) = 16%nat.
Proof.
  unfold block16. rewrite length_firstn, length_app, repeat_length. lia.
Qed.

Lemma block16_id (l : list byte) : length l = 16%nat -> block16 l = l.
Proof.
  intros H. unfold block16. rewrite firstn_app, H.
  change (16 - 16)%nat with 0%nat. rewrite firstn_O, app_nil_r.
  apply firstn_all2. lia.
Qed.

Lemma xor_cipher_length (key blk : list byte) : length (xor_cipher key blk) = 16%nat.
Proof.
  unfold xor_cipher. rewrite xor_bytes_length, !block16_length. reflexivity.
Qed.

Lemma xor_cipher_involutive (key blk : list byte) :
  length blk = 16%nat -> xor_cipher key (xor_cipher key blk) = blk.
Proof.
  intros H. unfold xor_cipher at 1.
  rewrite (block16_id (xor_cipher key blk)) by apply xor_cipher_length.
  unfold xor_cipher. rewrite (block16_id blk H).
  apply xor_bytes_involutive. rewrite H, block16_length. lia.
Qed.

(** The engine for AES-128 after [SetKey(demo_key)], the longer keys
    compiled in. *)
Abbreviation demo_engine :=
  (SetKey OID_aes128_cbc OID_aes192_cbc OID_aes256_cbc true
     (H235CryptoEngine_new OID_aes128_cbc) demo_key).

(** An engine constructed for an algorithm outside the supported set. *)
Abbreviation des_engine := (H235CryptoEngine_new OID_des_cbc).

(** An engine constructed for AES-192. *)
Abbreviation aes192_engine := (H235CryptoEngine_new OID_aes192_cbc).

Lemma Decrypt_Encrypt_roundtrip_witness :
  engine_ready demo_engine = true /\ seed_ok (Some demo_seed) = true
  /\ exists C e1 pad1 e2,
       Encrypt xor_cipher xor_cipher true demo_engine demo_ABCD (Some demo_seed) false
       = Some (C, e1, pad1)
       /\ Decrypt xor_cipher xor_cipher true e1 C (Some demo_seed) pad1
          = Some (demo_ABCD, e2, false).
Proof.
  split; [reflexivity|]. split; [reflexivity|].
  apply (Decrypt_Encrypt_roundtrip xor_cipher xor_cipher true
           xor_cipher_length xor_cipher_length xor_cipher_involutive);
    reflexivity.
Defined.

Lemma Encrypt_padding_policy_witness :
  engine_ready demo_engine = true /\ seed_ok (Some demo_seed) = true
  /\ exists C e1,
       Encrypt xor_cipher xor_cipher true demo_engine (repeat xaa 17) (Some demo_seed) false
       = Some (C, e1, true)
       /\ GetSize C = 32.
Proof.
  split; [reflexivity|]. split; [reflexivity|].
  destruct (Encrypt_padding_policy xor_cipher xor_cipher true xor_cipher_length
              demo_engine (repeat xaa 17) (Some demo_seed) false
              eq_refl eq_refl) as (C & e1 & HE & _ & Hlen).
  exists C, e1. split; [exact HE|].
  apply Hlen. vm_compute. discriminate.
Defined.

Lemma DecryptFinalRelaxed_last_byte_only_witness :
  no_padding demo_decrypt_ctx = false /\ 1 < block_size (cipher demo_decrypt_ctx)
  /\ buf_len demo_malformed_helper = 0 /\ final_used demo_malformed_helper <> 0
  /\ DecryptFinalRelaxed demo_malformed_helper demo_decrypt_ctx
     = (1, firstn 11 demo_malformed_block).
Proof.
  split; [reflexivity|]. split; [reflexivity|]. split; [reflexivity|].
  split; [discriminate|].
  assert (Hused : final_used demo_malformed_helper <> 0) by discriminate.
  apply (proj1 (proj2 (DecryptFinalRelaxed_last_byte_only
                         demo_malformed_helper demo_decrypt_ctx
                         eq_refl eq_refl eq_refl Hused))).
  vm_compute. split; [reflexivity|discriminate].
Defined.

Lemma SetIV_tiles_seed_witness :
  length (repeat xff 16) = 16%nat /\ length demo_seed = 6%nat
  /\ SetIV (repeat xff 16) (Some (demo_seed ++ [xaa; xbb])) 16
     = demo_seed ++ demo_seed ++ firstn 4 demo_seed
  /\ SetIV (repeat xff 16) None 16 = repeat x00 16.
Proof.
  split; [reflexivity|]. split; [reflexivity|].
  apply (SetIV_tiles_seed (repeat xff 16) demo_seed [xaa; xbb]); reflexivity.
Defined.

Lemma unsupported_oid_engine_inert_witness :
  select_cipher OID_aes128_cbc OID_aes192_cbc OID_aes256_cbc true
    (m_algorithmOID des_engine) = None
  /\ m_initialised des_engine = false
  /\ Encrypt xor_cipher xor_cipher true
       (SetKey OID_aes128_cbc OID_aes192_cbc OID_aes256_cbc true des_engine demo_key)
       demo_ABCD (Some demo_seed) true
     = Some ([], SetKey OID_aes128_cbc OID_aes192_cbc OID_aes256_cbc true
                   des_engine demo_key, true)
  /\ EncryptInPlace xor_cipher xor_cipher true
       (SetKey OID_aes128_cbc OID_aes192_cbc OID_aes256_cbc true des_engine demo_key)
       demo_ABCD 4 (Some demo_seed) true
     = Some (4, repeat x00 4,
             SetKey OID_aes128_cbc OID_aes192_cbc OID_aes256_cbc true
               des_engine demo_key, true).
Proof.
  split; [reflexivity|]. split; [reflexivity|].
  destruct (unsupported_oid_engine_inert xor_cipher xor_cipher true
              OID_aes128_cbc OID_aes192_cbc OID_aes256_cbc true
              des_engine demo_key demo_ABCD 4 (Some demo_seed) true
              eq_refl eq_refl) as (_ & _ & HE & _ & HI).
  split; [exact HE|exact HI].
Defined.

(** On the uninitialised engine [EncryptInPlace] does not return zero: it
    returns the input length. *)
Lemma EncryptInPlace_uninitialised_counterexample :
  m_initialised
    (SetKey OID_aes128_cbc OID_aes192_cbc OID_aes256_cbc true des_engine demo_key)
  = false
  /\ exists n out e' pad',
       EncryptInPlace xor_cipher xor_cipher true
         (SetKey OID_aes128_cbc OID_aes192_cbc OID_aes256_cbc true des_engine demo_key)
         demo_ABCD 4 (Some demo_seed) false
       = Some (n, out, e', pad')
       /\ n <> 0.
Proof.
  split; [reflexivity|].
  exists 4, (repeat x00 4), des_engine, false.
  split; [reflexivity|discriminate].
Qed.

Lemma GenerateRandomKey_oid_size_witness :
  OID_aes256_cbc <> OID_aes128_cbc
  /\ m_algorithmOID aes192_engine = OID_aes192_cbc
  /\ GetSize (fst (GenerateRandomKey_oid OID_aes128_cbc OID_aes192_cbc
                     OID_aes256_cbc true aes192_engine OID_aes256_cbc
                     (fun _ => x2a)))
     = 24.
Proof.
  assert (Hne : OID_aes256_cbc <> OID_aes128_cbc) by discriminate.
  split; [exact Hne|]. split; [reflexivity|].
  apply (proj1 (proj2 (GenerateRandomKey_oid_size OID_aes128_cbc OID_aes192_cbc
                         OID_aes256_cbc true aes192_engine OID_aes256_cbc
                         (fun _ => x2a))));
    [exact Hne|reflexivity|reflexivity].
Defined.

(** The ciphertext of sixteen zero bytes under [demo_engine] and
    [demo_seed]: deciphered, its last byte is 0. *)
Lemma relaxed_final_failure_results_witness :
  let C := [x10; x10; x10; x10; x10; x10; x16; x16; x1a; x1a; x1e; x1e;
            x1c; x1c; x1c; x1c] in
  engine_ready demo_engine = true /\ seed_ok (Some demo_seed) = true
  /\ GetSize C = 16 * Z.of_nat 1
  /\ byte_to_Z (nth 15 (deciphered xor_cipher demo_engine (Some demo_seed) C) x00) = 0
  /\ (exists e1, DecryptInPlace xor_cipher xor_cipher true demo_engine C (GetSize C)
                   (Some demo_seed) true = Some (0, [], e1, true))
  /\ (exists e2, Decrypt xor_cipher xor_cipher true demo_engine C (Some demo_seed) true
                 = Some ([], e2, false)).
Proof.
  intros C.
  split; [reflexivity|]. split; [reflexivity|]. split; [reflexivity|].
  split; [reflexivity|].
  assert (Hk : (0 < 1)%nat) by lia.
  destruct (relaxed_final_failure_results xor_cipher xor_cipher true
              xor_cipher_length xor_cipher_length
              demo_engine C (Some demo_seed) 1 eq_refl eq_refl eq_refl Hk
              (or_introl eq_refl)) as (_ & H1 & H2).
  split; [exact H1|exact H2].
Defined.



Lemma padded_decrypt_needs_whole_blocks_witness :
  engine_ready demo_engine = true /\ seed_ok (Some demo_seed) = true
  /\ GetSize (repeat xaa 17) = 16 * Z.of_nat 1 + 1
  /\ (exists e1, DecryptInPlace xor_cipher xor_cipher true demo_engine (repeat xaa 17)
                   (GetSize (repeat xaa 17)) (Some demo_seed) true
                 = Some (0, [], e1, true))
  /\ (exists e2, Decrypt xor_cipher xor_cipher true demo_engine (repeat xaa 17)
                   (Some demo_seed) true
                 = Some (deciphered xor_cipher demo_engine (Some demo_seed)
                           (repeat xaa 17), e2, false))
  /\ GetSize (deciphered xor_cipher demo_engine (Some demo_seed) (repeat xaa 17)) = 16.
Proof.
  split; [reflexivity|]. split; [reflexivity|]. split; [reflexivity|].
  assert (Hr : 0 <= 1 < 16) by lia.
  assert (Hcase : 1 <> 0 \/ 1%nat = 0%nat) by (left; discriminate).
  destruct (padded_decrypt_needs_whole_blocks xor_cipher xor_cipher true
              xor_cipher_length xor_cipher_length
              demo_engine (repeat xaa 17) (Some demo_seed) 1 1
              eq_refl eq_refl eq_refl Hr Hcase) as (_ & H1 & H2 & H3).
  split; [exact H1|]. split; [exact H2|exact H3].
Defined.

(** Seventeen bytes with the padding flag set: [Decrypt] returns the
    sixteen bytes of the first block, not an empty buffer. *)
Lemma Decrypt_padded_unaligned_counterexample :
  engine_ready demo_engine = true
  /\ exists out e' pad',
       Decrypt xor_cipher xor_cipher true demo_engine (repeat xaa 17) (Some demo_seed) true
       = Some (out, e', pad')
       /\ GetSize out = 16 /\ out <> [].
Proof.
  split; [reflexivity|].
  do 3 eexists. split; [vm_compute; reflexivity|].
  split; [reflexivity|discriminate].
Qed.

Lemma CreateSession_once_witness :
  let fresh := H235Session_new OID_aes128_cbc OID_aes192_cbc OID_aes256_cbc true
                 (list byte) (repeat x07 128) OID_aes128_cbc in
  m_isInitialised (list byte) fresh = false
  /\ exists s' rand',
       CreateSession OID_aes128_cbc OID_aes192_cbc OID_aes256_cbc true
         (list byte) (fun dh => dh) fresh true (fun _ => x2a)
       = (true, s', rand')
       /\ m_isInitialised (list byte) s' = true
       /\ CreateSession OID_aes128_cbc OID_aes192_cbc OID_aes256_cbc true
            (list byte) (fun dh => dh) s' false (fun _ => x2a)
          = (false, s', fun _ => x2a).
Proof.
  intros fresh. split; [reflexivity|].
  destruct (proj2 (CreateSession_once OID_aes128_cbc OID_aes192_cbc OID_aes256_cbc
                     true (list byte) (fun dh => dh) fresh true (fun _ => x2a))
              eq_refl) as (s' & rand' & Hc & Hi).
  exists s', rand'. split; [exact Hc|]. split; [exact Hi|].
  exact (proj1 (CreateSession_once OID_aes128_cbc OID_aes192_cbc OID_aes256_cbc
                  true (list byte) (fun dh => dh) s' false (fun _ => x2a)) Hi).
Defined.

(** ** Instances: sender and receiver, keys, sessions and frames *)

(** Sessions over a shared secret of 128 bytes, the Diffie-Hellman object
    standing for its secret. *)
Abbreviation demo_session oid :=
  (H235Session_new OID_aes128_cbc OID_aes192_cbc OID_aes256_cbc true
     (list byte) (repeat x07 128) oid).

Abbreviation demo_created oid isMaster :=
  (snd (fst (CreateSession OID_aes128_cbc OID_aes192_cbc OID_aes256_cbc true
               (list byte) (fun dh => dh) (demo_session oid) isMaster
               (fun i => Byte.x2a)))).

Lemma Decrypt_peer_roundtrip_witness :
  engine_ready demo_engine = true /\ seed_ok (Some demo_seed) = true
  /\ exists C sender' pad1 receiver',
       Encrypt xor_cipher xor_cipher true demo_engine demo_twenty (Some demo_seed) false
       = Some (C, sender', pad1)
       /\ Decrypt xor_cipher xor_cipher true demo_engine C (Some demo_seed) pad1
          = Some (demo_twenty, receiver', false).
Proof.
  split; [reflexivity|]. split; [reflexivity|].
  destruct (Decrypt_peer_roundtrip xor_cipher xor_cipher true
              xor_cipher_length xor_cipher_length xor_cipher_involutive
              demo_engine demo_engine demo_twenty (Some demo_seed) false
              eq_refl eq_refl eq_refl eq_refl)
    as (C & s' & p & r' & HE & HD & _).
  exists C, s', p, r'. split; [exact HE|exact HD].
Defined.

Lemma EncryptInPlace_agrees_with_Encrypt_witness :
  engine_ready demo_engine = true /\ seed_ok (Some demo_seed) = true
  /\ exists C e1 e2 flag,
       Encrypt xor_cipher xor_cipher true demo_engine demo_twenty (Some demo_seed) false
       = Some (C, e1, flag)
       /\ EncryptInPlace xor_cipher xor_cipher true demo_engine demo_twenty
            (GetSize demo_twenty) (Some demo_seed) true
          = Some (GetSize C, C, e2, flag)
       /\ GetSize demo_twenty <= GetSize C <= GetSize demo_twenty + 15.
Proof.
  split; [reflexivity|]. split; [reflexivity|].
  apply (EncryptInPlace_agrees_with_Encrypt xor_cipher xor_cipher true xor_cipher_length
           demo_engine demo_twenty (Some demo_seed) false true);
    reflexivity.
Defined.

Lemma DecryptInPlace_EncryptInPlace_roundtrip_witness :
  engine_ready demo_engine = true /\ seed_ok (Some demo_seed) = true
  /\ exists n C sender' pad1 receiver',
       EncryptInPlace xor_cipher xor_cipher true demo_engine demo_twenty
         (GetSize demo_twenty) (Some demo_seed) false
       = Some (n, C, sender', pad1)
       /\ n = GetSize C
       /\ DecryptInPlace xor_cipher xor_cipher true demo_engine C n (Some demo_seed) pad1
          = Some (GetSize demo_twenty, demo_twenty, receiver', false).
Proof.
  split; [reflexivity|]. split; [reflexivity|].
  apply (DecryptInPlace_EncryptInPlace_roundtrip xor_cipher xor_cipher true
           xor_cipher_length xor_cipher_length xor_cipher_involutive
           demo_engine demo_engine demo_twenty (Some demo_seed) false);
    reflexivity.
Defined.

Lemma Encrypt_depends_on_key_seed_plaintext_witness :
  engine_ready demo_engine = true /\ seed_ok (Some demo_seed) = true
  /\ exists C a' b' a'' flag,
       Encrypt xor_cipher xor_cipher true demo_engine demo_twenty (Some demo_seed) false
       = Some (C, a', flag)
       /\ Encrypt xor_cipher xor_cipher true demo_engine demo_twenty (Some demo_seed) true
          = Some (C, b', flag)
       /\ Encrypt xor_cipher xor_cipher true a' demo_twenty (Some demo_seed) flag
          = Some (C, a'', flag).
Proof.
  split; [reflexivity|]. split; [reflexivity|].
  apply (Encrypt_depends_on_key_seed_plaintext xor_cipher xor_cipher true
           demo_engine demo_engine demo_twenty (Some demo_seed) false true);
    reflexivity.
Defined.

Lemma padded_decrypt_strips_last_byte_count_witness :
  engine_ready demo_engine = true /\ seed_ok (Some demo_seed) = true
  /\ GetSize demo_padded_block = 16 * Z.of_nat 1
  /\ byte_to_Z (nth 15 (deciphered xor_cipher demo_engine (Some demo_seed)
                          demo_padded_block) x00) = 5
  /\ (exists e1, Decrypt xor_cipher xor_cipher true demo_engine demo_padded_block
                   (Some demo_seed) true
                 = Some (firstn 11 (deciphered xor_cipher demo_engine (Some demo_seed)
                                      demo_padded_block), e1, false))
  /\ (exists e2, DecryptInPlace xor_cipher xor_cipher true demo_engine demo_padded_block
                   (GetSize demo_padded_block) (Some demo_seed) true
                 = Some (GetSize demo_padded_block - 5,
                         firstn 11 (deciphered xor_cipher demo_engine (Some demo_seed)
                                      demo_padded_block), e2, false)).
Proof.
  split; [reflexivity|]. split; [reflexivity|]. split; [reflexivity|].
  split; [reflexivity|].
  assert (Hk : (0 < 1)%nat) by lia.
  assert (Hn : 0 < byte_to_Z (nth (16 * 1 - 1)
                                (deciphered xor_cipher demo_engine (Some demo_seed)
                                   demo_padded_block) x00) <= 16)
    by (vm_compute; split; [reflexivity|discriminate]).
  exact (padded_decrypt_strips_last_byte_count xor_cipher xor_cipher true
           xor_cipher_length xor_cipher_length
           demo_engine demo_padded_block (Some demo_seed) 1
           eq_refl eq_refl eq_refl Hk Hn).
Defined.

Lemma unpadded_decrypt_keeps_every_block_witness :
  engine_ready demo_engine = true /\ seed_ok (Some demo_seed) = true
  /\ GetSize demo_padded_block = 16 * Z.of_nat 1
  /\ GetSize (deciphered xor_cipher demo_engine (Some demo_seed) demo_padded_block)
     = GetSize demo_padded_block
  /\ (exists e1, Decrypt xor_cipher xor_cipher true demo_engine demo_padded_block
                   (Some demo_seed) false
                 = Some (deciphered xor_cipher demo_engine (Some demo_seed)
                           demo_padded_block, e1, false))
  /\ (exists e2, DecryptInPlace xor_cipher xor_cipher true demo_engine demo_padded_block
                   (GetSize demo_padded_block) (Some demo_seed) false
                 = Some (GetSize demo_padded_block,
                         deciphered xor_cipher demo_engine (Some demo_seed)
                           demo_padded_block, e2, false)).
Proof.
  split; [reflexivity|]. split; [reflexivity|]. split; [reflexivity|].
  exact (unpadded_decrypt_keeps_every_block xor_cipher xor_cipher true
           xor_cipher_length xor_cipher_length
           demo_engine demo_padded_block (Some demo_seed) 1
           eq_refl eq_refl eq_refl).
Defined.

Lemma unpadded_decrypt_below_one_block_witness :
  engine_ready demo_engine = true /\ seed_ok (Some demo_seed) = true
  /\ 0 < GetSize demo_ABCD < 16
  /\ (exists e1, Decrypt xor_cipher xor_cipher true demo_engine demo_ABCD
                   (Some demo_seed) false = Some ([], e1, false))
  /\ (exists e2, DecryptInPlace xor_cipher xor_cipher true demo_engine demo_ABCD
                   (GetSize demo_ABCD) (Some demo_seed) false
                 = Some (0, [], e2, false)).
Proof.
  assert (Hlen : 0 < GetSize demo_ABCD < 16) by (vm_compute; split; reflexivity).
  split; [reflexivity|]. split; [reflexivity|]. split; [exact Hlen|].
  exact (unpadded_decrypt_below_one_block xor_cipher xor_cipher true
           demo_engine demo_ABCD (Some demo_seed) eq_refl eq_refl Hlen).
Defined.


(** Forty bytes, [EVP_Cipher] reporting the number of bytes: [Decrypt]
    gives the packet back, [DecryptInPlace] returns 0. *)
Lemma Decrypt_undoes_stealing_witness :
  engine_ready demo_engine = true /\ seed_ok (Some demo_seed) = true
  /\ m_encryptCtx demo_engine = Some demo_encrypt_ctx
  /\ 16 < GetSize demo_forty /\ GetSize demo_forty mod 16 <> 0
  /\ exists c1 c2 he' ectx',
       encrypt_stages xor_cipher xor_cipher true (Reset H235CryptoHelper_new)
         (EVP_CIPHER_CTX_set_padding
            (EVP_CipherInit_ex_iv demo_encrypt_ctx (packet_iv (Some demo_seed))) false)
         false 16 demo_forty (GetSize demo_forty)
       = (c1, c2, he', ectx')
       /\ GetSize (c1 ++ c2) = GetSize demo_forty
       /\ (exists e1, Decrypt xor_cipher xor_cipher true demo_engine (c1 ++ c2)
                        (Some demo_seed) false
                      = Some (demo_forty, e1, false))
       /\ (exists e2, DecryptInPlace xor_cipher xor_cipher true demo_engine (c1 ++ c2)
                        (GetSize demo_forty) (Some demo_seed) false
                      = Some (0, [], e2, false)).
Proof.
  assert (Hmod : GetSize demo_forty mod 16 <> 0) by (vm_compute; discriminate).
  split; [reflexivity|]. split; [reflexivity|]. split; [reflexivity|].
  split; [reflexivity|]. split; [exact Hmod|].
  exact (Decrypt_undoes_stealing xor_cipher xor_cipher true
           xor_cipher_length xor_cipher_length xor_cipher_involutive
           demo_engine H235CryptoHelper_new demo_encrypt_ctx demo_forty
           (Some demo_seed) eq_refl eq_refl eq_refl eq_refl Hmod).
Defined.

Lemma Encrypt_seed_six_bytes_witness :
  engine_ready demo_engine = true
  /\ seed_ok (Some demo_seed) = true /\ seed_ok (Some (repeat x2a 6)) = true
  /\ 0 < GetSize demo_ABCD
  /\ firstn 6 demo_seed <> firstn 6 (repeat x2a 6)
  /\ exists C1 C2 e1 e2 flag,
       Encrypt xor_cipher xor_cipher true demo_engine demo_ABCD (Some demo_seed) false
       = Some (C1, e1, flag)
       /\ Encrypt xor_cipher xor_cipher true demo_engine demo_ABCD (Some (repeat x2a 6)) false
          = Some (C2, e2, flag)
       /\ firstn 16 C1 <> firstn 16 C2.
Proof.
  assert (Hne : firstn 6 demo_seed <> firstn 6 (repeat x2a 6))
    by (vm_compute; discriminate).
  split; [reflexivity|]. split; [reflexivity|]. split; [reflexivity|].
  split; [reflexivity|]. split; [exact Hne|].
  destruct (Encrypt_seed_six_bytes xor_cipher xor_cipher true
              xor_cipher_length xor_cipher_involutive
              demo_engine demo_ABCD demo_seed (repeat x2a 6) false
              eq_refl eq_refl eq_refl eq_refl)
    as (C1 & C2 & e1 & e2 & flag & H1 & H2 & _ & Hd).
  exists C1, C2, e1, e2, flag.
  split; [exact H1|]. split; [exact H2|]. exact (Hd Hne).
Defined.

Lemma GenerateRandomKey_installs_key_witness :
  select_cipher OID_aes128_cbc OID_aes192_cbc OID_aes256_cbc true
    (m_algorithmOID aes192_engine) = Some EVP_aes_192_cbc
  /\ GetSize (m_iv aes192_engine) = EVP_MAX_IV_LENGTH
  /\ (exists key e' rand',
        GenerateRandomKey OID_aes128_cbc OID_aes192_cbc OID_aes256_cbc true
          aes192_engine (fun _ => x2a) = (key, e', rand')
        /\ GetSize key = 24
        /\ engine_ready e' = true /\ engine_key e' = key)
  /\ GenerateRandomKey OID_aes128_cbc OID_aes192_cbc OID_aes256_cbc true
       des_engine (fun _ => x2a) = ([], des_engine, fun _ => x2a).
Proof.
  split; [reflexivity|]. split; [reflexivity|].
  split.
  - destruct (proj1 (GenerateRandomKey_installs_key OID_aes128_cbc OID_aes192_cbc
                       OID_aes256_cbc true aes192_engine (fun _ => x2a))
                EVP_aes_192_cbc eq_refl eq_refl)
      as (key & e' & rand' & HG & Hlen & _ & Hr & Hk).
    exists key, e', rand'. auto.
  - exact (proj2 (GenerateRandomKey_installs_key OID_aes128_cbc OID_aes192_cbc
                    OID_aes256_cbc true des_engine (fun _ => x2a)) eq_refl).
Defined.

Lemma CreateSession_derives_keys_witness :
  select_cipher OID_aes128_cbc OID_aes192_cbc OID_aes256_cbc true OID_aes192_cbc
  = Some EVP_aes_192_cbc
  /\ key_len EVP_aes_192_cbc <= GetSize (repeat x07 128)
  /\ exists s' rand',
       CreateSession OID_aes128_cbc OID_aes192_cbc OID_aes256_cbc true
         (list byte) (fun dh => dh) (demo_session OID_aes192_cbc) true (fun _ => x2a)
       = (true, s', rand')
       /\ engine_ready (m_dhcontext (list byte) s') = true
       /\ engine_key (m_dhcontext (list byte) s') = repeat x07 24
       /\ engine_ready (m_context (list byte) s') = true
       /\ engine_key (m_context (list byte) s') = m_crytoMasterKey (list byte) s'
       /\ GetSize (m_crytoMasterKey (list byte) s') = 24.
Proof.
  assert (Hlen : key_len EVP_aes_192_cbc <= GetSize (repeat x07 128))
    by (vm_compute; discriminate).
  split; [reflexivity|]. split; [exact Hlen|].
  destruct (CreateSession_derives_keys OID_aes128_cbc OID_aes192_cbc OID_aes256_cbc
              true (list byte) (fun dh => dh) (repeat x07 128) OID_aes192_cbc true
              (fun _ => x2a) EVP_aes_192_cbc eq_refl Hlen)
    as (s' & rand' & HC & _ & _ & Hrd & Hkd & Hm & _).
  destruct (Hm eq_refl) as (Hrm & Hkm & Hsz).
  exists s', rand'. split; [exact HC|]. split; [exact Hrd|].
  split; [rewrite Hkd; reflexivity|]. auto.
Defined.

Lemma DecodeMediaKey_EncodeMediaKey_witness :
  let master := demo_created OID_aes192_cbc true in
  let slave := demo_created OID_aes192_cbc false in
  engine_ready (m_dhcontext (list byte) master) = true
  /\ engine_ready (m_dhcontext (list byte) slave) = true
  /\ engine_key (m_dhcontext (list byte) slave)
     = engine_key (m_dhcontext (list byte) master)
  /\ m_isInitialised (list byte) slave = true
  /\ key_len EVP_aes_192_cbc <= GetSize (m_crytoMasterKey (list byte) master)
  /\ exists wrapped master' slave',
       EncodeMediaKey xor_cipher xor_cipher true (list byte) master = Some (wrapped, master')
       /\ GetSize wrapped = 32
       /\ DecodeMediaKey xor_cipher xor_cipher true OID_aes128_cbc OID_aes192_cbc
            OID_aes256_cbc true (list byte) slave wrapped
          = Some (true, slave')
       /\ m_crytoMasterKey (list byte) slave'
          = m_crytoMasterKey (list byte) master ++ repeat x08 8
       /\ engine_ready (m_context (list byte) slave') = true
       /\ engine_key (m_context (list byte) slave')
          = m_crytoMasterKey (list byte) master.
Proof.
  intros master slave.
  assert (Hlen : key_len EVP_aes_192_cbc <= GetSize (m_crytoMasterKey (list byte) master))
    by (vm_compute; discriminate).
  split; [reflexivity|]. split; [reflexivity|]. split; [reflexivity|].
  split; [reflexivity|]. split; [exact Hlen|].
  destruct (DecodeMediaKey_EncodeMediaKey xor_cipher xor_cipher true
              xor_cipher_length xor_cipher_length xor_cipher_involutive
              OID_aes128_cbc OID_aes192_cbc OID_aes256_cbc true (list byte)
              master slave EVP_aes_192_cbc
              eq_refl eq_refl eq_refl eq_refl eq_refl eq_refl Hlen)
    as (wrapped & master' & slave' & HE & Hw & HD & HK & _ & Hr & Hk).
  exists wrapped, master', slave'.
  split; [exact HE|]. split; [rewrite Hw; reflexivity|]. split; [exact HD|].
  split; [rewrite HK; reflexivity|]. split; [exact Hr|].
  rewrite Hk. reflexivity.
Defined.

Lemma ReadFrame_WriteFrame_roundtrip_witness :
  let master := demo_created OID_aes128_cbc true in
  engine_ready (m_context (list byte) master) = true
  /\ IV_SEQUENCE_LEN <= GetSize (frame_sequence demo_frame)
  /\ exists sender' sent receiver' received,
       WriteFrame xor_cipher xor_cipher true (list byte) master demo_frame
       = Some (true, sender', sent)
       /\ frame_padding sent = true /\ GetPayloadSize sent = 16
       /\ ReadFrame xor_cipher xor_cipher true (list byte) master sent
          = Some (true, receiver', received)
       /\ frame_payload received = demo_ABCD /\ frame_padding received = false.
Proof.
  intros master.
  assert (Hseq : IV_SEQUENCE_LEN <= GetSize (frame_sequence demo_frame))
    by (vm_compute; discriminate).
  split; [reflexivity|]. split; [exact Hseq|].
  destruct (ReadFrame_WriteFrame_roundtrip xor_cipher xor_cipher true
              xor_cipher_length xor_cipher_length xor_cipher_involutive
              (list byte) master master demo_frame eq_refl eq_refl eq_refl Hseq)
    as (sender' & sent & receiver' & received
        & HW & _ & Hp & Hl & HR & Hpay & Hpad & _).
  exists sender', sent, receiver', received.
  split; [exact HW|]. split; [rewrite Hp; reflexivity|].
  split; [rewrite Hl; reflexivity|]. split; [exact HR|].
  split; [exact Hpay|exact Hpad].
Defined.

Lemma frames_without_key_are_emptied_witness :
  let slave := demo_created OID_aes128_cbc false in
  m_isInitialised (list byte) slave = true
  /\ m_initialised (m_context (list byte) slave) = false
  /\ exists s' frame',
       WriteFrame xor_cipher xor_cipher true (list byte) slave demo_frame
       = Some (true, s', frame')
       /\ ReadFrame xor_cipher xor_cipher true (list byte) slave demo_frame
          = Some (true, s', frame')
       /\ frame_payload frame' = [].
Proof.
  intros slave. split; [reflexivity|]. split; [reflexivity|].
  destruct (frames_without_key_are_emptied xor_cipher xor_cipher true (list byte)
              slave demo_frame eq_refl)
    as (s' & frame' & HW & HR & Hp & _).
  exists s', frame'. auto.
Defined.

Lemma session_end_to_end_witness :
  select_cipher OID_aes128_cbc OID_aes192_cbc OID_aes256_cbc true OID_aes192_cbc
  = Some EVP_aes_192_cbc
  /\ key_len EVP_aes_192_cbc <= GetSize (repeat x07 128)
  /\ IV_SEQUENCE_LEN <= GetSize (frame_sequence demo_frame)
  /\ exists master randm' slave rands' wrapped master1 slave1,
       CreateSession OID_aes128_cbc OID_aes192_cbc OID_aes256_cbc true
         (list byte) (fun dh => dh) (demo_session OID_aes192_cbc) true (fun _ => x2a)
       = (true, master, randm')
       /\ CreateSession OID_aes128_cbc OID_aes192_cbc OID_aes256_cbc true
            (list byte) (fun dh => dh) (demo_session OID_aes192_cbc) false
            (fun _ => x5c)
          = (true, slave, rands')
       /\ EncodeMediaKey xor_cipher xor_cipher true (list byte) master
          = Some (wrapped, master1)
       /\ DecodeMediaKey xor_cipher xor_cipher true OID_aes128_cbc OID_aes192_cbc
            OID_aes256_cbc true (list byte) slave wrapped
          = Some (true, slave1)
       /\ (exists master2 sent slave2 received,
             WriteFrame xor_cipher xor_cipher true (list byte) master1 demo_frame
             = Some (true, master2, sent)
             /\ ReadFrame xor_cipher xor_cipher true (list byte) slave1 sent
                = Some (true, slave2, received)
             /\ frame_payload received = frame_payload demo_frame)
       /\ (exists slave2 sent master2 received,
             WriteFrame xor_cipher xor_cipher true (list byte) slave1 demo_frame
             = Some (true, slave2, sent)
             /\ ReadFrame xor_cipher xor_cipher true (list byte) master1 sent
                = Some (true, master2, received)
             /\ frame_payload received = frame_payload demo_frame).
Proof.
  assert (Hlen : key_len EVP_aes_192_cbc <= GetSize (repeat x07 128))
    by (vm_compute; discriminate).
  assert (Hseq : IV_SEQUENCE_LEN <= GetSize (frame_sequence demo_frame))
    by (vm_compute; discriminate).
  split; [reflexivity|]. split; [exact Hlen|]. split; [exact Hseq|].
  exact (session_end_to_end xor_cipher xor_cipher true
           xor_cipher_length xor_cipher_length xor_cipher_involutive
           OID_aes128_cbc OID_aes192_cbc OID_aes256_cbc true (list byte)
           (fun dh => dh) (repeat x07 128) (repeat x07 128) OID_aes192_cbc
           EVP_aes_192_cbc (fun _ => x2a) (fun _ => x5c) demo_frame
           eq_refl eq_refl Hlen Hseq).
Defined.

Lemma Decrypt_output_fits_witness :
  engine_ready demo_engine = true /\ seed_ok (Some demo_seed) = true
  /\ (exists out e1, Decrypt xor_cipher xor_cipher true demo_engine demo_twenty
                       (Some demo_seed) true = Some (out, e1, false)
                     /\ GetSize out <= GetSize demo_twenty)
  /\ (exists n out e2 flag,
        DecryptInPlace xor_cipher xor_cipher true demo_engine demo_twenty
          (GetSize demo_twenty) (Some demo_seed) true = Some (n, out, e2, flag)
        /\ n = GetSize out /\ n <= GetSize demo_twenty).
Proof.
  split; [reflexivity|]. split; [reflexivity|].
  exact (Decrypt_output_fits xor_cipher xor_cipher true
           xor_cipher_length xor_cipher_length
           demo_engine demo_twenty (Some demo_seed) true eq_refl eq_refl).
Defined.

(** A stream of 27 bytes passed in as 4, 20 and 3 bytes. *)
Lemma EncryptUpdate_any_chunking_witness :
  let inputs := [demo_ABCD; demo_twenty; [x01; x02; x03]] in
  block_size (cipher demo_encrypt_ctx) = 16
  /\ cipher_mode (cipher demo_encrypt_ctx) = EVP_CIPH_CBC_MODE
  /\ 16 <= GetSize (buf H235CryptoHelper_new)
  /\ exists h,
       EncryptUpdate_calls xor_cipher xor_cipher true (Reset H235CryptoHelper_new)
         demo_encrypt_ctx inputs
       = Some (fst (cbc_run xor_cipher xor_cipher demo_encrypt_ctx (concat inputs) 1),
               h,
               set_ctx_iv demo_encrypt_ctx
                 (snd (cbc_run xor_cipher xor_cipher demo_encrypt_ctx
                         (concat inputs) 1)))
       /\ buf_len h = 11
       /\ firstn 11 (buf h) = skipn 16 (concat inputs).
Proof.
  intros inputs.
  assert (Hbuf : 16 <= GetSize (buf H235CryptoHelper_new))
    by (vm_compute; discriminate).
  split; [reflexivity|]. split; [reflexivity|]. split; [exact Hbuf|].
  destruct (EncryptUpdate_any_chunking xor_cipher xor_cipher true H235CryptoHelper_new
              demo_encrypt_ctx inputs eq_refl eq_refl Hbuf)
    as (h & HC & Hb & Hst).
  exists h. split; [exact HC|]. split; [exact Hb|].
  rewrite Hb in Hst. exact Hst.
Defined.

(** A stream of 32 bytes passed in as 4, 20 and 8 bytes. *)
Lemma DecryptUpdate_any_chunking_witness :
  let inputs := [demo_ABCD; demo_twenty; repeat x08 8] in
  block_size (cipher demo_decrypt_ctx) = 16
  /\ cipher_mode (cipher demo_decrypt_ctx) = EVP_CIPH_CBC_MODE
  /\ no_padding demo_decrypt_ctx = false
  /\ length (ctx_iv demo_decrypt_ctx) = 16%nat
  /\ 16 <= GetSize (buf H235CryptoHelper_new)
  /\ exists out h ctx',
       DecryptUpdate_calls xor_cipher xor_cipher true (Reset H235CryptoHelper_new)
         demo_decrypt_ctx inputs
       = Some (out, h, ctx')
       /\ out ++ retained h
          = fst (cbc_run xor_cipher xor_cipher demo_decrypt_ctx (concat inputs) 2)
       /\ final_used h = 1 /\ buf_len h = 0.
Proof.
  intros inputs.
  assert (Hbuf : 16 <= GetSize (buf H235CryptoHelper_new))
    by (vm_compute; discriminate).
  split; [reflexivity|]. split; [reflexivity|]. split; [reflexivity|].
  split; [reflexivity|]. split; [exact Hbuf|].
  destruct (DecryptUpdate_any_chunking xor_cipher xor_cipher true
              xor_cipher_length xor_cipher_length H235CryptoHelper_new
              demo_decrypt_ctx inputs eq_refl eq_refl eq_refl eq_refl Hbuf)
    as (out & h & ctx' & HC & Heq & Hfu & Hb & _).
  exists out, h, ctx'. split; [exact HC|]. split; [exact Heq|].
  split; [exact Hfu|exact Hb].
Defined.

Lemma SetIV_any_length_witness :
  0 <= 10 <= GetSize (repeat xff 16) /\ IV_SEQUENCE_LEN <= GetSize demo_seed
  /\ SetIV (repeat xff 16) (Some demo_seed) 10
     = demo_seed ++ firstn 4 demo_seed ++ repeat xff 6
  /\ SetIV (repeat xff 16) None 10 = repeat x00 10 ++ repeat xff 6.
Proof.
  assert (H1 : 0 <= 10 <= GetSize (repeat xff 16))
    by (vm_compute; split; discriminate).
  assert (H2 : IV_SEQUENCE_LEN <= GetSize demo_seed) by (vm_compute; discriminate).
  split; [exact H1|]. split; [exact H2|].
  destruct (SetIV_any_length (repeat xff 16) demo_seed 10 H1 H2) as (Hs & Hn & _).
  split; [rewrite Hs; reflexivity|rewrite Hn; reflexivity].
Defined.

Lemma packet_operations_keep_serving_witness :
  engine_ready demo_engine = true /\ seed_ok (Some demo_seed) = true
  /\ (exists out e' pad',
        Encrypt xor_cipher xor_cipher true demo_engine demo_twenty (Some demo_seed) false
        = Some (out, e', pad')
        /\ engine_ready e' = true /\ engine_key e' = engine_key demo_engine)
  /\ (exists n out e' pad',
        DecryptInPlace xor_cipher xor_cipher true demo_engine demo_twenty 20
          (Some demo_seed) false
        = Some (n, out, e', pad')
        /\ engine_ready e' = true /\ engine_key e' = engine_key demo_engine).
Proof.
  split; [reflexivity|]. split; [reflexivity|].
  destruct (packet_operations_keep_serving xor_cipher xor_cipher true demo_engine
              demo_twenty 20 (Some demo_seed) false eq_refl eq_refl)
    as (HE & _ & _ & HD).
  split; [exact HE|exact HD].
Defined.
